(** * micro-agent: the declarative composition engine of the document tools

    A shallow embedding of [tools/ppt_tools.py] and of the chart and
    entry-point parts of [tools/office_tools.py], followed by the properties
    of the engine that the specification states.

    Conventions of the embedding.
    - Python [float] values that are lengths in inches or chart values,
      which are drawn and compared, are exact rationals [Q].  The colour
      transforms truncate products of floats, where the rounding of the
      machine decides the digit: their factors are IEEE 754 binary64 numbers
      and their arithmetic is that of [SpecFloat] at precision 53.
    - Python [str] values are [string], the UTF-8 bytes of the text; [len]
      counts code points.  [lower] and [strip] are the methods of Python on
      ASCII text; a property that depends on them says so.
    - A Python exception is a value [Raise e] of the [result] type; the
      statements of a function are sequenced with [x <- e ;; k].
    - A [dict] read with [.get(key, default)] is a record whose optional
      keys are [option] fields; the theme, which is indexed by computed
      keys and merged with overrides, is an association list.
    - The document writer (python-pptx, matplotlib) is a collaborator: a
      slide is the list of the shapes that the builder asked it to draw, in
      call order. *)

From Stdlib Require Import ZArith QArith Qround Lqa Lia List String Ascii Bool.
From Stdlib Require Import DecimalString HexadecimalString.
From Stdlib Require Import Floats.SpecFloat.
Import ListNotations.
Close Scope Q_scope.
Open Scope string_scope.

(* ================================================================== *)
(** * Python values and exceptions *)
(* ================================================================== *)

Module Py.

Inductive exn : Type :=
| ValueError
| KeyError
| IndexError
| ZeroDivisionError
| TypeError
| OSError
| AttributeError
| OverflowError.

Inductive result (A : Type) : Type :=
| Ok (a : A)
| Raise (e : exn).
Arguments Ok {A} a.
Arguments Raise {A} e.

Definition bind {A B : Type} (m : result A) (k : A -> result B) : result B :=
  match m with
  | Ok a => k a
  | Raise e => Raise e
  end.

Definition of_option {A : Type} (e : exn) (o : option A) : result A :=
  match o with
  | Some a => Ok a
  | None => Raise e
  end.

(** [for x in xs: s = body(x, s)] *)
Fixpoint for_each {A St : Type} (body : A -> St -> result St) (xs : list A)
         (s : St) : result St :=
  match xs with
  | [] => Ok s
  | x :: xs' => bind (body x s) (for_each body xs')
  end.

(** [for i, x in enumerate(xs, start): s = body(i, x, s)] *)
Fixpoint for_enumerate {A St : Type} (body : nat -> A -> St -> result St)
         (start : nat) (xs : list A) (s : St) : result St :=
  match xs with
  | [] => Ok s
  | x :: xs' => bind (body start x s) (for_enumerate body (S start) xs')
  end.

(** [a / b] on floats. *)
Definition div (a b : Q) : result Q :=
  if Qeq_bool b 0%Q then Raise ZeroDivisionError else Ok (a / b)%Q.

(** [a < b] on floats. *)
Definition lt (a b : Q) : bool := negb (Qle_bool b a).

(** [int(x)] on a float: truncation toward zero. *)
Definition int (x : Q) : Z := Z.quot (Qnum x) (Zpos (Qden x)).

(** [str(n)] on a non-negative integer. *)
Definition str_nat (n : nat) : string :=
  DecimalString.NilZero.string_of_uint (Nat.to_uint n).

(** [str(z)] on an integer. *)
Definition str_int (z : Z) : string :=
  DecimalString.NilZero.string_of_int (Z.to_int z).

(** An [int] used in float arithmetic. *)
Definition float_of_nat (n : nat) : Q := inject_Z (Z.of_nat n).

(** ** Machine floats: IEEE 754 binary64 *)

Definition float : Type := spec_float.

Definition prec : Z := 53.
Definition emax : Z := 1024.

(** [float(z)], rounded to nearest, ties to even. *)
Definition float_of_Z (z : Z) : float := binary_normalize prec emax z 0 false.

(** [x * y], [x + y] and [x / y] on floats. *)
Definition fmul : float -> float -> float := SFmul prec emax.
Definition fadd : float -> float -> float := SFadd prec emax.
Definition fdiv : float -> float -> float := SFdiv prec emax.

(** A decimal literal of the source, such as [0.7]: the double nearest to
    the rational that the literal denotes. *)
Definition double (q : Q) : float :=
  fdiv (float_of_Z (Qnum q)) (float_of_Z (Zpos (Qden q))).

Arguments double q%_Q.

(** [int(x)] on a machine float: truncation toward zero; [OverflowError]
    on an infinity, [ValueError] on a NaN. *)
Definition int_of_float (x : float) : result Z :=
  match x with
  | S754_zero _ => Ok 0%Z
  | S754_finite s m e =>
      let a := match e with
               | Zneg p => Z.shiftr (Zpos m) (Zpos p)
               | _ => (Zpos m * 2 ^ e)%Z
               end in
      Ok (if s then Z.opp a else a)
  | S754_infinity _ => Raise OverflowError
  | S754_nan => Raise ValueError
  end.

(** Truthiness of a string: [if s:]. *)
Definition truthy (s : string) : bool :=
  match s with
  | EmptyString => false
  | _ => true
  end.

Definition get {A : Type} (o : option A) (default : A) : A :=
  match o with
  | Some a => a
  | None => default
  end.

(** ** The string methods the engine calls *)

(** A byte that continues a UTF-8 sequence. *)
Definition is_continuation (c : ascii) : bool :=
  let n := nat_of_ascii c in
  ((128 <=? n) && (n <? 192))%nat.

(** [len(s)]: the number of code points. *)
Fixpoint len (s : string) : nat :=
  match s with
  | String c s' => if is_continuation c then len s' else S (len s')
  | EmptyString => 0%nat
  end.


Definition is_space (c : ascii) : bool :=
  let n := nat_of_ascii c in
  (((9 <=? n) && (n <=? 13)) || ((28 <=? n) && (n <=? 32)))%nat.

Fixpoint lstrip (s : string) : string :=
  match s with
  | String c s' => if is_space c then lstrip s' else s
  | EmptyString => EmptyString
  end.

Fixpoint rstrip (s : string) : string :=
  match s with
  | String c s' =>
      match rstrip s' with
      | EmptyString => if is_space c then EmptyString else String c EmptyString
      | r => String c r
      end
  | EmptyString => EmptyString
  end.

Definition strip (s : string) : string := rstrip (lstrip s).

(** [s.lstrip(ch)] for a one-character argument. *)
Fixpoint lstrip_char (ch : ascii) (s : string) : string :=
  match s with
  | String c s' => if Ascii.eqb c ch then lstrip_char ch s' else s
  | EmptyString => EmptyString
  end.

Definition lower_char (c : ascii) : ascii :=
  let n := nat_of_ascii c in
  if ((65 <=? n) && (n <=? 90))%nat then ascii_of_nat (n + 32) else c.

Definition upper_char (c : ascii) : ascii :=
  let n := nat_of_ascii c in
  if ((97 <=? n) && (n <=? 122))%nat then ascii_of_nat (n - 32) else c.

Fixpoint map_string (f : ascii -> ascii) (s : string) : string :=
  match s with
  | String c s' => String (f c) (map_string f s')
  | EmptyString => EmptyString
  end.

Definition lower : string -> string := map_string lower_char.
Definition upper : string -> string := map_string upper_char.

(** [sep.join(parts)] *)
Fixpoint join (sep : string) (parts : list string) : string :=
  match parts with
  | [] => ""
  | [p] => p
  | p :: rest => p ++ sep ++ join sep rest
  end.

(** [s * n] *)
Fixpoint repeat_string (s : string) (n : nat) : string :=
  match n with
  | O => ""
  | S n' => s ++ repeat_string s n'
  end.

(** [s.zfill(w)]: the zeros go after a leading sign. *)
Definition zfill (w : nat) (s : string) : string :=
  let pad := repeat_string "0" (w - String.length s) in
  match s with
  | String c rest =>
      if Ascii.eqb c "+" || Ascii.eqb c "-" then String c (pad ++ rest) else pad ++ s
  | EmptyString => pad
  end.

(** ** [os.path] on POSIX paths *)

Definition isabs (p : string) : bool :=
  match p with
  | String "/" _ => true
  | _ => false
  end.

Fixpoint ends_with_slash (p : string) : bool :=
  match p with
  | EmptyString => false
  | String c EmptyString => Ascii.eqb c "/"
  | String _ rest => ends_with_slash rest
  end.

Definition path_join (a b : string) : string :=
  if isabs b then b
  else if negb (truthy a) || ends_with_slash a then a ++ b
  else a ++ "/" ++ b.

(** [p[:p.rfind("/") + 1]] *)
Fixpoint head_upto_last_slash (p : string) : string :=
  match p with
  | EmptyString => EmptyString
  | String c rest =>
      match head_upto_last_slash rest with
      | EmptyString => if Ascii.eqb c "/" then String c EmptyString else EmptyString
      | h => String c h
      end
  end.

Fixpoint all_slashes (p : string) : bool :=
  match p with
  | EmptyString => true
  | String c rest => Ascii.eqb c "/" && all_slashes rest
  end.

Fixpoint rstrip_slashes (p : string) : string :=
  match p with
  | EmptyString => EmptyString
  | String c rest =>
      match rstrip_slashes rest with
      | EmptyString => if Ascii.eqb c "/" then EmptyString else String c EmptyString
      | r => String c r
      end
  end.

Definition dirname (p : string) : string :=
  let head := head_upto_last_slash p in
  if truthy head && negb (all_slashes head) then rstrip_slashes head else head.

(** ** [int(s, 16)] *)

Definition hex_digit (c : ascii) : option Z :=
  let n := nat_of_ascii c in
  if ((48 <=? n) && (n <=? 57))%nat then Some (Z.of_nat (n - 48))
  else if ((97 <=? n) && (n <=? 102))%nat then Some (Z.of_nat (n - 87))
  else if ((65 <=? n) && (n <=? 70))%nat then Some (Z.of_nat (n - 55))
  else None.

(** Digits with single underscores between them; [acc] is [None] until the
    first digit has been read, [after_us] says that the previous character
    was an underscore. *)
Fixpoint hex_digits (s : string) (acc : option Z) (after_us : bool) : option Z :=
  match s with
  | EmptyString => if after_us then None else acc
  | String c s' =>
      if Ascii.eqb c "_"
      then match acc with
           | Some _ => if after_us then None else hex_digits s' acc true
           | None => None
           end
      else match hex_digit c with
           | Some d => hex_digits s' (Some (16 * Py.get acc 0 + d)%Z) false
           | None => None
           end
  end.

Definition hex_body (s : string) : option Z :=
  match s with
  | String "0" (String x rest) =>
      if Ascii.eqb x "x" || Ascii.eqb x "X"
      then match rest with
           | String "_" rest' => hex_digits rest' None false
           | _ => hex_digits rest None false
           end
      else hex_digits s None false
  | _ => hex_digits s None false
  end.

Definition int16 (s : string) : result Z :=
  of_option ValueError
    match strip s with
    | String "-" s' => option_map Z.opp (hex_body s')
    | String "+" s' => hex_body s'
    | s' => hex_body s'
    end.

(** ** [f"{v:02x}"] *)

Definition hex_of_N (n : N) : string :=
  HexadecimalString.NilZero.string_of_uint (N.to_hex_uint n).

Definition format_02x (v : Z) : string :=
  match v with
  | Zneg p => "-" ++ hex_of_N (Npos p)
  | _ => zfill 2 (hex_of_N (Z.to_N v))
  end.

(** ** The record that a tool returns: [{"success": True, "file_path": ...,
    "message": ...}], with [slides_count] and [theme] for a presentation, or
    [{"error": ...}]. *)

Record SuccessRecord : Type := mkSuccess {
  file_path : string;
  slides_count : option nat;
  theme_name : option string;
  message : string
}.

Inductive ToolResult : Type :=
| Success (r : SuccessRecord)
| Error (error : string).

(** ** What the tools read from, and do to, their surroundings *)

Record Env : Type := mkEnv {
  workspace_path : option string;            (* [get_workspace_path()] *)
  path_exists : string -> bool;              (* [os.path.exists] *)
  makedirs : string -> result unit;          (* [os.makedirs(..., exist_ok=True)] *)
  save : string -> result unit;              (* the writer's [save] *)
  savefig : string -> result unit;           (* [fig.savefig] *)
  uuid_hex8 : string;                        (* [uuid.uuid4().hex[:8]] *)
  add_picture : string -> result unit        (* the writer's [add_picture] on a file *)
}.

End Py.

Import Py.

Notation "x <- e ;; k" := (Py.bind e (fun x => k))
  (at level 61, e at next level, right associativity).
Notation "' pat <- e ;; k" := (Py.bind e (fun x => let 'pat := x in k))
  (at level 61, pat pattern, e at next level, right associativity).

(* ================================================================== *)
(** * tools/ppt_tools.py *)
(* ================================================================== *)

Module Pptx.

(** ** Colours *)

Record RGBColor : Type := mkRGB { red : Z; green : Z; blue : Z }.

(** The writer's [RGBColor(r, g, b)] refuses a channel outside 0..255. *)
Definition rgb_color (r g b : Z) : result RGBColor :=
  if ((0 <=? r) && (r <=? 255) && (0 <=? g) && (g <=? 255)
      && (0 <=? b) && (b <=? 255))%Z
  then Ok (mkRGB r g b)
  else Raise ValueError.

Fixpoint double_chars (c : string) : string :=
  match c with
  | String ch rest => String ch (String ch (double_chars rest))
  | EmptyString => EmptyString
  end.

Definition _hex (color : string) : result RGBColor :=
  let c := lstrip_char "#" color in
  let c := if Nat.eqb (String.length c) 3 then double_chars c else c in
  r <- int16 (substring 0 2 c) ;;
  g <- int16 (substring 2 2 c) ;;
  b <- int16 (substring 4 2 c) ;;
  rgb_color r g b.

(** The channels are [int]s and the factor is a float: [r * factor] and
    [r + (255 - r) * factor] are float operations, each rounded, and [int]
    truncates the result. *)
Definition _darken (hex_color : string) (factor : float) : result string :=
  let c := lstrip_char "#" hex_color in
  r <- int16 (substring 0 2 c) ;;
  g <- int16 (substring 2 2 c) ;;
  b <- int16 (substring 4 2 c) ;;
  r <- int_of_float (fmul (float_of_Z r) factor) ;;
  g <- int_of_float (fmul (float_of_Z g) factor) ;;
  b <- int_of_float (fmul (float_of_Z b) factor) ;;
  Ok ("#" ++ format_02x r ++ format_02x g ++ format_02x b).

Definition _lighten (hex_color : string) (factor : float) : result string :=
  let c := lstrip_char "#" hex_color in
  r <- int16 (substring 0 2 c) ;;
  g <- int16 (substring 2 2 c) ;;
  b <- int16 (substring 4 2 c) ;;
  r <- int_of_float (fadd (float_of_Z r) (fmul (float_of_Z (255 - r)) factor)) ;;
  g <- int_of_float (fadd (float_of_Z g) (fmul (float_of_Z (255 - g)) factor)) ;;
  b <- int_of_float (fadd (float_of_Z b) (fmul (float_of_Z (255 - b)) factor)) ;;
  Ok ("#" ++ format_02x r ++ format_02x g ++ format_02x b).

(** ** Themes *)

Definition Theme : Type := list (string * string).

Fixpoint lookup {A : Type} (key : string) (d : list (string * A)) : option A :=
  match d with
  | [] => None
  | (k, v) :: rest => if String.eqb k key then Some v else lookup key rest
  end.

(** [d[key]] *)
Definition item (d : Theme) (key : string) : result string :=
  of_option KeyError (lookup key d).

(** [d.get(key, default)] *)
Definition get_or (d : Theme) (key default : string) : string :=
  Py.get (lookup key d) default.

(** [{**base, **over}]: a key of [over] wins. *)
Definition merge (base over : Theme) : Theme := (over ++ base)%list.

(** Every preset has [gradient_start = primary], [gradient_end = secondary]
    and a white [card_bg]. *)
Definition palette (primary secondary accent light dark text_dark text_light bg
                    card_border : string) : Theme :=
  [ ("primary", primary); ("secondary", secondary); ("accent", accent);
    ("light", light); ("dark", dark); ("text_dark", text_dark);
    ("text_light", text_light); ("bg", bg); ("gradient_start", primary);
    ("gradient_end", secondary); ("card_bg", "#FFFFFF");
    ("card_border", card_border) ].

Definition midnight : Theme :=
  palette "#2C3E50" "#34495E" "#1ABC9C" "#EBF5FB" "#1B2631" "#1C2833" "#FFFFFF"
          "#F8F9FA" "#AEB6BF".

Definition THEMES : list (string * Theme) :=
  [ ("ocean", palette "#1A5276" "#2980B9" "#3498DB" "#D6EAF8" "#0E2F44" "#1C2833"
                      "#FFFFFF" "#F0F8FF" "#AED6F1");
    ("forest", palette "#1E8449" "#27AE60" "#2ECC71" "#D5F5E3" "#0B3D1E" "#1C2833"
                       "#FFFFFF" "#F0FFF0" "#ABEBC6");
    ("sunset", palette "#C0392B" "#E74C3C" "#F39C12" "#FDEDEC" "#641E16" "#1C2833"
                       "#FFFFFF" "#FFF5F0" "#F5B7B1");
    ("royal", palette "#6C3483" "#8E44AD" "#BB8FCE" "#F4ECF7" "#3B1A5C" "#1C2833"
                      "#FFFFFF" "#FAF0FF" "#D2B4DE");
    ("midnight", midnight);
    ("coral", palette "#E8725C" "#F09E8C" "#F7C59F" "#FFF0EB" "#8B3A2F" "#2D2D2D"
                      "#FFFFFF" "#FFFAF8" "#F5C6BA");
    ("tech", palette "#0D47A1" "#1565C0" "#42A5F5" "#E3F2FD" "#0A1929" "#1A237E"
                     "#FFFFFF" "#F5F9FF" "#90CAF9");
    ("elegant", palette "#2C2C2C" "#555555" "#C9A96E" "#F5F0E8" "#1A1A1A" "#2C2C2C"
                        "#FFFFFF" "#FAFAF5" "#D5C4A1") ].

Definition _get_theme (name : string) : Theme :=
  Py.get (lookup name THEMES) midnight.

(** ** Dimensions *)

(** A dimension is a number of inches or a string that ends in [%]. *)
Inductive dimension : Type :=
| Num (inches : Q)
| Percent (p : Q).

(** [_inches(val)]: the length in inches that is handed to the writer's
    [Inches]. *)
Definition _inches (val : dimension) : Q :=
  match val with
  | Percent p => p / 100 * 13.333
  | Num v => v
  end%Q.

(** ** Text configuration and text frames *)

Record RunConfig : Type := mkRunConfig {
  rc_text : option string;
  rc_font_name : option string;
  rc_font_size : option Q;
  rc_color : option string;
  rc_bold : option bool;
  rc_italic : option bool;
  rc_underline : option bool
}.

Record ParagraphConfig : Type := mkParagraphConfig {
  pc_align : option string;
  pc_line_spacing : option Q;
  pc_space_before : option Q;
  pc_space_after : option Q;
  pc_runs : option (list RunConfig);
  pc_own : RunConfig
}.

Inductive BulletItem : Type :=
| BulletStr (s : string)
| BulletDict (text : option string) (level : option nat) (color : option string)
             (bold : option bool) (font_size : option Q).

Record TextConfig : Type := mkTextConfig {
  text : option string;
  paragraphs : option (list ParagraphConfig);
  bullets : option (list BulletItem);
  font_size : option Q;
  color : option string;
  bold : option bool;
  italic : option bool;
  underline : option bool;
  align : option string;
  vertical_anchor : option string;
  line_spacing : option Q;
  margin_left : option Q;
  margin_right : option Q;
  margin_top : option Q;
  margin_bottom : option Q
}.

(** A value that is either a string or a text configuration dict. *)
Inductive TextValue : Type :=
| AsStr (s : string)
| AsDict (cfg : TextConfig).

Inductive MSO_ANCHOR : Type := ANCHOR_TOP | ANCHOR_MIDDLE | ANCHOR_BOTTOM | ANCHOR_MIXED.

Inductive PP_ALIGN : Type :=
| ALIGN_CENTER | ALIGN_DISTRIBUTE | ALIGN_JUSTIFY | ALIGN_JUSTIFY_LOW | ALIGN_LEFT
| ALIGN_RIGHT | ALIGN_THAI_DISTRIBUTE | ALIGN_MIXED.

(** [getattr(MSO_ANCHOR, name, default)] *)
Definition anchor_named (name : string) (default : MSO_ANCHOR) : MSO_ANCHOR :=
  if String.eqb name "TOP" then ANCHOR_TOP
  else if String.eqb name "MIDDLE" then ANCHOR_MIDDLE
  else if String.eqb name "BOTTOM" then ANCHOR_BOTTOM
  else if String.eqb name "MIXED" then ANCHOR_MIXED
  else default.

(** [getattr(PP_ALIGN, name, default)] *)
Definition align_named (name : string) (default : PP_ALIGN) : PP_ALIGN :=
  if String.eqb name "CENTER" then ALIGN_CENTER
  else if String.eqb name "DISTRIBUTE" then ALIGN_DISTRIBUTE
  else if String.eqb name "JUSTIFY" then ALIGN_JUSTIFY
  else if String.eqb name "JUSTIFY_LOW" then ALIGN_JUSTIFY_LOW
  else if String.eqb name "LEFT" then ALIGN_LEFT
  else if String.eqb name "RIGHT" then ALIGN_RIGHT
  else if String.eqb name "THAI_DISTRIBUTE" then ALIGN_THAI_DISTRIBUTE
  else if String.eqb name "MIXED" then ALIGN_MIXED
  else default.

Record Run : Type := mkRun {
  run_text : string;
  run_font_name : string;
  run_font_size : Q;
  run_color : RGBColor;
  run_bold : bool;
  run_italic : bool;
  run_underline : bool
}.

Record Paragraph : Type := mkParagraph {
  par_alignment : option PP_ALIGN;
  par_line_spacing : option Q;
  par_space_before : option Q;
  par_space_after : option Q;
  par_level : nat;
  par_runs : list Run
}.

Record TextFrame : Type := mkTextFrame {
  tf_margin_left : Q;
  tf_margin_right : Q;
  tf_margin_top : Q;
  tf_margin_bottom : Q;
  tf_vertical_anchor : MSO_ANCHOR;
  tf_paragraphs : list Paragraph
}.

(** The single empty paragraph of a fresh text frame. *)
Definition blank_paragraph : Paragraph := mkParagraph None None None None 0 [].

(** [Pt(points)]: [int(points * 12700)], a length in EMU.  The product of
    an [int] is exact; that of a float is a float, rounded before [int]
    cuts it. *)
Definition Pt (points : Q) : result Z :=
  match Qden points with
  | 1%positive => Ok (Qnum points * 12700)%Z
  | _ => int_of_float (fmul (double points) (float_of_Z 12700))
  end.

(** [font.size = Pt(points)]: the writer stores the size in hundredths of a
    point, [emu // 127], and refuses one outside 100..400000 with
    [ValueError]. *)
Definition set_font_size (points : Q) : result unit :=
  emu <- Pt points ;;
  let sz := (emu / 127)%Z in
  if ((100 <=? sz) && (sz <=? 400000))%Z then Ok tt else Raise ValueError.

(** [p.level = level]: the writer refuses a level above 8 with
    [ValueError]. *)
Definition set_level (level : nat) : result unit :=
  if (level <=? 8)%nat then Ok tt else Raise ValueError.

Definition _set_run_style (run_text font_name : string) (font_size : Q)
           (color : string) (bold italic underline : bool) : result Run :=
  _ <- set_font_size font_size ;;
  rgb <- _hex color ;;
  Ok (mkRun run_text font_name font_size rgb bold italic underline).

(** The paragraphs written by a loop that reuses [tf.paragraphs[0]] for its
    first item and adds a paragraph for every later one. *)
Definition written_paragraphs (ps : list Paragraph) : list Paragraph :=
  match ps with
  | [] => [blank_paragraph]
  | _ => ps
  end.

Fixpoint map_result {A B : Type} (f : A -> result B) (xs : list A) : result (list B) :=
  match xs with
  | [] => Ok []
  | x :: xs' => y <- f x ;; ys <- map_result f xs' ;; Ok (y :: ys)
  end.

Definition _add_text_to_frame (text_config : TextConfig) (default_font : string)
  : result TextFrame :=
  let margin_l := Py.get (margin_left text_config) 10%Q in
  let margin_r := Py.get (margin_right text_config) 10%Q in
  let margin_t := Py.get (margin_top text_config) 5%Q in
  let margin_b := Py.get (margin_bottom text_config) 5%Q in
  let v_anchor := Py.get (vertical_anchor text_config) "TOP" in
  let anchor := anchor_named (upper v_anchor) ANCHOR_TOP in
  let frame := mkTextFrame margin_l margin_r margin_t margin_b anchor in
  let font_size := Py.get (font_size text_config) 18%Q in
  let color := Py.get (color text_config) "#333333" in
  let bold := Py.get (bold text_config) false in
  let italic := Py.get (italic text_config) false in
  let align_str := Py.get (align text_config) "LEFT" in
  let alignment := align_named (upper align_str) ALIGN_LEFT in
  let line_spacing := Py.get (line_spacing text_config) 1.2%Q in
  match text text_config, paragraphs text_config, bullets text_config with
  | Some t, _, _ =>
      (* Simple text *)
      run <- _set_run_style t default_font font_size color bold italic
                            (Py.get (underline text_config) false) ;;
      Ok (frame [mkParagraph (Some alignment) (Some line_spacing) None None 0 [run]])
  | None, Some paras, _ =>
      (* Paragraphs list *)
      ps <- map_result
              (fun para_cfg =>
                 let own := pc_own para_cfg in
                 let style rc :=
                   _set_run_style (Py.get (rc_text rc) "")
                                  (Py.get (rc_font_name rc) default_font)
                                  (Py.get (rc_font_size rc) font_size)
                                  (Py.get (rc_color rc) color)
                                  (Py.get (rc_bold rc) bold)
                                  (Py.get (rc_italic rc) italic)
                                  (Py.get (rc_underline rc) false) in
                 runs <- match pc_runs para_cfg with
                         | Some run_cfgs => map_result style run_cfgs
                         | None => run <- style own ;; Ok [run]
                         end ;;
                 Ok (mkParagraph
                       (Some (align_named (upper (Py.get (pc_align para_cfg) align_str))
                                          alignment))
                       (Some (Py.get (pc_line_spacing para_cfg) line_spacing))
                       (Some (Py.get (pc_space_before para_cfg) 4%Q))
                       (Some (Py.get (pc_space_after para_cfg) 4%Q))
                       0 runs))
              paras ;;
      Ok (frame (written_paragraphs ps))
  | None, None, Some items =>
      (* Bullet list *)
      ps <- map_result
              (fun item =>
                 let '(bullet_text, bullet_level, item_color, item_bold, item_size) :=
                   match item with
                   | BulletStr s => (s, 0, color, bold, font_size)
                   | BulletDict t l c b fs =>
                       (Py.get t "", Py.get l 0, Py.get c color, Py.get b bold,
                        Py.get fs font_size)
                   end in
                 _ <- set_level bullet_level ;;
                 let prefix := repeat_string "  " bullet_level ++ "•  " in
                 run <- _set_run_style (prefix ++ bullet_text) default_font item_size
                                       item_color item_bold italic false ;;
                 Ok (mkParagraph (Some alignment) (Some line_spacing) (Some 3%Q)
                                 (Some 3%Q) bullet_level [run]))
              items ;;
      Ok (frame (written_paragraphs ps))
  | None, None, None => Ok (frame [blank_paragraph])
  end.

(** ** Gradient fill via XML *)

Inductive StopColor : Type :=
| StopRGB (c : RGBColor)        (* set through the writer *)
| StopVal (val : string).       (* the [val] attribute of an added [a:srgbClr] *)

(** A stop of the [a:gsLst] element; [stop_pos] is its [pos] attribute, in
    1/1000ths of a percent. *)
Record GradientStop : Type := mkStop { stop_pos : Z; stop_color : StopColor }.

(** The writer stores [stop.position = p] as [pos = p * 100000]. *)
Definition position_attr (p : Q) : Z := int (p * 100000).

Record ExtraStop : Type := mkExtraStop { pos : Q; es_color : string }.

(** [stops[i].color.rgb = rgb; stops[i].position = p] *)
Definition set_stop (stops : list GradientStop) (i : nat) (rgb : RGBColor) (p : Q)
  : result (list GradientStop) :=
  match nth_error stops i with
  | Some _ =>
      Ok (firstn i stops ++ mkStop (position_attr p) (StopRGB rgb) :: skipn (S i) stops)%list
  | None => Raise IndexError
  end.

(** [stops] is the stop list of the fill once [fill.gradient()] has run; the
    result is the stop list of the fill when the function returns.  The
    angle is stored on the fill and does not touch the stops.

    With extra stops the function asks [fill._fill] for [findall]: that
    object is the writer's gradient-fill proxy, not an XML element, and has
    no such attribute, so the lookup raises [AttributeError] before any stop
    is added. *)
Definition _apply_gradient_fill (stops : list GradientStop)
           (color_start color_end : string) (extra_stops : list ExtraStop)
  : result (list GradientStop) :=
  (* Set first stop *)
  c0 <- _hex color_start ;;
  stops <- set_stop stops 0 c0 0 ;;
  (* Set last stop *)
  c1 <- _hex color_end ;;
  stops <- set_stop stops 1 c1 1 ;;
  (* Add extra stops via XML if needed *)
  match extra_stops with
  | [] => Ok stops
  | _ => Raise AttributeError       (* [fill._fill.findall] *)
  end.

(** ** Shapes *)

Inductive MSO_SHAPE : Type :=
| ROUNDED_RECTANGLE
| OVAL
| RECTANGLE
| SHAPE_NAMED (upper_name : string).
    (* [getattr(MSO_SHAPE, upper_name, MSO_SHAPE.ROUNDED_RECTANGLE)] *)

Record Line : Type := mkLine { line_color : RGBColor; line_width : Q }.

Inductive XL_CHART_TYPE : Type :=
| COLUMN_CLUSTERED | COLUMN_STACKED | BAR_CLUSTERED | BAR_STACKED | LINE_MARKERS
| LINE_MARKERS_STACKED | PIE | DOUGHNUT | AREA | AREA_STACKED | XY_SCATTER.

Inductive ChartData : Type :=
| CategoryChartData (categories : list string) (series : list (string * list Q))
| XyChartData (series : list (string * list (Q * Q))).

Inductive Legend : Type :=
| LegendUntouched
| LegendShown (position_name : string)
    (* [getattr(XL_LEGEND_POSITION, position_name, XL_LEGEND_POSITION.BOTTOM)] *)
| LegendHidden.

(** [chart_data] is the data handed to the writer, which it stores in the
    workbook behind the chart; [plotted] is the data of the series that the
    chart itself has, and shows. *)
Record NativeChart : Type := mkNativeChart {
  xl_type : XL_CHART_TYPE;
  chart_data : ChartData;
  plotted : ChartData;
  chart_title : option string;
  legend : Legend;
  data_labels : option string;          (* the number format *)
  series_fills : list RGBColor
}.

Record Cell : Type := mkCell {
  cell_text : string;
  cell_fill : RGBColor;
  cell_font_size : Q;
  cell_bold : bool;
  cell_font_color : RGBColor;
  cell_font_name : string
}.

Inductive Shape : Type :=
| AutoShape (kind : MSO_SHAPE) (left top width height : Q) (fill : RGBColor)
            (line : option Line) (shadow : bool) (frame : option TextFrame)
            (rotation : option Q)
| TextBox (left top width height : Q) (frame : TextFrame)
| Picture (path : string) (left top width height : Q)
| GraphicFrame (left top width height : Q) (chart : NativeChart)
| TableShape (rows cols : nat) (left top width height : Q) (cells : list (list Cell)).

Inductive Background : Type :=
| NoBackground
| SolidBackground (c : RGBColor)
| GradientBackground (c_start c_end : RGBColor) (angle : Q).

Record Slide : Type := mkSlide { background : Background; shapes : list Shape }.

(** The slide returned by [prs.slides.add_slide(prs.slide_layouts[6])]. *)
Definition blank_slide : Slide := mkSlide NoBackground [].

Definition add_shape (slide : Slide) (sh : Shape) : Slide :=
  mkSlide (background slide) (shapes slide ++ [sh]).

Coercion Num : Q >-> dimension.

Definition _apply_bg_gradient (slide : Slide) (color_start color_end : string)
           (angle : Q) : result Slide :=
  c0 <- _hex color_start ;;
  c1 <- _hex color_end ;;
  Ok (mkSlide (GradientBackground c0 c1 angle) (shapes slide)).

Definition _apply_bg_solid (slide : Slide) (color : string) : result Slide :=
  c <- _hex color ;;
  Ok (mkSlide (SolidBackground c) (shapes slide)).

(** [if border_color and border_width > 0: ... else: shape.line.fill.background()] *)
Definition border (border_color : option string) (border_width : Q)
  : result (option Line) :=
  match border_color with
  | Some bc =>
      if truthy bc && Py.lt 0 border_width
      then rgb <- _hex bc ;; Ok (Some (mkLine rgb border_width))
      else Ok None
  | None => Ok None
  end.

Definition _add_rounded_rect (slide : Slide) (left top width height : dimension)
           (fill_color : string) (border_color : option string) (border_width : Q)
           (shadow : bool) : result Slide :=
  fill <- _hex fill_color ;;
  line <- border border_color border_width ;;
  Ok (add_shape slide
        (AutoShape ROUNDED_RECTANGLE (_inches left) (_inches top) (_inches width)
                   (_inches height) fill line shadow None None)).

Definition _add_circle (slide : Slide) (left top size : dimension) (fill_color : string)
           (border_color : option string) (border_width : Q) : result Slide :=
  fill <- _hex fill_color ;;
  line <- border border_color border_width ;;
  Ok (add_shape slide
        (AutoShape OVAL (_inches left) (_inches top) (_inches size) (_inches size)
                   fill line false None None)).

Definition _add_decorative_bar (slide : Slide) (x y w h : dimension) (color : string)
  : result Slide :=
  fill <- _hex color ;;
  Ok (add_shape slide
        (AutoShape RECTANGLE (_inches x) (_inches y) (_inches w) (_inches h)
                   fill None false None None)).

Definition _add_text_box (slide : Slide) (left top width height : dimension)
           (text_config : TextConfig) (default_font : string) : result Slide :=
  frame <- _add_text_to_frame text_config default_font ;;
  Ok (add_shape slide
        (TextBox (_inches left) (_inches top) (_inches width) (_inches height) frame)).

Arguments _add_rounded_rect slide (left top width height)%_Q fill_color border_color
          border_width%_Q shadow.
Arguments _add_circle slide (left top size)%_Q fill_color border_color border_width%_Q.
Arguments _add_decorative_bar slide (x y w h)%_Q color.
Arguments _add_text_box slide (left top width height)%_Q text_config default_font.

(** ** Text configuration literals *)

(** [{"text": t, "font_size": fs, "color": c, "align": a}] *)
Definition literal (t : string) (fs : Q) (c a : string) : TextConfig :=
  mkTextConfig (Some t) None None (Some fs) (Some c) None None None (Some a) None None
               None None None None.

(** [{**cfg, "bold": True}] and the like. *)
Definition with_bold (cfg : TextConfig) : TextConfig :=
  mkTextConfig (text cfg) (paragraphs cfg) (bullets cfg) (font_size cfg) (color cfg)
               (Some true) (italic cfg) (underline cfg) (align cfg)
               (vertical_anchor cfg) (line_spacing cfg) (margin_left cfg)
               (margin_right cfg) (margin_top cfg) (margin_bottom cfg).

Definition with_italic (cfg : TextConfig) : TextConfig :=
  mkTextConfig (text cfg) (paragraphs cfg) (bullets cfg) (font_size cfg) (color cfg)
               (bold cfg) (Some true) (underline cfg) (align cfg)
               (vertical_anchor cfg) (line_spacing cfg) (margin_left cfg)
               (margin_right cfg) (margin_top cfg) (margin_bottom cfg).

Definition with_anchor (a : string) (cfg : TextConfig) : TextConfig :=
  mkTextConfig (text cfg) (paragraphs cfg) (bullets cfg) (font_size cfg) (color cfg)
               (bold cfg) (italic cfg) (underline cfg) (align cfg)
               (Some a) (line_spacing cfg) (margin_left cfg)
               (margin_right cfg) (margin_top cfg) (margin_bottom cfg).

Definition with_line_spacing (q : Q) (cfg : TextConfig) : TextConfig :=
  mkTextConfig (text cfg) (paragraphs cfg) (bullets cfg) (font_size cfg) (color cfg)
               (bold cfg) (italic cfg) (underline cfg) (align cfg)
               (vertical_anchor cfg) (Some q) (margin_left cfg)
               (margin_right cfg) (margin_top cfg) (margin_bottom cfg).

(** [{**cfg, "margin_left": 0, "margin_right": 0, "margin_top": 0,
      "margin_bottom": 0}] *)
Definition with_no_margins (cfg : TextConfig) : TextConfig :=
  mkTextConfig (text cfg) (paragraphs cfg) (bullets cfg) (font_size cfg) (color cfg)
               (bold cfg) (italic cfg) (underline cfg) (align cfg)
               (vertical_anchor cfg) (line_spacing cfg) (Some 0%Q)
               (Some 0%Q) (Some 0%Q) (Some 0%Q).

(** [{"text": s}] *)
Definition text_only (s : string) : TextConfig :=
  mkTextConfig (Some s) None None None None None None None None None None
               None None None None.

(** [{}] *)
Definition empty_config : TextConfig :=
  mkTextConfig None None None None None None None None None None None
               None None None None.

Definition is_some {A : Type} (o : option A) : bool :=
  match o with Some _ => true | None => false end.

(** Truthiness of a config dict: it has a key. *)
Definition config_truthy (cfg : TextConfig) : bool :=
  is_some (text cfg) || is_some (paragraphs cfg) || is_some (bullets cfg)
  || is_some (font_size cfg) || is_some (color cfg) || is_some (bold cfg)
  || is_some (italic cfg) || is_some (underline cfg) || is_some (align cfg)
  || is_some (vertical_anchor cfg) || is_some (line_spacing cfg)
  || is_some (margin_left cfg) || is_some (margin_right cfg)
  || is_some (margin_top cfg) || is_some (margin_bottom cfg).

Definition value_truthy (v : TextValue) : bool :=
  match v with
  | AsStr s => truthy s
  | AsDict cfg => config_truthy cfg
  end.

(** [v if isinstance(v, dict) else {"text": str(v)}] *)
Definition as_config (v : TextValue) : TextConfig :=
  match v with
  | AsStr s => text_only s
  | AsDict cfg => cfg
  end.

(** [cfg.setdefault("font_size", fs)] and the like. *)
Definition setdefault_font_size (fs : Q) (cfg : TextConfig) : TextConfig :=
  mkTextConfig (text cfg) (paragraphs cfg) (bullets cfg)
               (Some (Py.get (font_size cfg) fs)) (color cfg)
               (bold cfg) (italic cfg) (underline cfg) (align cfg)
               (vertical_anchor cfg) (line_spacing cfg) (margin_left cfg)
               (margin_right cfg) (margin_top cfg) (margin_bottom cfg).

Definition setdefault_color (c : string) (cfg : TextConfig) : TextConfig :=
  mkTextConfig (text cfg) (paragraphs cfg) (bullets cfg) (font_size cfg)
               (Some (Py.get (color cfg) c))
               (bold cfg) (italic cfg) (underline cfg) (align cfg)
               (vertical_anchor cfg) (line_spacing cfg) (margin_left cfg)
               (margin_right cfg) (margin_top cfg) (margin_bottom cfg).

Definition setdefault_line_spacing (q : Q) (cfg : TextConfig) : TextConfig :=
  mkTextConfig (text cfg) (paragraphs cfg) (bullets cfg) (font_size cfg) (color cfg)
               (bold cfg) (italic cfg) (underline cfg) (align cfg)
               (vertical_anchor cfg) (Some (Py.get (line_spacing cfg) q))
               (margin_left cfg) (margin_right cfg) (margin_top cfg)
               (margin_bottom cfg).

(** ** Native charts *)

Record SeriesConfig : Type := mkSeriesConfig {
  s_name : option string;
  s_values : option (list Q);
  s_x_values : option (list Q);
  s_y_values : option (list Q)
}.

Record ChartConfig : Type := mkChartConfig {
  chart_type : option string;
  categories : list string;
  series : list SeriesConfig;
  chart_config_title : option string;
  show_legend : option bool;
  legend_position : option string;
  show_data_labels : option bool;
  number_format : option string;
  colors : list string
}.

(** [chart_config.get("chart_type", "column")] has no chart in the dict
    when the slide carries none: [{}]. *)
Definition empty_chart_config : ChartConfig :=
  mkChartConfig None [] [] None None None None None [].

Definition type_map (chart_type_str : string) : XL_CHART_TYPE :=
  if String.eqb chart_type_str "COLUMN" then COLUMN_CLUSTERED
  else if String.eqb chart_type_str "COLUMN_STACKED" then COLUMN_STACKED
  else if String.eqb chart_type_str "BAR" then BAR_CLUSTERED
  else if String.eqb chart_type_str "BAR_STACKED" then BAR_STACKED
  else if String.eqb chart_type_str "LINE" then LINE_MARKERS
  else if String.eqb chart_type_str "LINE_SMOOTH" then LINE_MARKERS_STACKED
  else if String.eqb chart_type_str "PIE" then PIE
  else if String.eqb chart_type_str "DOUGHNUT" then DOUGHNUT
  else if String.eqb chart_type_str "AREA" then AREA
  else if String.eqb chart_type_str "AREA_STACKED" then AREA_STACKED
  else if String.eqb chart_type_str "SCATTER" then XY_SCATTER
  else COLUMN_CLUSTERED.

Definition native_chart_data (chart_type_str : string) (categories : list string)
           (series_data : list SeriesConfig) : ChartData :=
  if String.eqb chart_type_str "SCATTER"
  then XyChartData
         (map (fun s =>
                 let x_vals := Py.get (s_x_values s) [] in
                 let y_vals := Py.get (s_values s) (Py.get (s_y_values s) []) in
                 (Py.get (s_name s) "Series", combine x_vals y_vals))
              series_data)
  else CategoryChartData categories
         (map (fun s => (Py.get (s_name s) "Series", Py.get (s_values s) []))
              series_data).

(** [slide.shapes.add_chart]: the writer of a pie chart plots the first
    series, [chart_data[0]], and no other, and raises [IndexError] when
    there is none; the writer of every other type plots every series. *)
Definition add_chart (xl_type : XL_CHART_TYPE) (chart_data : ChartData)
  : result ChartData :=
  match xl_type, chart_data with
  | PIE, CategoryChartData categories [] => Raise IndexError
  | PIE, CategoryChartData categories (first :: _) =>
      Ok (CategoryChartData categories [first])
  | _, _ => Ok chart_data
  end.

(** [len(chart.series)] *)
Definition series_count (plotted : ChartData) : nat :=
  match plotted with
  | CategoryChartData _ series => List.length series
  | XyChartData series => List.length series
  end.

Definition _add_native_chart (slide : Slide) (chart_config : ChartConfig)
           (left top width height : dimension) : result Slide :=
  let chart_type_str := upper (Py.get (chart_type chart_config) "column") in
  let xl_type := type_map chart_type_str in
  let categories := categories chart_config in
  let series_data := series chart_config in
  let chart_data := native_chart_data chart_type_str categories series_data in
  plotted <- add_chart xl_type chart_data ;;
  (* Title *)
  let title :=
    match chart_config_title chart_config with
    | Some t => if truthy t then Some t else None
    | None => None
    end in
  (* Legend *)
  let legend :=
    if Py.get (show_legend chart_config) true && (1 <? List.length series_data)%nat
    then LegendShown (upper (Py.get (legend_position chart_config) "BOTTOM"))
    else if negb (Py.get (show_legend chart_config) true) then LegendHidden
    else LegendUntouched in
  (* Data labels *)
  let data_labels :=
    if Py.get (show_data_labels chart_config) false
    then Some (Py.get (number_format chart_config) "0")
    else None in
  (* Series colors: one per series of the chart, while colours remain *)
  fills <- map_result _hex (firstn (series_count plotted) (colors chart_config)) ;;
  Ok (add_shape slide
        (GraphicFrame (_inches left) (_inches top) (_inches width) (_inches height)
                      (mkNativeChart xl_type chart_data plotted title legend data_labels
                                     fills))).

Arguments _add_native_chart slide chart_config (left top width height)%_Q.

(** ** Tables *)

Record TableConfig : Type := mkTableConfig {
  table_left : option dimension;
  table_top : option dimension;
  table_width : option dimension;
  table_height : option dimension;
  data : list (list string);
  header_bg : option string;
  header_fg : option string;
  stripe_colors : option (list string);
  table_font_size : option Q;
  header_font_size : option Q
}.

Definition empty_table_config : TableConfig :=
  mkTableConfig None None None None [] None None None None None.

Fixpoint map_result_from {A B : Type} (f : nat -> A -> result B) (start : nat)
         (xs : list A) : result (list B) :=
  match xs with
  | [] => Ok []
  | x :: xs' => y <- f start x ;; ys <- map_result_from f (S start) xs' ;; Ok (y :: ys)
  end.

(** The slide as the function leaves it; the source returns the table shape,
    or [None] when it adds none. *)
Definition _add_styled_table (slide : Slide) (table_config : TableConfig)
           (theme : Theme) (default_font : string) : result Slide :=
  let data := data table_config in
  match data with
  | [] => Ok slide
  | first_row :: _ =>
      let rows := List.length data in
      let cols := List.length first_row in
      if (rows =? 0)%nat || (cols =? 0)%nat then Ok slide else
      let left := _inches (Py.get (table_left table_config) (Num 1)) in
      let top := _inches (Py.get (table_top table_config) (Num 2)) in
      let width := _inches (Py.get (table_width table_config) (Num 11)) in
      let height := _inches (Py.get (table_height table_config)
                                    (Num (inject_Z (Z.of_nat rows) * 0.5))) in
      primary <- item theme "primary" ;;
      let header_bg := Py.get (header_bg table_config) primary in
      let header_fg := Py.get (header_fg table_config) "#FFFFFF" in
      let stripe1 := "#FFFFFF" in
      let stripe2 := get_or theme "light" "#F5F5F5" in
      let stripes := Py.get (stripe_colors table_config) [stripe1; stripe2] in
      let font_size := Py.get (table_font_size table_config) 12%Q in
      let header_font_size := Py.get (header_font_size table_config) 13%Q in
      cells <- map_result_from
                 (fun r_idx row_data =>
                    map_result
                      (fun val =>
                         if (r_idx =? 0)%nat
                         then (* Header row *)
                           bg <- _hex header_bg ;;
                           _ <- set_font_size header_font_size ;;
                           fg <- _hex header_fg ;;
                           Ok (mkCell val bg header_font_size true fg default_font)
                         else (* Data rows with striping *)
                           let stripe_color :=
                             match stripes with
                             | [] => "#FFFFFF"
                             | _ => nth (r_idx mod List.length stripes) stripes ""
                             end in
                           bg <- _hex stripe_color ;;
                           _ <- set_font_size font_size ;;
                           fg <- _hex (get_or theme "text_dark" "#333333") ;;
                           Ok (mkCell val bg font_size false fg default_font))
                      (firstn cols row_data))
                 0%nat data ;;
      Ok (add_shape slide (TableShape rows cols left top width height cells))
  end.

(** ** Slide data *)

Record Element : Type := mkElement {
  e_type : option string;
  e_left : option dimension;
  e_top : option dimension;
  e_width : option dimension;
  e_height : option dimension;
  e_text : TextConfig;             (* the text keys of the element, [color] included *)
  shape_type : option string;
  e_border_color : option string;
  e_border_width : option Q;
  e_rotation : option Q;
  e_path : option string;
  e_chart : ChartConfig;           (* the chart keys of the element *)
  e_data : list (list string);     (* the table keys of the element *)
  e_header_bg : option string;
  e_header_fg : option string;
  e_stripe_colors : option (list string);
  e_header_font_size : option Q
}.

(** The element dict read as a table configuration. *)
Definition table_of_element (elem : Element) : TableConfig :=
  mkTableConfig (e_left elem) (e_top elem) (e_width elem) (e_height elem) (e_data elem)
                (e_header_bg elem) (e_header_fg elem) (e_stripe_colors elem)
                (font_size (e_text elem)) (e_header_font_size elem).

Record Column : Type := mkColumn {
  col_icon : option string;
  col_title : option string;
  col_content : option TextValue
}.

Record Card : Type := mkCard {
  card_icon : option string;
  card_title : option string;
  card_content : option TextValue
}.

Record Stat : Type := mkStat {
  stat_value : option string;
  stat_label : option string;
  stat_icon : option string;
  stat_description : option string
}.

Record Step : Type := mkStep {
  step_title : option string;
  step_description : option string;
  step_time_label : option string
}.

Inductive SectionNumber : Type :=
| SectionInt (z : Z)
| SectionStr (s : string).

Record SlideData : Type := mkSlideData {
  slide_type : option string;
  title : option string;
  subtitle : option string;
  author : option string;
  date : option string;
  section_number : option SectionNumber;
  content : option TextValue;
  elements : list Element;
  left_title : option string;
  right_title : option string;
  left_column : option TextValue;
  right_column : option TextValue;
  columns : list Column;
  cards : list Card;
  chart : option ChartConfig;
  description : option TextValue;
  stats : list Stat;
  steps : list Step;
  table : option TableConfig;
  image_path : option string;
  caption : option string;
  left_color : option string;
  right_color : option string;
  left_items : list BulletItem;
  right_items : list BulletItem;
  quote : option string;
  sd_text : option string;
  contact : option string
}.

(** [{}] *)
Definition empty_slide_data : SlideData :=
  mkSlideData None None None None None None None [] None None None None [] []
              None None [] [] None None None None None [] [] None None None.

(** [{**sd, "slide_type": st}] (the key is absent for [None]) *)
Definition with_slide_type (st : option string) (sd : SlideData) : SlideData :=
  mkSlideData st (title sd) (subtitle sd) (author sd) (date sd) (section_number sd)
    (content sd) (elements sd) (left_title sd) (right_title sd) (left_column sd)
    (right_column sd) (columns sd) (cards sd) (chart sd) (description sd) (stats sd)
    (steps sd) (table sd) (image_path sd) (caption sd) (left_color sd)
    (right_color sd) (left_items sd) (right_items sd) (quote sd) (sd_text sd)
    (contact sd).

(** [{**sd, "title": t}] *)
Definition with_title (t : option string) (sd : SlideData) : SlideData :=
  mkSlideData (slide_type sd) t (subtitle sd) (author sd) (date sd)
    (section_number sd) (content sd) (elements sd) (left_title sd) (right_title sd)
    (left_column sd) (right_column sd) (columns sd) (cards sd) (chart sd)
    (description sd) (stats sd) (steps sd) (table sd) (image_path sd) (caption sd)
    (left_color sd) (right_color sd) (left_items sd) (right_items sd) (quote sd)
    (sd_text sd) (contact sd).


(** [{**sd, "cards": cs}] *)
Definition with_cards (cs : list Card) (sd : SlideData) : SlideData :=
  mkSlideData (slide_type sd) (title sd) (subtitle sd) (author sd) (date sd)
    (section_number sd) (content sd) (elements sd) (left_title sd) (right_title sd)
    (left_column sd) (right_column sd) (columns sd) cs (chart sd) (description sd)
    (stats sd) (steps sd) (table sd) (image_path sd) (caption sd) (left_color sd)
    (right_color sd) (left_items sd) (right_items sd) (quote sd) (sd_text sd)
    (contact sd).

(** [{**sd, "stats": ss}] *)
Definition with_stats (ss : list Stat) (sd : SlideData) : SlideData :=
  mkSlideData (slide_type sd) (title sd) (subtitle sd) (author sd) (date sd)
    (section_number sd) (content sd) (elements sd) (left_title sd) (right_title sd)
    (left_column sd) (right_column sd) (columns sd) (cards sd) (chart sd)
    (description sd) ss (steps sd) (table sd) (image_path sd) (caption sd)
    (left_color sd) (right_color sd) (left_items sd) (right_items sd) (quote sd)
    (sd_text sd) (contact sd).

(** [{**sd, "steps": ss}] *)
Definition with_steps (ss : list Step) (sd : SlideData) : SlideData :=
  mkSlideData (slide_type sd) (title sd) (subtitle sd) (author sd) (date sd)
    (section_number sd) (content sd) (elements sd) (left_title sd) (right_title sd)
    (left_column sd) (right_column sd) (columns sd) (cards sd) (chart sd)
    (description sd) (stats sd) ss (table sd) (image_path sd) (caption sd)
    (left_color sd) (right_color sd) (left_items sd) (right_items sd) (quote sd)
    (sd_text sd) (contact sd).

(** [{**sd, "table": t}] *)
Definition with_table (t : option TableConfig) (sd : SlideData) : SlideData :=
  mkSlideData (slide_type sd) (title sd) (subtitle sd) (author sd) (date sd)
    (section_number sd) (content sd) (elements sd) (left_title sd) (right_title sd)
    (left_column sd) (right_column sd) (columns sd) (cards sd) (chart sd)
    (description sd) (stats sd) (steps sd) t (image_path sd) (caption sd)
    (left_color sd) (right_color sd) (left_items sd) (right_items sd) (quote sd)
    (sd_text sd) (contact sd).

(** ** The deck *)

Definition Presentation : Type := list Slide.

(** [slide = prs.slides.add_slide(prs.slide_layouts[6])]: the deck with the
    new slide, and the slide. *)
Definition add_slide (prs : Presentation) : Presentation * Slide :=
  (prs ++ [blank_slide], blank_slide)%list.

(** The slide object that a builder drew on is the last slide of the deck. *)
Definition drawn (prs : Presentation) (slide : Slide) : Presentation :=
  (removelast prs ++ [slide])%list.

Section Builders.

Variable env : Env.

Local Open Scope Q_scope.

(** [slide.shapes.add_picture(path, left, top, width, height)]: the writer
    opens the file and reads it as an image, which fails on a directory or
    on a file that is no image. *)
Definition shapes_add_picture (slide : Slide) (path : string)
           (left top width height : Q) : result Slide :=
  _ <- add_picture env path ;;
  Ok (add_shape slide (Picture path left top width height)).

(** *** Footer *)

Definition _add_slide_footer (slide : Slide) (prs : Presentation) (theme : Theme)
           (default_font : string) : result Slide :=
  (* Bottom accent bar *)
  accent <- item theme "accent" ;;
  slide <- _add_decorative_bar slide 0 7.2 13.333 0.04 accent ;;
  (* Slide number *)
  let slide_num := List.length prs in
  _add_text_box slide 12.2 7.0 0.8 0.3
    (with_anchor "MIDDLE"
       (literal (str_nat slide_num) 10 (get_or theme "secondary" "#888888") "RIGHT"))
    default_font.

(** *** Element dispatcher *)

Definition _add_element (slide : Slide) (elem : Element) (theme : Theme)
           (default_font : string) : result Slide :=
  let etype := Py.get (e_type elem) "text" in
  if String.eqb etype "text" then
    _add_text_box slide (Py.get (e_left elem) (Num 1)) (Py.get (e_top elem) (Num 2))
                  (Py.get (e_width elem) (Num 10)) (Py.get (e_height elem) (Num 1))
                  (e_text elem) default_font
  else if String.eqb etype "shape" then
    let shape_type := Py.get (shape_type elem) "ROUNDED_RECTANGLE" in
    let mso := SHAPE_NAMED (upper shape_type) in
    accent <- item theme "accent" ;;
    let color := Py.get (color (e_text elem)) accent in
    fill <- _hex color ;;
    line <- match e_border_color elem with
            | Some bc =>
                if truthy bc
                then rgb <- _hex bc ;;
                     Ok (Some (mkLine rgb (Py.get (e_border_width elem) 1)))
                else Ok None
            | None => Ok None
            end ;;
    frame <- match text (e_text elem) with
             | Some _ =>
                 tf <- _add_text_to_frame (e_text elem) default_font ;; Ok (Some tf)
             | None => Ok None
             end ;;
    Ok (add_shape slide
          (AutoShape mso (_inches (Py.get (e_left elem) (Num 1)))
                     (_inches (Py.get (e_top elem) (Num 2)))
                     (_inches (Py.get (e_width elem) (Num 3)))
                     (_inches (Py.get (e_height elem) (Num 1)))
                     fill line false frame (e_rotation elem)))
  else if String.eqb etype "image" then
    let workspace :=
      match workspace_path env with
      | Some w => if truthy w then w else "."
      | None => "."
      end in
    let img_path := Py.get (e_path elem) "" in
    let full_path := if isabs img_path then img_path else path_join workspace img_path in
    if path_exists env full_path
    then shapes_add_picture slide full_path
                            (_inches (Py.get (e_left elem) (Num 1)))
                            (_inches (Py.get (e_top elem) (Num 2)))
                            (_inches (Py.get (e_width elem) (Num 5)))
                            (_inches (Py.get (e_height elem) (Num 3)))
    else Ok slide
  else if String.eqb etype "chart" then
    _add_native_chart slide (e_chart elem)
                      (Py.get (e_left elem) (Num 1)) (Py.get (e_top elem) (Num 2))
                      (Py.get (e_width elem) (Num 8)) (Py.get (e_height elem) (Num 4.5))
  else if String.eqb etype "table" then
    _add_styled_table slide (table_of_element elem) theme default_font
  else Ok slide.

(** *** The title bar that opens the builders of the light slides:
    background bar, title text, accent underline. *)
Definition title_bar (slide : Slide) (title : string) (theme : Theme)
           (default_font : string) : result Slide :=
  primary <- item theme "primary" ;;
  slide <- _add_rounded_rect slide 0 0 13.333 1.1 primary None 0 false ;;
  text_light <- item theme "text_light" ;;
  slide <- _add_text_box slide 0.8 0.15 11 0.8
             (with_anchor "MIDDLE" (with_bold (literal title 26 text_light "LEFT")))
             default_font ;;
  accent <- item theme "accent" ;;
  _add_decorative_bar slide 0.8 1.05 3 0.04 accent.

(** *** High-level slide builders *)

Definition _build_title_slide (prs : Presentation) (slide_data : SlideData)
           (theme : Theme) (default_font : string) : result Presentation :=
  let '(prs, slide) := add_slide prs in
  (* Gradient background *)
  gradient_start <- item theme "gradient_start" ;;
  gradient_end <- item theme "gradient_end" ;;
  slide <- _apply_bg_gradient slide gradient_start gradient_end 225 ;;
  (* Decorative top-right circle *)
  accent <- item theme "accent" ;;
  c <- _lighten accent (double 0.2) ;;
  slide <- _add_circle slide 10.5 (-1.5) 4 c None 0 ;;
  (* Decorative bottom-left circle *)
  primary <- item theme "primary" ;;
  c <- _darken primary (double 0.5) ;;
  slide <- _add_circle slide (-1.5) 5.5 3.5 c None 0 ;;
  (* Accent line *)
  accent <- item theme "accent" ;;
  slide <- _add_decorative_bar slide 1.5 3.2 2.5 0.06 accent ;;
  (* Title *)
  let title_text := Py.get (title slide_data) "Presentation Title" in
  text_light <- item theme "text_light" ;;
  slide <- _add_text_box slide 1.5 1.5 10 1.8
             (with_anchor "BOTTOM" (with_bold (literal title_text 42 text_light "LEFT")))
             default_font ;;
  (* Subtitle *)
  let subtitle := Py.get (subtitle slide_data) "" in
  slide <- (if truthy subtitle
            then text_light <- item theme "text_light" ;;
                 c <- _lighten text_light (double 0.15) ;;
                 _add_text_box slide 1.5 3.5 9 1.0
                   (with_anchor "TOP" (literal subtitle 20 c "LEFT")) default_font
            else Ok slide) ;;
  (* Author & Date *)
  let author := Py.get (author slide_data) "" in
  let date := Py.get (date slide_data) "" in
  let meta_text := join "  |  " (filter truthy [author; date]) in
  slide <- (if truthy meta_text
            then text_light <- item theme "text_light" ;;
                 c <- _lighten text_light (double 0.3) ;;
                 _add_text_box slide 1.5 5.8 8 0.5 (literal meta_text 14 c "LEFT")
                               default_font
            else Ok slide) ;;
  (* Bottom accent bar *)
  accent <- item theme "accent" ;;
  slide <- _add_decorative_bar slide 0 7.25 13.333 0.08 accent ;;
  Ok (drawn prs slide).

Definition section_number_truthy (n : SectionNumber) : bool :=
  match n with
  | SectionInt z => negb (z =? 0)%Z
  | SectionStr s => truthy s
  end.

Definition section_number_str (n : SectionNumber) : string :=
  match n with
  | SectionInt z => str_int z
  | SectionStr s => s
  end.

Definition _build_section_slide (prs : Presentation) (slide_data : SlideData)
           (theme : Theme) (default_font : string) : result Presentation :=
  let '(prs, slide) := add_slide prs in
  gradient_start <- item theme "gradient_start" ;;
  gradient_end <- item theme "gradient_end" ;;
  c <- _darken gradient_end (double 0.8) ;;
  slide <- _apply_bg_gradient slide gradient_start c 200 ;;
  (* Decorative large number or icon *)
  slide <- match section_number slide_data with
           | Some section_num =>
               if section_number_truthy section_num
               then accent <- item theme "accent" ;;
                    c <- _lighten accent (double 0.15) ;;
                    _add_text_box slide 1 1.5 4 3
                      (with_anchor "MIDDLE"
                         (with_bold (literal (zfill 2 (section_number_str section_num))
                                             96 c "LEFT")))
                      default_font
               else Ok slide
           | None => Ok slide
           end ;;
  (* Section title *)
  let title := Py.get (title slide_data) "Section Title" in
  text_light <- item theme "text_light" ;;
  slide <- _add_text_box slide 1.5 3.0 10 2.0
             (with_anchor "MIDDLE" (with_bold (literal title 38 text_light "LEFT")))
             default_font ;;
  (* Subtitle *)
  let subtitle := Py.get (subtitle slide_data) "" in
  slide <- (if truthy subtitle
            then accent <- item theme "accent" ;;
                 slide <- _add_decorative_bar slide 1.5 5.0 2 0.05 accent ;;
                 text_light <- item theme "text_light" ;;
                 c <- _lighten text_light (double 0.2) ;;
                 _add_text_box slide 1.5 5.2 9 0.8 (literal subtitle 18 c "LEFT")
                               default_font
            else Ok slide) ;;
  accent <- item theme "accent" ;;
  slide <- _add_decorative_bar slide 0 7.25 13.333 0.08 accent ;;
  Ok (drawn prs slide).

Definition _build_content_slide (prs : Presentation) (slide_data : SlideData)
           (theme : Theme) (default_font : string) : result Presentation :=
  let '(prs, slide) := add_slide prs in
  slide <- _apply_bg_solid slide (get_or theme "bg" "#FFFFFF") ;;
  (* Title bar background, title text, accent underline *)
  slide <- title_bar slide (Py.get (title slide_data) "") theme default_font ;;
  (* Body content *)
  slide <- match content slide_data with
           | Some content =>
               if value_truthy content
               then let content_cfg := as_config content in
                    let content_cfg := setdefault_font_size 18 content_cfg in
                    let content_cfg :=
                      setdefault_color (get_or theme "text_dark" "#333333") content_cfg in
                    let content_cfg := setdefault_line_spacing 1.5 content_cfg in
                    _add_text_box slide 0.8 1.4 11.5 5.2 content_cfg default_font
               else Ok slide
           | None => Ok slide
           end ;;
  (* Additional elements *)
  slide <- for_each (fun elem slide => _add_element slide elem theme default_font)
                    (elements slide_data) slide ;;
  (* Footer *)
  slide <- _add_slide_footer slide prs theme default_font ;;
  Ok (drawn prs slide).

(** One column of the two-column slide: an optional heading, then the
    column text lower or higher according to the heading. *)
Definition two_column_side (slide : Slide) (x : Q) (column_title : string)
           (column : option TextValue) (theme : Theme) (default_font : string)
  : result Slide :=
  let column_cfg (_ : unit) :=
    let cfg := match column with
               | Some v => as_config v
               | None => empty_config
               end in
    let cfg := setdefault_font_size 15 cfg in
    setdefault_color (get_or theme "text_dark" "#333333") cfg in
  if truthy column_title
  then accent <- item theme "accent" ;;
       slide <- _add_decorative_bar slide x 1.7 1.5 0.05 accent ;;
       primary <- item theme "primary" ;;
       slide <- _add_text_box slide x 1.85 5.3 0.5
                  (with_bold (literal column_title 18 primary "LEFT")) default_font ;;
       _add_text_box slide x 2.5 5.3 3.8 (column_cfg tt) default_font
  else _add_text_box slide x 1.8 5.3 4.5 (column_cfg tt) default_font.

Definition _build_two_column_slide (prs : Presentation) (slide_data : SlideData)
           (theme : Theme) (default_font : string) : result Presentation :=
  let '(prs, slide) := add_slide prs in
  slide <- _apply_bg_solid slide (get_or theme "bg" "#FFFFFF") ;;
  (* Title bar *)
  slide <- title_bar slide (Py.get (title slide_data) "") theme default_font ;;
  (* Left column card *)
  card_bg <- item theme "card_bg" ;;
  card_border <- item theme "card_border" ;;
  slide <- _add_rounded_rect slide 0.5 1.5 5.9 5.2 card_bg (Some card_border) 1.5 true ;;
  slide <- two_column_side slide 0.8 (Py.get (left_title slide_data) "")
                           (left_column slide_data) theme default_font ;;
  (* Right column card *)
  card_bg <- item theme "card_bg" ;;
  card_border <- item theme "card_border" ;;
  slide <- _add_rounded_rect slide 6.9 1.5 5.9 5.2 card_bg (Some card_border) 1.5 true ;;
  slide <- two_column_side slide 7.2 (Py.get (right_title slide_data) "")
                           (right_column slide_data) theme default_font ;;
  slide <- _add_slide_footer slide prs theme default_font ;;
  Ok (drawn prs slide).

Definition _build_three_column_slide (prs : Presentation) (slide_data : SlideData)
           (theme : Theme) (default_font : string) : result Presentation :=
  let '(prs, slide) := add_slide prs in
  slide <- _apply_bg_solid slide (get_or theme "bg" "#FFFFFF") ;;
  (* Title bar *)
  slide <- title_bar slide (Py.get (title slide_data) "") theme default_font ;;
  let columns := columns slide_data in
  let col_width := 3.7 in
  let gap := 0.45 in
  let start_x := 0.5 in
  slide <- for_enumerate
             (fun i col slide =>
                let x := start_x + float_of_nat i * (col_width + gap) in
                (* Card background *)
                card_bg <- item theme "card_bg" ;;
                card_border <- item theme "card_border" ;;
                slide <- _add_rounded_rect slide x 1.5 col_width 5.2 card_bg
                                           (Some card_border) 1.5 true ;;
                (* Card accent top bar *)
                accent <- item theme "accent" ;;
                slide <- _add_decorative_bar slide (x + 0.3) 1.7 1.2 0.05 accent ;;
                (* Column icon/number *)
                let icon := Py.get (col_icon col) "" in
                slide <- (if truthy icon
                          then primary <- item theme "primary" ;;
                               _add_text_box slide (x + 0.3) 1.9 1 0.8
                                 (with_bold (literal icon 28 primary "LEFT"))
                                 default_font
                          else Ok slide) ;;
                (* Column title *)
                let col_title := Py.get (col_title col) "" in
                let title_top := if negb (truthy icon) then 2.0 else 2.7 in
                slide <- (if truthy col_title
                          then primary <- item theme "primary" ;;
                               _add_text_box slide (x + 0.3) title_top
                                 (col_width - 0.6) 0.5
                                 (with_bold (literal col_title 16 primary "LEFT"))
                                 default_font
                          else Ok slide) ;;
                (* Column content *)
                let col_content := match col_content col with
                                   | Some v => as_config v
                                   | None => empty_config
                                   end in
                let col_content := setdefault_font_size 13 col_content in
                let col_content :=
                  setdefault_color (get_or theme "text_dark" "#333333") col_content in
                let content_top := title_top + 0.6 in
                _add_text_box slide (x + 0.3) content_top (col_width - 0.6)
                              (5.2 - (content_top - 1.5) + 0.3) col_content default_font)
             0%nat (firstn 3 columns) slide ;;
  slide <- _add_slide_footer slide prs theme default_font ;;
  Ok (drawn prs slide).

(** *** Cards *)

(** Determine grid layout: [(cols_count, rows_count)] and the cards kept. *)
Definition card_grid {A : Type} (cards : list A) : nat * nat * list A :=
  let n := List.length cards in
  if (n <=? 3)%nat then (n, 1%nat, cards)
  else if (n <=? 4)%nat then (2%nat, 2%nat, cards)
  else if (n <=? 6)%nat then (3%nat, 2%nat, cards)
  else (3%nat, 2%nat, firstn 6 cards).

Definition cards_total_w : Q := 12.3.
Definition cards_gap : Q := 0.35.
Definition cards_start_x : Q := 0.5.
Definition cards_start_y : Q := 1.4.

(** [(card_w, card_h)] *)
Definition card_size (cols_count rows_count : nat) : result (Q * Q) :=
  let total_w := cards_total_w in
  let total_h := if (rows_count =? 1)%nat then 5.0 else 4.8 in
  let gap := cards_gap in
  card_w <- Py.div (total_w - (float_of_nat cols_count - 1) * gap)
                   (float_of_nat cols_count) ;;
  card_h <- Py.div (total_h - (float_of_nat rows_count - 1) * gap)
                   (float_of_nat rows_count) ;;
  Ok (card_w, card_h).

(** [(cx, cy)] of the card of index [idx]. *)
Definition card_origin (cols_count : nat) (card_w card_h : Q) (idx : nat) : Q * Q :=
  let row := (idx / cols_count)%nat in
  let col := (idx mod cols_count)%nat in
  (cards_start_x + float_of_nat col * (card_w + cards_gap),
   cards_start_y + float_of_nat row * (card_h + cards_gap)).

(** The body of the loop over the cards. *)
Definition draw_card (theme : Theme) (default_font : string) (cols_count : nat)
           (card_w card_h : Q) (idx : nat) (card : Card) (slide : Slide)
  : result Slide :=
  let '(cx, cy) := card_origin cols_count card_w card_h idx in
  (* Card background *)
  card_bg <- item theme "card_bg" ;;
  card_border <- item theme "card_border" ;;
  slide <- _add_rounded_rect slide cx cy card_w card_h card_bg (Some card_border)
                             1.5 true ;;
  (* Accent top bar on card *)
  accent <- item theme "accent" ;;
  slide <- _add_decorative_bar slide (cx + 0.25) (cy + 0.15) 0.8 0.04 accent ;;
  (* Icon *)
  let icon := Py.get (card_icon card) "" in
  let current_y := cy + 0.3 in
  '(slide, current_y) <-
    (if truthy icon
     then primary <- item theme "primary" ;;
          slide <- _add_text_box slide (cx + 0.25) current_y 1 0.6
                     (with_bold (literal icon 22 primary "LEFT")) default_font ;;
          Ok (slide, current_y + 0.55)
     else Ok (slide, current_y)) ;;
  (* Card title *)
  let card_title := Py.get (card_title card) "" in
  '(slide, current_y) <-
    (if truthy card_title
     then primary <- item theme "primary" ;;
          slide <- _add_text_box slide (cx + 0.25) current_y (card_w - 0.5) 0.4
                     (with_bold (literal card_title 14 primary "LEFT")) default_font ;;
          Ok (slide, current_y + 0.45)
     else Ok (slide, current_y)) ;;
  (* Card content *)
  match card_content card with
  | Some card_content =>
      if value_truthy card_content
      then let card_content := as_config card_content in
           let card_content := setdefault_font_size 12 card_content in
           let card_content :=
             setdefault_color (get_or theme "text_dark" "#555555") card_content in
           let card_content := setdefault_line_spacing 1.3 card_content in
           let remaining_h := card_h - (current_y - cy) - 0.2 in
           _add_text_box slide (cx + 0.25) current_y (card_w - 0.5) remaining_h
                         card_content default_font
      else Ok slide
  | None => Ok slide
  end.

Definition _build_cards_slide (prs : Presentation) (slide_data : SlideData)
           (theme : Theme) (default_font : string) : result Presentation :=
  let '(prs, slide) := add_slide prs in
  slide <- _apply_bg_solid slide (get_or theme "bg" "#FFFFFF") ;;
  (* Title bar *)
  slide <- title_bar slide (Py.get (title slide_data) "") theme default_font ;;
  let cards := cards slide_data in
  let n := List.length cards in
  if (n =? 0)%nat
  then slide <- _add_slide_footer slide prs theme default_font ;;
       Ok (drawn prs slide)
  else
    let '(cols_count, rows_count, cards) := card_grid cards in
    '(card_w, card_h) <- card_size cols_count rows_count ;;
    slide <- for_enumerate (draw_card theme default_font cols_count card_w card_h)
                           0%nat cards slide ;;
    slide <- _add_slide_footer slide prs theme default_font ;;
    Ok (drawn prs slide).

(** *** Chart *)

Definition _build_chart_slide (prs : Presentation) (slide_data : SlideData)
           (theme : Theme) (default_font : string) : result Presentation :=
  let '(prs, slide) := add_slide prs in
  slide <- _apply_bg_solid slide (get_or theme "bg" "#FFFFFF") ;;
  (* Title bar *)
  slide <- title_bar slide (Py.get (title slide_data) "") theme default_font ;;
  let chart_config := Py.get (chart slide_data) empty_chart_config in
  slide <- match description slide_data with
           | Some description =>
               if value_truthy description
               then (* Chart on left, description on right *)
                 slide <- _add_native_chart slide chart_config 0.5 1.4 8 5.2 ;;
                 card_bg <- item theme "card_bg" ;;
                 card_border <- item theme "card_border" ;;
                 slide <- _add_rounded_rect slide 8.8 1.5 4.2 5.0 card_bg
                                            (Some card_border) 1 false ;;
                 let desc_cfg := as_config description in
                 let desc_cfg := setdefault_font_size 14 desc_cfg in
                 let desc_cfg :=
                   setdefault_color (get_or theme "text_dark" "#333333") desc_cfg in
                 let desc_cfg := setdefault_line_spacing 1.4 desc_cfg in
                 _add_text_box slide 9.0 1.7 3.8 4.6 desc_cfg default_font
               else (* Full-width chart *)
                 _add_native_chart slide chart_config 0.8 1.4 11.5 5.3
           | None => _add_native_chart slide chart_config 0.8 1.4 11.5 5.3
           end ;;
  slide <- _add_slide_footer slide prs theme default_font ;;
  Ok (drawn prs slide).

(** *** Stats *)

Definition draw_stat (theme : Theme) (default_font : string) (card_w : Q) (i : nat)
           (stat : Stat) (slide : Slide) : result Slide :=
  let gap := 0.4 in
  let start_x := 0.5 in
  let card_h := 3.5 in
  let card_y := 2.2 in
  let cx := start_x + float_of_nat i * (card_w + gap) in
  (* Card *)
  card_bg <- item theme "card_bg" ;;
  card_border <- item theme "card_border" ;;
  slide <- _add_rounded_rect slide cx card_y card_w card_h card_bg (Some card_border)
                             1.5 true ;;
  (* Top accent *)
  accent <- item theme "accent" ;;
  slide <- _add_decorative_bar slide cx card_y card_w 0.06 accent ;;
  (* Icon *)
  let icon := Py.get (stat_icon stat) "" in
  let current_y := card_y + 0.3 in
  '(slide, current_y) <-
    (if truthy icon
     then accent <- item theme "accent" ;;
          slide <- _add_text_box slide (cx + 0.2) current_y (card_w - 0.4) 0.6
                     (literal icon 24 accent "CENTER") default_font ;;
          Ok (slide, current_y + 0.6)
     else Ok (slide, current_y)) ;;
  (* Big number/value *)
  let value := Py.get (stat_value stat) "0" in
  primary <- item theme "primary" ;;
  slide <- _add_text_box slide (cx + 0.2) current_y (card_w - 0.4) 1.0
             (with_anchor "MIDDLE" (with_bold (literal value 36 primary "CENTER")))
             default_font ;;
  let current_y := current_y + 1.0 in
  (* Label *)
  let label := Py.get (stat_label stat) "" in
  slide <- (if truthy label
            then _add_text_box slide (cx + 0.2) current_y (card_w - 0.4) 0.6
                   (literal label 14 (get_or theme "text_dark" "#555555") "CENTER")
                   default_font
            else Ok slide) ;;
  (* Description *)
  let desc := Py.get (stat_description stat) "" in
  if truthy desc
  then _add_text_box slide (cx + 0.2) (current_y + 0.55) (card_w - 0.4) 0.8
         (with_line_spacing 1.2 (literal desc 11 "#888888" "CENTER")) default_font
  else Ok slide.

Definition _build_stats_slide (prs : Presentation) (slide_data : SlideData)
           (theme : Theme) (default_font : string) : result Presentation :=
  let '(prs, slide) := add_slide prs in
  slide <- _apply_bg_solid slide (get_or theme "bg" "#FFFFFF") ;;
  (* Title bar *)
  slide <- title_bar slide (Py.get (title slide_data) "") theme default_font ;;
  let stats := stats slide_data in
  let n := List.length stats in
  if (n =? 0)%nat
  then slide <- _add_slide_footer slide prs theme default_font ;;
       Ok (drawn prs slide)
  else
    let total_w := 12.3 in
    let gap := 0.4 in
    card_w <- (if (n <=? 5)%nat
               then Py.div (total_w - (float_of_nat n - 1) * gap) (float_of_nat n)
               else Py.div (total_w - 4 * gap) 5) ;;
    slide <- for_enumerate (draw_stat theme default_font card_w) 0%nat
                           (firstn 5 stats) slide ;;
    slide <- _add_slide_footer slide prs theme default_font ;;
    Ok (drawn prs slide).

(** *** Timeline *)

Definition timeline_line_y : Q := 3.8.
Definition timeline_start_x : Q := 0.8.
Definition timeline_length : Q := 11.7.
Definition node_size : Q := 0.4.

(** [cx] of the step of index [i]. *)
Definition step_cx (step_width : Q) (i : nat) : Q :=
  timeline_start_x + float_of_nat i * step_width + step_width / 2.

(** The body of the loop over the steps. *)
Definition draw_step (theme : Theme) (default_font : string) (step_width : Q)
           (i : nat) (step : Step) (slide : Slide) : result Slide :=
  let line_y := timeline_line_y in
  let cx := step_cx step_width i in
  (* Circle node on timeline *)
  accent <- item theme "accent" ;;
  primary <- item theme "primary" ;;
  slide <- _add_circle slide (cx - node_size / 2) (line_y - node_size / 2 + 0.02)
                       node_size accent (Some primary) 2 ;;
  (* Step number inside circle *)
  text_light <- item theme "text_light" ;;
  slide <- _add_text_box slide (cx - node_size / 2) (line_y - node_size / 2 + 0.02)
             node_size node_size
             (with_no_margins
                (with_anchor "MIDDLE"
                   (with_bold (literal (str_nat (i + 1)) 12 text_light "CENTER"))))
             default_font ;;
  (* Alternate above/below *)
  let x := cx - step_width / 2 + 0.1 in
  let w := step_width - 0.2 in
  let time_label := Py.get (step_time_label step) "" in
  let step_title := Py.get (step_title step) "" in
  let desc := Py.get (step_description step) "" in
  if (i mod 2 =? 0)%nat
  then (* Content above the line *)
    slide <- (if truthy time_label
              then accent <- item theme "accent" ;;
                   _add_text_box slide x 1.5 w 0.4
                     (with_bold (literal time_label 11 accent "CENTER")) default_font
              else Ok slide) ;;
    primary <- item theme "primary" ;;
    slide <- _add_text_box slide x 1.9 w 0.5
               (with_bold (literal step_title 14 primary "CENTER")) default_font ;;
    (if truthy desc
     then _add_text_box slide x 2.4 w 1.2
            (with_line_spacing 1.2
               (literal desc 11 (get_or theme "text_dark" "#555555") "CENTER"))
            default_font
     else Ok slide)
  else (* Content below the line *)
    primary <- item theme "primary" ;;
    slide <- _add_text_box slide x 4.2 w 0.5
               (with_bold (literal step_title 14 primary "CENTER")) default_font ;;
    slide <- (if truthy time_label
              then accent <- item theme "accent" ;;
                   _add_text_box slide x 4.7 w 0.4
                     (with_bold (literal time_label 11 accent "CENTER")) default_font
              else Ok slide) ;;
    (if truthy desc
     then _add_text_box slide x 5.1 w 1.2
            (with_line_spacing 1.2
               (literal desc 11 (get_or theme "text_dark" "#555555") "CENTER"))
            default_font
     else Ok slide).

Definition _build_timeline_slide (prs : Presentation) (slide_data : SlideData)
           (theme : Theme) (default_font : string) : result Presentation :=
  let '(prs, slide) := add_slide prs in
  slide <- _apply_bg_solid slide (get_or theme "bg" "#FFFFFF") ;;
  (* Title bar *)
  slide <- title_bar slide (Py.get (title slide_data) "") theme default_font ;;
  let steps := steps slide_data in
  let n := List.length steps in
  if (n =? 0)%nat
  then slide <- _add_slide_footer slide prs theme default_font ;;
       Ok (drawn prs slide)
  else
    (* Timeline horizontal line *)
    let line_y := timeline_line_y in
    secondary <- item theme "secondary" ;;
    slide <- _add_decorative_bar slide 0.8 line_y 11.7 0.04 secondary ;;
    step_width <- Py.div timeline_length (float_of_nat n) ;;
    slide <- for_enumerate (draw_step theme default_font step_width) 0%nat steps
                           slide ;;
    slide <- _add_slide_footer slide prs theme default_font ;;
    Ok (drawn prs slide).

(** *** Table *)

(** [table_config.setdefault("left", 0.5)] and the like. *)
Definition table_slide_defaults (cfg : TableConfig) : TableConfig :=
  mkTableConfig (Some (Py.get (table_left cfg) (Num 0.5)))
                (Some (Py.get (table_top cfg) (Num 1.5)))
                (Some (Py.get (table_width cfg) (Num 12.3)))
                (table_height cfg) (data cfg) (header_bg cfg) (header_fg cfg)
                (stripe_colors cfg) (table_font_size cfg) (header_font_size cfg).

Definition _build_table_slide (prs : Presentation) (slide_data : SlideData)
           (theme : Theme) (default_font : string) : result Presentation :=
  let '(prs, slide) := add_slide prs in
  slide <- _apply_bg_solid slide (get_or theme "bg" "#FFFFFF") ;;
  (* Title bar *)
  slide <- title_bar slide (Py.get (title slide_data) "") theme default_font ;;
  let table_config := Py.get (table slide_data) empty_table_config in
  let table_config := table_slide_defaults table_config in
  slide <- _add_styled_table slide table_config theme default_font ;;
  slide <- _add_slide_footer slide prs theme default_font ;;
  Ok (drawn prs slide).

(** *** Image *)

Definition _build_image_slide (prs : Presentation) (slide_data : SlideData)
           (theme : Theme) (default_font : string) (workspace : string)
  : result Presentation :=
  let '(prs, slide) := add_slide prs in
  slide <- _apply_bg_solid slide (get_or theme "bg" "#FFFFFF") ;;
  (* Title bar *)
  slide <- title_bar slide (Py.get (title slide_data) "") theme default_font ;;
  let img_path := Py.get (image_path slide_data) "" in
  slide <- (if truthy img_path
            then
              let full_path :=
                if isabs img_path then img_path else path_join workspace img_path in
              if path_exists env full_path
              then match description slide_data with
                   | Some description =>
                       if value_truthy description
                       then (* Image on left, description on right *)
                         slide <- shapes_add_picture slide full_path 0.8 1.5 7.5 5 ;;
                         let desc_cfg := as_config description in
                         let desc_cfg := setdefault_font_size 14 desc_cfg in
                         let desc_cfg :=
                           setdefault_color (get_or theme "text_dark" "#333333")
                                            desc_cfg in
                         _add_text_box slide 8.8 1.5 4 5 desc_cfg default_font
                       else (* Centered image *)
                         shapes_add_picture slide full_path 1.5 1.5 10 5
                   | None => shapes_add_picture slide full_path 1.5 1.5 10 5
                   end
              else Ok slide
            else Ok slide) ;;
  let caption := Py.get (caption slide_data) "" in
  slide <- (if truthy caption
            then _add_text_box slide 0.8 6.5 11.5 0.5
                   (with_italic (literal caption 12 "#888888" "CENTER")) default_font
            else Ok slide) ;;
  slide <- _add_slide_footer slide prs theme default_font ;;
  Ok (drawn prs slide).

(** *** Comparison *)

(** [{"bullets": items, "font_size": 14, "color": c, "line_spacing": 1.5}] *)
Definition bullets_config (items : list BulletItem) (c : string) : TextConfig :=
  mkTextConfig None None (Some items) (Some 14) (Some c) None None None None None
               (Some 1.5) None None None None.

Definition _build_comparison_slide (prs : Presentation) (slide_data : SlideData)
           (theme : Theme) (default_font : string) : result Presentation :=
  let '(prs, slide) := add_slide prs in
  slide <- _apply_bg_solid slide (get_or theme "bg" "#FFFFFF") ;;
  (* Title bar *)
  slide <- title_bar slide (Py.get (title slide_data) "") theme default_font ;;
  primary <- item theme "primary" ;;
  let left_color := Py.get (left_color slide_data) primary in
  accent <- item theme "accent" ;;
  let right_color := Py.get (right_color slide_data) accent in
  (* Left card *)
  card_bg <- item theme "card_bg" ;;
  slide <- _add_rounded_rect slide 0.5 1.5 5.9 5.2 card_bg (Some left_color) 2 true ;;
  slide <- _add_decorative_bar slide 0.5 1.5 5.9 0.06 left_color ;;
  let left_title := Py.get (left_title slide_data) "Option A" in
  slide <- _add_text_box slide 0.8 1.7 5.3 0.6
             (with_bold (literal left_title 20 left_color "CENTER")) default_font ;;
  let left_items := left_items slide_data in
  slide <- match left_items with
           | [] => Ok slide
           | _ => _add_text_box slide 0.8 2.5 5.3 3.8
                    (bullets_config left_items (get_or theme "text_dark" "#333333"))
                    default_font
           end ;;
  (* VS divider *)
  secondary <- item theme "secondary" ;;
  slide <- _add_circle slide 6.1 3.5 0.8 secondary None 0 ;;
  text_light <- item theme "text_light" ;;
  slide <- _add_text_box slide 6.1 3.5 0.8 0.8
             (with_no_margins
                (with_anchor "MIDDLE"
                   (with_bold (literal "VS" 14 text_light "CENTER"))))
             default_font ;;
  (* Right card *)
  card_bg <- item theme "card_bg" ;;
  slide <- _add_rounded_rect slide 6.9 1.5 5.9 5.2 card_bg (Some right_color) 2 true ;;
  slide <- _add_decorative_bar slide 6.9 1.5 5.9 0.06 right_color ;;
  let right_title := Py.get (right_title slide_data) "Option B" in
  slide <- _add_text_box slide 7.2 1.7 5.3 0.6
             (with_bold (literal right_title 20 right_color "CENTER")) default_font ;;
  let right_items := right_items slide_data in
  slide <- match right_items with
           | [] => Ok slide
           | _ => _add_text_box slide 7.2 2.5 5.3 3.8
                    (bullets_config right_items (get_or theme "text_dark" "#333333"))
                    default_font
           end ;;
  slide <- _add_slide_footer slide prs theme default_font ;;
  Ok (drawn prs slide).

(** *** Quote and ending *)

Definition _build_quote_slide (prs : Presentation) (slide_data : SlideData)
           (theme : Theme) (default_font : string) : result Presentation :=
  let '(prs, slide) := add_slide prs in
  gradient_start <- item theme "gradient_start" ;;
  gradient_end <- item theme "gradient_end" ;;
  slide <- _apply_bg_gradient slide gradient_start gradient_end 225 ;;
  (* Large quote mark decoration *)
  accent <- item theme "accent" ;;
  c <- _lighten accent (double 0.2) ;;
  slide <- _add_text_box slide 1 1.2 3 2
             (with_anchor "TOP" (with_bold (literal "“" 120 c "LEFT"))) default_font ;;
  (* Quote text *)
  let quote := Py.get (quote slide_data) (Py.get (sd_text slide_data) "") in
  text_light <- item theme "text_light" ;;
  slide <- _add_text_box slide 2 2.5 9.5 3
             (with_line_spacing 1.5
                (with_anchor "MIDDLE"
                   (with_italic (literal quote 28 text_light "CENTER"))))
             default_font ;;
  (* Author *)
  let author := Py.get (author slide_data) "" in
  slide <- (if truthy author
            then accent <- item theme "accent" ;;
                 slide <- _add_decorative_bar slide 5.5 5.5 2 0.04 accent ;;
                 text_light <- item theme "text_light" ;;
                 c <- _lighten text_light (double 0.2) ;;
                 _add_text_box slide 2 5.7 9.5 0.6
                   (literal ("— " ++ author) 18 c "CENTER") default_font
            else Ok slide) ;;
  accent <- item theme "accent" ;;
  slide <- _add_decorative_bar slide 0 7.25 13.333 0.08 accent ;;
  Ok (drawn prs slide).

Definition _build_ending_slide (prs : Presentation) (slide_data : SlideData)
           (theme : Theme) (default_font : string) : result Presentation :=
  let '(prs, slide) := add_slide prs in
  gradient_start <- item theme "gradient_start" ;;
  gradient_end <- item theme "gradient_end" ;;
  slide <- _apply_bg_gradient slide gradient_start gradient_end 225 ;;
  (* Decorative circles *)
  accent <- item theme "accent" ;;
  c <- _lighten accent (double 0.15) ;;
  slide <- _add_circle slide 10 (-1) 3.5 c None 0 ;;
  primary <- item theme "primary" ;;
  c <- _darken primary (double 0.5) ;;
  slide <- _add_circle slide (-1) 5 3 c None 0 ;;
  (* Main text *)
  let main_text := Py.get (title slide_data) (Py.get (sd_text slide_data) "Thank You") in
  text_light <- item theme "text_light" ;;
  slide <- _add_text_box slide 1 2.0 11.3 2.5
             (with_anchor "MIDDLE" (with_bold (literal main_text 48 text_light "CENTER")))
             default_font ;;
  (* Subtitle *)
  let subtitle := Py.get (subtitle slide_data) "" in
  slide <- (if truthy subtitle
            then text_light <- item theme "text_light" ;;
                 c <- _lighten text_light (double 0.2) ;;
                 _add_text_box slide 2 4.5 9.3 1.0 (literal subtitle 20 c "CENTER")
                               default_font
            else Ok slide) ;;
  (* Contact info *)
  let contact := Py.get (contact slide_data) "" in
  slide <- (if truthy contact
            then text_light <- item theme "text_light" ;;
                 c <- _lighten text_light (double 0.3) ;;
                 _add_text_box slide 2 5.5 9.3 0.8 (literal contact 16 c "CENTER")
                               default_font
            else Ok slide) ;;
  accent <- item theme "accent" ;;
  slide <- _add_decorative_bar slide 0 7.25 13.333 0.08 accent ;;
  Ok (drawn prs slide).

(** *** Main entry point *)

(** A builder of the registry: a function of four arguments, or of five
    (the image builder also takes the workspace). *)
Inductive Builder : Type :=
| Builder4 (f : Presentation -> SlideData -> Theme -> string -> result Presentation)
| Builder5 (f : Presentation -> SlideData -> Theme -> string -> string
                -> result Presentation).

Definition SLIDE_BUILDERS : list (string * Builder) :=
  [ ("title", Builder4 _build_title_slide);
    ("cover", Builder4 _build_title_slide);
    ("section", Builder4 _build_section_slide);
    ("divider", Builder4 _build_section_slide);
    ("content", Builder4 _build_content_slide);
    ("text", Builder4 _build_content_slide);
    ("two_column", Builder4 _build_two_column_slide);
    ("two_columns", Builder4 _build_two_column_slide);
    ("three_column", Builder4 _build_three_column_slide);
    ("three_columns", Builder4 _build_three_column_slide);
    ("cards", Builder4 _build_cards_slide);
    ("chart", Builder4 _build_chart_slide);
    ("stats", Builder4 _build_stats_slide);
    ("statistics", Builder4 _build_stats_slide);
    ("timeline", Builder4 _build_timeline_slide);
    ("table", Builder4 _build_table_slide);
    ("image", Builder5 _build_image_slide);
    ("comparison", Builder4 _build_comparison_slide);
    ("quote", Builder4 _build_quote_slide);
    ("ending", Builder4 _build_ending_slide);
    ("thank_you", Builder4 _build_ending_slide) ].

(** [builder(prs, slide_data, theme, default_font)] *)
Definition call4 (builder : Builder) (prs : Presentation) (slide_data : SlideData)
           (theme : Theme) (default_font : string) : result Presentation :=
  match builder with
  | Builder4 f => f prs slide_data theme default_font
  | Builder5 _ => Raise TypeError
  end.

(** [builder(prs, slide_data, theme, default_font, workspace)] *)
Definition call5 (builder : Builder) (prs : Presentation) (slide_data : SlideData)
           (theme : Theme) (default_font workspace : string) : result Presentation :=
  match builder with
  | Builder5 f => f prs slide_data theme default_font workspace
  | Builder4 _ => Raise TypeError
  end.

(** The body of the loop that builds each slide. *)
Definition build_slide (theme : Theme) (default_font workspace : string)
           (slide_data : SlideData) (prs : Presentation) : result Presentation :=
  let slide_type := strip (lower (Py.get (slide_type slide_data) "content")) in
  match lookup slide_type SLIDE_BUILDERS with
  | Some builder =>
      if String.eqb slide_type "image"
      then call5 builder prs slide_data theme default_font workspace
      else call4 builder prs slide_data theme default_font
  | None =>
      (* Fallback to content slide *)
      _build_content_slide prs slide_data theme default_font
  end.

Record Settings : Type := mkSettings {
  settings_theme : option string;
  custom_colors : Theme;
  default_font : option string;
  settings_author : option string;
  settings_title : option string
}.

(** [presentation_settings or {}] *)
Definition no_settings : Settings := mkSettings None [] None None None.

(** The theme that the entry point resolves. *)
Definition resolve_theme (settings : Settings) : Theme :=
  let theme_name := Py.get (settings_theme settings) "midnight" in
  let theme := _get_theme theme_name in
  (* Allow custom theme color overrides *)
  match custom_colors settings with
  | [] => theme
  | custom => merge theme custom
  end.

(** The deck that the loop over [slides_content] leaves in [prs]. *)
Definition build_deck (slides_content : list SlideData) (settings : Settings)
           (workspace : string) : result Presentation :=
  let theme := resolve_theme settings in
  let default_font := Py.get (default_font settings) "微软雅黑" in
  for_each (build_slide theme default_font workspace) slides_content [].

Definition generate_pptx_presentation (file_path : string)
           (slides_content : list SlideData) (presentation_settings : option Settings)
  : result ToolResult :=
  match workspace_path env with
  | None => Ok (Error "Workspace not configured. Please set up workspace first.")
  | Some workspace =>
      if negb (truthy workspace)
      then Ok (Error "Workspace not configured. Please set up workspace first.")
      else
        let full_path := path_join workspace file_path in
        _ <- makedirs env (if truthy (dirname full_path) then dirname full_path
                           else workspace) ;;
        let settings := Py.get presentation_settings no_settings in
        let theme_name := Py.get (settings_theme settings) "midnight" in
        (* Build each slide *)
        prs <- build_deck slides_content settings workspace ;;
        _ <- save env full_path ;;
        Ok (Success
              (mkSuccess full_path (Some (List.length prs)) (Some theme_name)
                 ("Presentation saved with " ++ str_nat (List.length prs)
                  ++ " slides using '" ++ theme_name ++ "' theme.")))
  end.

End Builders.

End Pptx.

(* ================================================================== *)
(** * tools/office_tools.py: charts drawn with matplotlib, entry points *)
(* ================================================================== *)

Module Office.

Record Series : Type := mkSeries {
  name : option string;
  values : option (list Q)
}.

Record ChartConfig : Type := mkChartConfig {
  chart_type : option string;
  title : option string;
  x_label : option string;
  y_label : option string;
  categories : list string;
  series : list Series;
  colors : list string;              (* absent, [None] and [[]] all select the default *)
  width : option Q;
  height : option Q;
  style : option string;
  show_legend : option bool;
  show_values : option bool;
  font_size : option Q
}.

(** The calls made on the axes, with their data arguments.  A value label
    [f'{v:,.0f}'] is recorded by its value [v]. *)
Inductive AxCall : Type :=
| pie (values : list Q) (labels : list string) (colors : list string)
      (explode : list Q) (fontsize autotext_fontsize : Q)
| set_title (label : string) (fontsize pad : Q)
| scatter (x y : list Q) (label color : string)
| fill_between (x y : list Q) (color label : string)
| plot (x y : list Q) (color : string) (label : option string)
| barh (y widths : list Q) (bar_height : Q) (label color : string)
| bar (x heights : list Q) (bar_width : Q) (bottom : list Q) (label color : string)
| text (x y value : Q) (fontsize : Q)
| annotate (value x y : Q) (fontsize : Q)
| set_xticks (ticks : list Q)
| set_xticklabels (labels : list string) (rotation : Q)
| set_yticks (ticks : list Q)
| set_yticklabels (labels : list string)
| set_xlabel (label : string)
| set_ylabel (label : string)
| hide_top_right_spines
| legend (fontsize : Q).


Definition default_colors : list string :=
  [ "#4472C4"; "#ED7D31"; "#A5A5A5"; "#FFC000"; "#5B9BD5";
    "#70AD47"; "#264478"; "#9B57A0"; "#636363"; "#EB7E30" ].

(** [np.arange(n)], [list(range(n))] *)
Definition arange (n : nat) : list Q := map float_of_nat (seq 0 n).

(** [colors[i % len(colors)]] *)
Definition color_at (colors : list string) (i : nat) : result string :=
  match colors with
  | [] => Raise ZeroDivisionError
  | _ => Ok (nth (i mod List.length colors) colors "")
  end.

(** [s.get("name", f"Series {i+1}")] *)
Definition series_label (s : Series) (i : nat) : string :=
  Py.get (name s) ("Series " ++ str_nat (i + 1)).

(** numpy broadcasting of a one-dimensional array to length [n]. *)
Definition broadcast_to (n : nat) (a : list Q) : result (list Q) :=
  if (List.length a =? n)%nat then Ok a
  else match a with
       | [v] => Ok (repeat v n)
       | _ => Raise ValueError
       end.

(** [max(vals)] *)
Definition py_max (vals : list Q) : result Q :=
  match vals with
  | [] => Raise ValueError
  | v :: rest => Ok (fold_left (fun m x => if Py.lt m x then x else m) rest v)
  end.

(** [a + b] on arrays of one length. *)
Definition add_arrays (a b : list Q) : list Q :=
  map (fun p => (fst p + snd p)%Q) (combine a b).

Definition rotation_for (categories : list string) : Q :=
  if (6 <? List.length categories)%nat then 45%Q else 0%Q.

Section Charts.

Local Open Scope Q_scope.

(** What [ax.pie(values, labels=categories, ...)] refuses, each with
    [ValueError]: a negative wedge size, wedges whose sizes sum to zero
    (none of them has an angle), and a list of labels that is not as long
    as the values. *)
Definition pie_check (values : list Q) (labels : list string) : result unit :=
  if existsb (fun v => Py.lt v 0) values then Raise ValueError
  else if negb (List.length values =? 0)%nat && Qeq_bool (fold_right Qplus 0 values) 0
  then Raise ValueError
  else if negb (List.length values =? List.length labels)%nat then Raise ValueError
  else Ok tt.

(** The loop of the stacked bars: the calls so far and [bottom]. *)
Definition stacked_step (categories : list string) (colors : list string) (i : nat)
           (s : Series) (st : list AxCall * list Q) : result (list AxCall * list Q) :=
  let '(calls, bottom) := st in
  let n := List.length categories in
  let x := arange n in
  let bar_width := 0.6 in
  vals <- broadcast_to n (firstn n (Py.get (values s) (repeat 0 n))) ;;
  color <- color_at colors i ;;
  Ok ((calls ++ [bar x vals bar_width bottom (series_label s i) color])%list,
      add_arrays bottom vals).

(** The calls that draw the chart of each type. *)
Definition draw_chart (chart_type : string) (title : string)
           (categories : list string) (series_list : list Series)
           (colors : list string) (show_values : bool) (font_size : Q)
  : result (list AxCall) :=
  let ticks (calls : list AxCall) :=
    match categories with
    | [] => calls
    | _ => (calls ++ [set_xticks (arange (List.length categories));
                      set_xticklabels categories (rotation_for categories)])%list
    end in
  if String.eqb chart_type "pie" then
    calls <-
      match series_list with
      | [] => Ok []
      | first :: _ =>
          let values := Py.get (values first) [] in
          let explode := repeat 0.03 (List.length values) in
          _ <- pie_check values categories ;;
          Ok [pie values categories (firstn (List.length values) colors) explode
                  font_size (font_size - 1)]
      end ;;
    Ok (calls ++ [set_title title (font_size + 3) 15])%list
  else if String.eqb chart_type "scatter" then
    calls <- for_enumerate
               (fun i s calls =>
                  let vals := Py.get (values s) [] in
                  let x_vals := match categories with
                                | [] => arange (List.length vals)
                                | _ => arange (List.length categories)
                                end in
                  color <- color_at colors i ;;
                  Ok (calls ++ [scatter (firstn (List.length vals) x_vals) vals
                                        (series_label s i) color])%list)
               0%nat series_list [] ;;
    Ok (ticks calls)
  else if String.eqb chart_type "area" then
    let x := arange (List.length categories) in
    calls <- for_enumerate
               (fun i s calls =>
                  let vals := Py.get (values s) [] in
                  color <- color_at colors i ;;
                  Ok (calls ++ [fill_between (firstn (List.length vals) x) vals color
                                             (series_label s i);
                                plot (firstn (List.length vals) x) vals color None])%list)
               0%nat series_list [] ;;
    Ok (ticks calls)
  else if String.eqb chart_type "bar_horizontal" then
    let n := List.length categories in
    let y_pos := arange n in
    bar_height <- Py.div 0.8 (float_of_nat (Nat.max (List.length series_list) 1)) ;;
    calls <- for_enumerate
               (fun i s calls =>
                  let vals := Py.get (values s) [] in
                  let offset :=
                    (float_of_nat i - float_of_nat (List.length series_list) / 2 + 0.5)
                    * bar_height in
                  let ys := map (fun y => y + offset) y_pos in
                  color <- color_at colors i ;;
                  let calls :=
                    (calls ++ [barh ys (firstn n vals) bar_height (series_label s i)
                                    color])%list in
                  if show_values
                  then
                    widths <- broadcast_to n (firstn n vals) ;;
                    for_each
                      (fun (b : Q * Q) calls =>
                         let '(y, w) := b in
                         m <- py_max vals ;;
                         Ok (calls ++ [text (w + m * 0.01)
                                            ((y - bar_height / 2) + bar_height / 2)
                                            w (font_size - 2)])%list)
                      (combine ys widths) calls
                  else Ok calls)
               0%nat series_list [] ;;
    Ok (calls ++ [set_yticks y_pos; set_yticklabels categories])%list
  else if String.eqb chart_type "stacked_bar" then
    let n := List.length categories in
    let x := arange n in
    let bottom := repeat 0 n in
    '(calls, _) <- for_enumerate (stacked_step categories colors) 0%nat series_list
                                 ([], bottom) ;;
    Ok (calls ++ [set_xticks x; set_xticklabels categories (rotation_for categories)])%list
  else if String.eqb chart_type "line" then
    let x := arange (List.length categories) in
    calls <- for_enumerate
               (fun i s calls =>
                  let vals := Py.get (values s) [] in
                  color <- color_at colors i ;;
                  let xs := firstn (List.length vals) x in
                  let calls :=
                    (calls ++ [plot xs vals color (Some (series_label s i))])%list in
                  if show_values
                  then Ok (calls ++ map (fun p => annotate (snd p) (fst p) (snd p)
                                                           (font_size - 2))
                                        (combine xs vals))%list
                  else Ok calls)
               0%nat series_list [] ;;
    Ok (ticks calls)
  else (* bar (default), grouped_bar *)
    let n := List.length categories in
    let x := arange n in
    let n_series := Nat.max (List.length series_list) 1 in
    bar_width <- Py.div 0.8 (float_of_nat n_series) ;;
    calls <- for_enumerate
               (fun i s calls =>
                  let vals := Py.get (values s) [] in
                  let offset :=
                    (float_of_nat i - float_of_nat n_series / 2 + 0.5) * bar_width in
                  let xs := map (fun v => v + offset) x in
                  color <- color_at colors i ;;
                  let calls :=
                    (calls ++ [bar xs (firstn n vals) bar_width (repeat 0 n)
                                   (series_label s i) color])%list in
                  if show_values
                  then
                    heights <- broadcast_to n (firstn n vals) ;;
                    for_each
                      (fun (b : Q * Q) calls =>
                         let '(bx, h) := b in
                         m <- py_max vals ;;
                         Ok (calls ++ [text ((bx - bar_width / 2) + bar_width / 2)
                                            (h + m * 0.01) h (font_size - 2)])%list)
                      (combine xs heights) calls
                  else Ok calls)
               0%nat series_list [] ;;
    Ok (calls ++ [set_xticks x; set_xticklabels categories (rotation_for categories)])%list.

Variable env : Env.


End Charts.

(** ** The entry points

    The word and the spreadsheet generators share one frame: the workspace
    check, the output directory, the document-level settings, and then a
    [try] around the loop over the blocks (or sheets) and the final save.
    What one block draws is the writer's business and is a parameter. *)

Section EntryPoints.

Variable env : Env.
Variables Doc Block : Type.
Variable apply_settings : result Doc.               (* before the [try] *)
Variable render : Block -> Doc -> result Doc.       (* one turn of the loop *)
Variable str_exn : exn -> string.                   (* [str(e)] *)

Definition generate_document (prefix saved_to : string)
           (file_path : string) (blocks : list Block) : result ToolResult :=
  match workspace_path env with
  | None => Ok (Error "Workspace not configured")
  | Some workspace =>
      if negb (truthy workspace) then Ok (Error "Workspace not configured") else
      let full_path := path_join workspace file_path in
      _ <- makedirs env (if truthy (dirname full_path) then dirname full_path
                         else workspace) ;;
      doc <- apply_settings ;;
      match (doc <- for_each render blocks doc ;; save env full_path) with
      | Ok _ =>
          Ok (Success (mkSuccess full_path None None (saved_to ++ file_path)))
      | Raise e => Ok (Error (prefix ++ str_exn e))
      end
  end.

Definition generate_word_document : string -> list Block -> result ToolResult :=
  generate_document "Word generation error: " "Word document saved to ".

Definition generate_excel_document : string -> list Block -> result ToolResult :=
  generate_document "Excel generation error: " "Excel document saved to ".

End EntryPoints.

(** ** Colour helpers *)

(** [_hex_to_rgb]: ['#RRGGBB'] or ['RRGGBB'] to the writer's colour. *)
Definition _hex_to_rgb (hex_color : string) : result Pptx.RGBColor :=
  let hex_color := lstrip_char "#" hex_color in
  r <- int16 (substring 0 2 hex_color) ;;
  g <- int16 (substring 2 2 hex_color) ;;
  b <- int16 (substring 4 2 hex_color) ;;
  Pptx.rgb_color r g b.

Definition named : list (string * string) :=
  [ ("red", "FF0000"); ("green", "00AA00"); ("blue", "0066CC"); ("black", "000000");
    ("white", "FFFFFF"); ("gray", "888888"); ("grey", "888888"); ("orange", "FF8800");
    ("purple", "8800CC"); ("yellow", "FFCC00"); ("navy", "003366"); ("teal", "008080");
    ("darkblue", "003366"); ("darkgreen", "006600"); ("darkred", "990000") ].

(** [_parse_color(color_str, default)]; [None] stands for an absent or
    [None] argument. *)
Definition _parse_color (color_str : option string) (default : string) : string :=
  match color_str with
  | None => default
  | Some color_str =>
      if negb (truthy color_str) then default else
      let color_str := lstrip_char "#" (strip color_str) in
      match Pptx.lookup (lower color_str) named with
      | Some hex => hex
      | None => if (String.length color_str =? 6)%nat then color_str else default
      end
  end.

(** ** The widths of the columns of a sheet, when none are given

    The values of the cells are the caller's; the loop reads their
    truthiness and the length of their [str], in characters. *)

Section AutoWidth.

Variable Value : Type.
Variable value_truthy : Value -> bool.        (* [if cell.value:] *)
Variable value_str : Value -> string.         (* [str(cell.value)] *)

(** The sheet as [ws.cell(row=r, column=c).value] reads it; rows and
    columns count from 1. *)
Definition Worksheet : Type := nat -> nat -> Value.

(** [ws.cell(row=r, column=c, value=v)] *)
Definition set_cell (ws : Worksheet) (r c : nat) (v : Value) : Worksheet :=
  fun r' c' => if ((r' =? r) && (c' =? c))%nat then v else ws r' c'.

(** The loop that writes the data:
    [for r_idx, row in enumerate(data, 1):
       for c_idx, value in enumerate(row, 1): ws.cell(r_idx, c_idx, value)] *)
Fixpoint write_row (ws : Worksheet) (r_idx c_idx : nat) (row : list Value) : Worksheet :=
  match row with
  | [] => ws
  | value :: rest => write_row (set_cell ws r_idx c_idx value) r_idx (S c_idx) rest
  end.

Fixpoint write_data (ws : Worksheet) (r_idx : nat) (data : list (list Value))
  : Worksheet :=
  match data with
  | [] => ws
  | row :: rest => write_data (write_row ws r_idx 1 row) (S r_idx) rest
  end.

(** [max(len(r) for r in data) if data else 0] *)
Definition max_row_length (data : list (list Value)) : nat :=
  match data with
  | [] => 0%nat
  | row :: rest => fold_left Nat.max (map (@List.length Value) rest) (List.length row)
  end.

(** [max_len] once the rows [1 .. rows] of column [c_idx] have been read. *)
Definition column_max_len (ws : Worksheet) (rows c_idx : nat) : nat :=
  fold_left (fun max_len r_idx =>
               let value := ws r_idx c_idx in
               if value_truthy value
               then let cell_len := Py.len (value_str value) in
                    if (max_len <? cell_len)%nat then cell_len else max_len
               else max_len)
            (seq 1 rows) 0%nat.

(** [min(max(max_len + 4, 10), 50)] *)
Definition auto_width (ws : Worksheet) (rows c_idx : nat) : nat :=
  Nat.min (Nat.max (column_max_len ws rows c_idx + 4) 10) 50.

(** The widths that the auto-width branch sets, column by column:
    [(c_idx, width)]. *)
Definition auto_widths (ws : Worksheet) (data : list (list Value)) : list (nat * nat) :=
  map (fun c_idx => (c_idx, auto_width ws (List.length data) c_idx))
      (seq 1 (max_row_length data)).

End AutoWidth.

End Office.

(* ================================================================== *)
(** * What is read off a slide: regions, texts, furniture *)
(* ================================================================== *)

Module Layout.

Import Pptx.

(** A rectangle of the slide, in inches. *)
Record Region : Type := mkRegion { x : Q; y : Q; w : Q; h : Q }.

Definition disjoint (a b : Region) : Prop :=
  (x a + w a <= x b \/ x b + w b <= x a \/ y a + h a <= y b \/ y b + h b <= y a)%Q.

Definition disjointb (a b : Region) : bool :=
  Qle_bool (x a + w a) (x b) || Qle_bool (x b + w b) (x a)
  || Qle_bool (y a + h a) (y b) || Qle_bool (y b + h b) (y a).

Fixpoint pairwise_disjointb (l : list Region) : bool :=
  match l with
  | [] => true
  | r :: l' => forallb (disjointb r) l' && pairwise_disjointb l'
  end.

(** The card backgrounds of a slide: its rounded rectangles with a shadow
    (the title bar has none). *)
Definition card_background (sh : Shape) : option Region :=
  match sh with
  | AutoShape ROUNDED_RECTANGLE l t wd ht _ _ true _ _ => Some (mkRegion l t wd ht)
  | _ => None
  end.

Fixpoint card_backgrounds (shapes : list Shape) : list Region :=
  match shapes with
  | [] => []
  | sh :: rest =>
      match card_background sh with
      | Some r => r :: card_backgrounds rest
      | None => card_backgrounds rest
      end
  end.

(** The regions of the cards of indices [0 .. kept - 1] in a grid of
    [cols_count] columns. *)
Definition card_regions (cols_count : nat) (card_w card_h : Q) (kept : nat)
  : list Region :=
  map (fun idx => let '(cx, cy) := card_origin cols_count card_w card_h idx in
                  mkRegion cx cy card_w card_h)
      (seq 0 kept).

(** The text of the card, if it has one, can be written into its frame
    (its colours are ones that the writer accepts). *)
Definition card_renders (theme : Theme) (font : string) (card : Card) : Prop :=
  match card_content card with
  | Some v =>
      value_truthy v = true ->
      exists fr,
        _add_text_to_frame
          (setdefault_line_spacing 1.3
             (setdefault_color (get_or theme "text_dark" "#555555")
                (setdefault_font_size 12 (as_config v))))
          font
        = Ok fr
  | None => True
  end.

(** The texts of the runs of a frame. *)
Definition frame_texts (fr : TextFrame) : list string :=
  flat_map (fun p => map run_text (par_runs p)) (tf_paragraphs fr).

(** The two shapes of the footer for the page number [num]. *)
Definition is_footer (num : nat) (bar box : Shape) : Prop :=
  (exists c, bar = AutoShape RECTANGLE 0 7.2 13.333 0.04 c None false None None)
  /\ (exists fr, box = TextBox 12.2 7.0 0.8 0.3 fr /\ frame_texts fr = [str_nat num]).

(** The three shapes of the title bar. *)
Definition is_title_bar (title : string) (bg box underline : Shape) : Prop :=
  (exists c, bg = AutoShape ROUNDED_RECTANGLE 0 0 13.333 1.1 c None false None None)
  /\ (exists fr, box = TextBox 0.8 0.15 11 0.8 fr /\ frame_texts fr = [title])
  /\ (exists c, underline = AutoShape RECTANGLE 0.8 1.05 3 0.04 c None false None None).

(** A slide that carries the title bar and the footer and nothing else. *)
Definition furniture_only (title : string) (num : nat) (slide : Slide) : Prop :=
  exists bg box underline bar number,
    shapes slide = [bg; box; underline; bar; number]
    /\ is_title_bar title bg box underline
    /\ is_footer num bar number.

(** The builder appended one slide to the deck. *)
Definition adds_slide (prs prs' : Presentation) : Prop :=
  exists slide, prs' = (prs ++ [slide])%list.

(** The builder appended one slide, which ends with the footer that
    carries the position of the slide in the deck. *)
Definition adds_slide_with_footer (prs prs' : Presentation) : Prop :=
  exists slide bar box pre,
    prs' = (prs ++ [slide])%list
    /\ shapes slide = (pre ++ [bar; box])%list
    /\ is_footer (S (List.length prs)) bar box.

(** The slide type as the dispatcher reads it. *)
Definition normalized_type (slide_data : SlideData) : string :=
  strip (lower (Py.get (slide_type slide_data) "content")).

(** The slide types whose builder ends with the footer. *)
Definition has_footer (slide_type : string) : bool :=
  negb (existsb (String.eqb slide_type)
                ["title"; "cover"; "section"; "divider"; "quote"; "ending"; "thank_you"]).

(** The role keys that the builders index the theme by. *)
Definition role_keys : list string :=
  [ "primary"; "secondary"; "accent"; "light"; "dark"; "text_dark"; "text_light";
    "bg"; "gradient_start"; "gradient_end"; "card_bg"; "card_border" ].

Definition color_ok (c : string) : bool :=
  match _hex c with
  | Ok _ => true
  | Raise _ => false
  end.

(** The channels that the two colour transforms compute: [int(v * factor)]
    and [int(v + (255 - v) * factor)], in float arithmetic. *)
Definition darken_channel (v : Z) (factor : float) : result Z :=
  int_of_float (fmul (float_of_Z v) factor).

Definition lighten_channel (v : Z) (factor : float) : result Z :=
  int_of_float (fadd (float_of_Z v) (fmul (float_of_Z (255 - v)) factor)).

Definition in_byte (r : result Z) : bool :=
  match r with
  | Ok d => ((0 <=? d) && (d <=? 255))%Z
  | Raise _ => false
  end.

(** The factor takes each of the 256 channel values to a value of 0..255,
    in both transforms. *)
Definition keeps_channels (factor : float) : bool :=
  forallb (fun v => in_byte (darken_channel v factor)
                    && in_byte (lighten_channel v factor))
          (map Z.of_nat (seq 0 256)).

(** The factors that occur in the engine: those that the builders pass, the
    defaults 0.7 and 0.3 of the two transforms, and the ends 0 and 1. *)
Definition engine_factors : list float :=
  map double [0; 0.15; 0.2; 0.3; 0.5; 0.7; 0.8; 1]%Q.

(** Every role has a colour that the writer accepts. *)
Definition theme_ok (theme : Theme) : bool :=
  forallb (fun key => match lookup key theme with
                      | Some c => color_ok c
                      | None => false
                      end)
          role_keys.

(** The marker and the content of a timeline step. *)
Definition is_marker (cx : Q) (sh : Shape) : Prop :=
  exists l t c ln,
    sh = AutoShape OVAL l t node_size node_size c ln false None None
    /\ (l + node_size / 2 == cx)%Q
    /\ (t + node_size / 2 == timeline_line_y + 0.04 / 2)%Q.

Definition above_axis (sh : Shape) : Prop :=
  exists l t wd ht fr, sh = TextBox l t wd ht fr /\ (t + ht <= timeline_line_y)%Q.

Definition below_axis (sh : Shape) : Prop :=
  exists l t wd ht fr, sh = TextBox l t wd ht fr /\ (timeline_line_y + 0.04 <= t)%Q.

(** The texts of a step in the order in which its content is drawn: above
    the axis the time label, the title, the description; below it the
    title, the time label, the description.  The title is always drawn; an
    empty time label or description is not. *)
Definition step_texts (i : nat) (step : Step) : list string :=
  let time_label := Py.get (step_time_label step) "" in
  let title := Py.get (step_title step) "" in
  let desc := Py.get (step_description step) "" in
  let shown (s : string) := if truthy s then [s] else [] in
  if (i mod 2 =? 0)%nat
  then shown time_label ++ [title] ++ shown desc
  else [title] ++ shown time_label ++ shown desc.

(** A text box that holds [text], in the column that starts at [x] and is
    [w] wide, on the given side of the axis. *)
Definition is_step_box (x w : Q) (above : bool) (text : string) (sh : Shape) : Prop :=
  exists l t wd ht fr,
    sh = TextBox l t wd ht fr
    /\ (l == x)%Q /\ (wd == w)%Q
    /\ frame_texts fr = [text]
    /\ if above then (t + ht <= timeline_line_y)%Q
       else (timeline_line_y + 0.04 <= t)%Q.

(** The shapes of the step of index [i]: the marker centred at [cx], the
    box of the step number, then the content: one box for each text of the
    step, in order, in the column of the step, which is centred at [cx] and
    [step_width - 0.2] wide, all above the axis when [i] is even and all
    below it when [i] is odd. *)
Definition is_step_group (cx step_width : Q) (i : nat) (step : Step)
           (group : list Shape) : Prop :=
  exists marker number content,
    group = marker :: number :: content
    /\ is_marker cx marker
    /\ (exists l t wd ht fr, number = TextBox l t wd ht fr
                             /\ frame_texts fr = [str_nat (i + 1)])
    /\ Forall2 (is_step_box (cx - step_width / 2 + 0.1) (step_width - 0.2)
                            (i mod 2 =? 0)%nat)
               (step_texts i step) content
    /\ ((i mod 2 = 0)%nat -> Forall above_axis content)
    /\ ((i mod 2 = 1)%nat -> Forall below_axis content).

(** ** Sample inputs *)

Definition sample_env : Env :=
  mkEnv (Some "/ws") (fun _ => false) (fun _ => Ok tt) (fun _ => Ok tt)
        (fun _ => Ok tt) "0a1b2c3d" (fun _ => Ok tt).

(** The disk is full: the writer's [save] raises. *)
Definition full_disk_env : Env :=
  mkEnv (Some "/ws") (fun _ => false) (fun _ => Ok tt) (fun _ => Raise OSError)
        (fun _ => Ok tt) "0a1b2c3d" (fun _ => Ok tt).


Definition sample_card (t : string) : Card :=
  mkCard (Some "01") (Some t) (Some (AsStr "body")).

Definition sample_deck : list SlideData :=
  [ with_title (Some "Roadmap") (with_slide_type (Some "title") empty_slide_data);
    with_cards [sample_card "a"; sample_card "b"; sample_card "c"; sample_card "d"]
               (with_slide_type (Some "cards") empty_slide_data);
    with_steps [mkStep (Some "plan") None (Some "Q1");
                mkStep (Some "build") (Some "two teams") None;
                mkStep (Some "ship") None None]
               (with_slide_type (Some "timeline") empty_slide_data);
    with_slide_type (Some "hologram") empty_slide_data ].

End Layout.

(* ================================================================== *)
(** * What is read off a chart *)
(* ================================================================== *)

Module ChartLayout.

Import Office.

(** The values of a series that the stacked bars draw over [n] categories. *)
Definition stacked_values (n : nat) (s : Series) : list Q :=
  firstn n (Py.get (values s) (repeat 0%Q n)).

(** The running baseline over [n] categories once the rows have been
    stacked: the sum of the rows, category by category, from zero. *)
Definition baseline (n : nat) (rows : list (list Q)) : list Q :=
  fold_left add_arrays rows (repeat 0%Q n).

(** The sum of the values of the rows at category [j], from zero. *)
Definition stacked_total (rows : list (list Q)) (j : nat) : Q :=
  fold_left Qplus (map (fun row => nth j row 0%Q) rows) 0%Q.

Definition series_of (vs : list Q) : Series := mkSeries None (Some vs).


(** What a native chart shows: its type, the series that it plots, its
    title, legend, data labels and series colours; the workbook that the
    writer stores behind the chart is not shown. *)
Definition shown (ch : Pptx.NativeChart)
  : Pptx.XL_CHART_TYPE * Pptx.ChartData * option string * Pptx.Legend * option string
    * list Pptx.RGBColor :=
  (Pptx.xl_type ch, Pptx.plotted ch, Pptx.chart_title ch, Pptx.legend ch,
   Pptx.data_labels ch, Pptx.series_fills ch).

End ChartLayout.

(* ================================================================== *)
(** * What is read off the other builders and helpers *)
(* ================================================================== *)

Module Observed.

Import Pptx Layout.

(** Every role of the theme has a colour of six digits, the form that the
    two colour transforms slice. *)
Definition six_digits (theme : Theme) : bool :=
  forallb (fun key => match lookup key theme with
                      | Some c => Nat.eqb (String.length (lstrip_char "#" c)) 6
                      | None => false
                      end)
          role_keys.

(** The card of the stat of index [i], in a row of [shown] cards of width
    [card_w]. *)
Definition stat_regions (card_w : Q) (shown : nat) : list Region :=
  map (fun i => mkRegion (0.5 + float_of_nat i * (card_w + 0.4)) 2.2 card_w 3.5)%Q
      (seq 0 shown).

(** The card of the column of index [i] of the three-column slide. *)
Definition column_regions (shown : nat) : list Region :=
  map (fun i => mkRegion (0.5 + float_of_nat i * (3.7 + 0.45)) 1.5 3.7 5.2)%Q
      (seq 0 shown).

(** The card of index [i] of each of the two rows. *)
Definition stat_region (card_w : Q) (i : nat) : Region :=
  mkRegion (0.5 + float_of_nat i * (card_w + 0.4)) 2.2 card_w 3.5.

Definition column_region (i : nat) : Region :=
  mkRegion (0.5 + float_of_nat i * (3.7 + 0.45)) 1.5 3.7 5.2.

(** A text that is drawn when it is not empty. *)
Definition shown_text (s : string) : list string := if truthy s then [s] else [].

(** The texts of a stat, in the order in which they are drawn: the icon,
    the value, the label, the description; the value is always drawn. *)
Definition stat_texts (stat : Stat) : list string :=
  shown_text (Py.get (stat_icon stat) "")
  ++ [Py.get (stat_value stat) "0"]
  ++ shown_text (Py.get (stat_label stat) "")
  ++ shown_text (Py.get (stat_description stat) "").

(** A text box that holds [text], 0.2 inside the sides of the card and
    between its top and its bottom. *)
Definition is_stat_text (card : Region) (text : string) (sh : Shape) : Prop :=
  exists l t wd ht fr,
    sh = TextBox l t wd ht fr
    /\ (l == x card + 0.2)%Q /\ (wd == w card - 0.4)%Q
    /\ frame_texts fr = [text]
    /\ (y card <= t)%Q /\ (t + ht <= y card + h card)%Q.

(** The shapes of one stat: the card, the accent bar along its top, then
    one text box for each text of the stat, in order. *)
Definition is_stat_group (card : Region) (stat : Stat) (group : list Shape) : Prop :=
  exists bg bar boxes,
    group = bg :: bar :: boxes
    /\ card_background bg = Some card
    /\ (exists c, bar = AutoShape RECTANGLE (x card) (y card) (w card) 0.06 c None false
                                  None None)
    /\ Forall2 (is_stat_text card) (stat_texts stat) boxes.

(** The head texts of a column: the icon, then the title, each one drawn
    when it is not empty. *)
Definition column_texts (col : Column) : list string :=
  shown_text (Py.get (col_icon col) "") ++ shown_text (Py.get (col_title col) "").

(** The configuration of the body of a column, once the builder has set
    its defaults. *)
Definition column_content_config (theme : Theme) (col : Column) : TextConfig :=
  setdefault_color (get_or theme "text_dark" "#333333")
    (setdefault_font_size 13
       (match col_content col with
        | Some v => as_config v
        | None => empty_config
        end)).

(** A text box that holds [text], 0.3 inside the left side of the card and
    inside the card. *)
Definition is_column_head (card : Region) (text : string) (sh : Shape) : Prop :=
  exists l t wd ht fr,
    sh = TextBox l t wd ht fr
    /\ (l == x card + 0.3)%Q
    /\ frame_texts fr = [text]
    /\ (l + wd <= x card + w card)%Q
    /\ (y card <= t)%Q /\ (t + ht <= y card + h card)%Q.

(** The shapes of one column: the card, the accent bar, the head texts,
    and the body, which is the text frame written from the content of the
    column, 0.6 below the top of the title and down to 7.0. *)
Definition is_column_group (theme : Theme) (font : string) (card : Region)
           (col : Column) (group : list Shape) : Prop :=
  exists bg bar heads body,
    group = (bg :: bar :: heads ++ [body])%list
    /\ card_background bg = Some card
    /\ (exists c, bar = AutoShape RECTANGLE (x card + 0.3) 1.7 1.2 0.05 c None false
                                  None None)
    /\ Forall2 (is_column_head card) (column_texts col) heads
    /\ exists l t wd ht fr,
        body = TextBox l t wd ht fr
        /\ (l == x card + 0.3)%Q /\ (wd == w card - 0.6)%Q
        /\ (t == (if truthy (Py.get (col_icon col) "") then 2.7 else 2.0) + 0.6)%Q
        /\ (t + ht == 7.0)%Q
        /\ _add_text_to_frame (column_content_config theme col) font = Ok fr.

(** The region lies inside the side margins of the slide, below the title
    bar (which ends at 1.1) and above the footer (which starts at 7.0). *)
Definition in_content_area (r : Region) : bool :=
  Qle_bool 0.5 (x r) && Qle_bool (x r + w r) 12.8
  && Qle_bool 1.1 (y r) && Qle_bool (y r + h r) 7.0.

(** The line that a bullet item is written as: two spaces per level, the
    bullet character, the text. *)
Definition bullet_level (item : BulletItem) : nat :=
  match item with
  | BulletStr _ => 0%nat
  | BulletDict _ l _ _ _ => Py.get l 0%nat
  end.

Definition bullet_line (item : BulletItem) : string :=
  match item with
  | BulletStr s => "•  " ++ s
  | BulletDict t l _ _ _ => (repeat_string "  " (Py.get l 0%nat) ++ "•  ") ++ Py.get t ""
  end.

(** The paths of the pictures of a slide. *)
Definition pictures (shapes : list Shape) : list string :=
  flat_map (fun sh => match sh with
                      | Picture path _ _ _ _ => [path]
                      | _ => []
                      end)
           shapes.

(** The tags that name the builder of another tag. *)
Definition tag_aliases : list (string * string) :=
  [ ("cover", "title"); ("divider", "section"); ("text", "content");
    ("two_columns", "two_column"); ("three_columns", "three_column");
    ("statistics", "stats"); ("thank_you", "ending") ].


(** The slide types whose builders draw nothing but the strings of the
    entry, in the colours of the theme. *)
Definition plain_types : list string :=
  [ "title"; "cover"; "section"; "divider"; "quote"; "ending"; "thank_you"; "stats";
    "statistics"; "timeline" ].

Definition plain_deck (slides_content : list SlideData) : bool :=
  forallb (fun sd => existsb (String.eqb (normalized_type sd)) plain_types)
          slides_content.







(** [{"theme": name}] *)
Definition theme_settings (name : string) : Settings :=
  mkSettings (Some name) [] None None None.

End Observed.

(* ================================================================== *)
(** * Facts about the Python layer, then properties of the colour model *)
(* ================================================================== *)

Module PyFacts.

Lemma bind_ok {A B : Type} (m : result A) (k : A -> result B) (b : B) :
  Py.bind m k = Ok b -> exists a, m = Ok a /\ k a = Ok b.
Proof.
  destruct m as [a | e]; simpl; intros H; [exists a; split; auto | discriminate].
Qed.

Lemma bind_assoc {A B C : Type} (m : result A) (f : A -> result B)
      (g : B -> result C) :
  Py.bind (Py.bind m f) g = Py.bind m (fun a => Py.bind (f a) g).
Proof. destruct m; reflexivity. Qed.

End PyFacts.

Module ColorFacts.

Import Pptx Layout.

(** [int] of a rational between [0] and an integer [k] is an integer of that
    range. *)
Lemma int_range (q : Q) (k : Z) :
  (0 <= q)%Q -> (q <= inject_Z k)%Q -> (0 <= Py.int q <= k)%Z.
Proof.
  destruct q as [n d]; unfold Py.int, Qle; simpl.
  intros H0 Hk.
  rewrite Z.mul_1_r in H0.
  rewrite Z.mul_1_r in Hk.
  rewrite Z.quot_div_nonneg by lia.
  split.
  - apply Z.div_pos; lia.
  - apply Z.div_le_upper_bound; lia.
Qed.

Lemma rgb_color_range (r g b : Z) (c : RGBColor) :
  rgb_color r g b = Ok c ->
  c = mkRGB r g b /\ (0 <= r <= 255)%Z /\ (0 <= g <= 255)%Z /\ (0 <= b <= 255)%Z.
Proof.
  unfold rgb_color.
  destruct ((0 <=? r) && (r <=? 255) && (0 <=? g) && (g <=? 255)
            && (0 <=? b) && (b <=? 255))%Z eqn:E; [| discriminate].
  intros H; injection H as <-.
  repeat (apply andb_prop in E; destruct E as [E ?]).
  repeat split; lia.
Qed.

(** A colour of six hexadecimal digits is read in the same way by [_hex] and
    by the two transforms. *)
Lemma hex_channels (color : string) (r g b : Z) :
  String.length (lstrip_char "#" color) = 6%nat ->
  _hex color = Ok (mkRGB r g b) ->
  int16 (substring 0 2 (lstrip_char "#" color)) = Ok r
  /\ int16 (substring 2 2 (lstrip_char "#" color)) = Ok g
  /\ int16 (substring 4 2 (lstrip_char "#" color)) = Ok b
  /\ (0 <= r <= 255)%Z /\ (0 <= g <= 255)%Z /\ (0 <= b <= 255)%Z.
Proof.
  intros Hlen H; unfold _hex in H; rewrite Hlen in H; simpl Nat.eqb in H; cbv iota in H.
  apply PyFacts.bind_ok in H as (r' & Hr & H).
  apply PyFacts.bind_ok in H as (g' & Hg & H).
  apply PyFacts.bind_ok in H as (b' & Hb & H).
  apply rgb_color_range in H as (Hc & ? & ? & ?).
  injection Hc as -> -> ->.
  repeat split; auto; lia.
Qed.

(** A property of a channel that holds on each of the 256 values holds on
    every channel. *)
Lemma every_channel (P : Z -> bool) :
  forallb P (map Z.of_nat (seq 0 256)) = true ->
  forall v, (0 <= v <= 255)%Z -> P v = true.
Proof.
  intros H v Hv; rewrite forallb_forall in H; apply H.
  rewrite <- (Z2Nat.id v) by lia.
  apply in_map, in_seq; lia.
Qed.

Lemma in_byte_inv (r : result Z) :
  in_byte r = true -> exists d, r = Ok d /\ (0 <= d <= 255)%Z.
Proof.
  destruct r as [d | e]; simpl; [| discriminate].
  intros H; apply andb_prop in H as (H0 & H1).
  exists d; split; [reflexivity | lia].
Qed.

(** What a factor that keeps the channels gives on one channel. *)
Lemma keeps_channels_inv (f : float) (v : Z) :
  keeps_channels f = true -> (0 <= v <= 255)%Z ->
  (exists d, darken_channel v f = Ok d /\ (0 <= d <= 255)%Z)
  /\ (exists l, lighten_channel v f = Ok l /\ (0 <= l <= 255)%Z).
Proof.
  intros H Hv; unfold keeps_channels in H.
  pose proof (every_channel _ H v Hv) as Hc; cbv beta in Hc.
  apply andb_prop in Hc as (Hd & Hl).
  split; apply in_byte_inv; assumption.
Qed.

(** The factors that the builders pass, and the two defaults. *)
Lemma engine_factors_keep_channels :
  forallb keeps_channels engine_factors = true.
Proof. vm_compute; reflexivity. Qed.

(** The transforms, read channel by channel. *)
Lemma darken_by_channel (color : string) (r g b : Z) (f : float) :
  String.length (lstrip_char "#" color) = 6%nat ->
  _hex color = Ok (mkRGB r g b) ->
  _darken color f
  = (dr <- darken_channel r f ;;
     dg <- darken_channel g f ;;
     db <- darken_channel b f ;;
     Ok ("#" ++ format_02x dr ++ format_02x dg ++ format_02x db)).
Proof.
  intros Hlen Hhex.
  destruct (hex_channels color r g b Hlen Hhex) as (Hr & Hg & Hb & _).
  unfold _darken; rewrite Hr, Hg, Hb; reflexivity.
Qed.

Lemma lighten_by_channel (color : string) (r g b : Z) (f : float) :
  String.length (lstrip_char "#" color) = 6%nat ->
  _hex color = Ok (mkRGB r g b) ->
  _lighten color f
  = (lr <- lighten_channel r f ;;
     lg <- lighten_channel g f ;;
     lb <- lighten_channel b f ;;
     Ok ("#" ++ format_02x lr ++ format_02x lg ++ format_02x lb)).
Proof.
  intros Hlen Hhex.
  destruct (hex_channels color r g b Hlen Hhex) as (Hr & Hg & Hb & _).
  unfold _lighten; rewrite Hr, Hg, Hb; reflexivity.
Qed.

(** On the factors of the engine the float product, truncated, is the
    truncation of the exact product or one less: the product of the floats
    is rounded before [int] cuts it. *)
Lemma float_channels_near_exact :
  forallb (fun q =>
             forallb (fun v =>
                        match darken_channel v (double q) with
                        | Ok d => let exact := Py.int (inject_Z v * q) in
                                  ((exact - 1 <=? d) && (d <=? exact))%Z
                        | Raise _ => false
                        end)
                     (map Z.of_nat (seq 0 256)))
          [0; 0.15; 0.2; 0.3; 0.5; 0.7; 0.8; 1]%Q
  = true.
Proof. vm_compute; reflexivity. Qed.

(** C2, as the claim states it, fails: the transforms write lower-case
    digits, so [darken("#FFFFFF", 0.5)] is ["#7f7f7f"] and not
    ["#7F7F7F"], and no channel is clamped: with factor 2 the white channel
    becomes 510, printed as three digits. *)
Lemma darken_lighten_not_as_claimed :
  _darken "#FFFFFF" (double 0.5) <> Ok "#7F7F7F"
  /\ _lighten "#000000" (double 0.5) <> Ok "#7F7F7F"
  /\ darken_channel 255 (double 2) = Ok 510%Z
  /\ _darken "#FFFFFF" (double 2) = Ok "#1fe1fe1fe".
Proof.
  repeat split; try (vm_compute; discriminate); vm_compute; reflexivity.
Qed.

(** C2, amended: for a colour of six hexadecimal digits and a factor [f],
    [_darken] turns every channel [v] into [int(v * f)] and [_lighten] into
    [int(v + (255 - v) * f)], the product and the sum being those of the
    machine's floats, each channel truncated on its own and printed as
    lower-case hexadecimal; nothing is clamped; for a factor that keeps the
    256 channel values in 0..255, as every factor of the engine does, both
    return a colour.  [_darken("#FFFFFF", 0.5)] and
    [_lighten("#000000", 0.5)] are ["#7f7f7f"], the colour that ["#7F7F7F"]
    also denotes; the rounding of the product shows in
    [_darken("#5AAAB4", 0.7)], which is ["#3e767d"]: [90 * 0.7] is just
    below 63. *)
Theorem darken_lighten_channels (color : string) (r g b : Z) (f : float) :
  String.length (lstrip_char "#" color) = 6%nat ->
  _hex color = Ok (mkRGB r g b) ->
  _darken color f
  = (dr <- darken_channel r f ;;
     dg <- darken_channel g f ;;
     db <- darken_channel b f ;;
     Ok ("#" ++ format_02x dr ++ format_02x dg ++ format_02x db))
  /\ _lighten color f
     = (lr <- lighten_channel r f ;;
        lg <- lighten_channel g f ;;
        lb <- lighten_channel b f ;;
        Ok ("#" ++ format_02x lr ++ format_02x lg ++ format_02x lb))
  /\ (keeps_channels f = true ->
      exists dr dg db lr lg lb,
        _darken color f = Ok ("#" ++ format_02x dr ++ format_02x dg ++ format_02x db)
        /\ _lighten color f = Ok ("#" ++ format_02x lr ++ format_02x lg ++ format_02x lb)
        /\ Forall (fun v => (0 <= v <= 255)%Z) [dr; dg; db; lr; lg; lb])
  /\ forallb keeps_channels engine_factors = true
  /\ _darken "#FFFFFF" (double 0.5) = Ok "#7f7f7f"
  /\ _lighten "#000000" (double 0.5) = Ok "#7f7f7f"
  /\ _hex "#7f7f7f" = _hex "#7F7F7F"
  /\ _darken "#5AAAB4" (double 0.7) = Ok "#3e767d"
  /\ Py.int (inject_Z 90 * 0.7) = 63%Z.
Proof.
  intros Hlen Hhex.
  destruct (hex_channels color r g b Hlen Hhex) as (_ & _ & _ & Rr & Rg & Rb).
  split; [apply darken_by_channel; assumption |].
  split; [apply lighten_by_channel; assumption |].
  split; [| repeat split; try exact engine_factors_keep_channels;
            vm_compute; reflexivity].
  intros Hk.
  rewrite (darken_by_channel color r g b f Hlen Hhex).
  rewrite (lighten_by_channel color r g b f Hlen Hhex).
  destruct (keeps_channels_inv f r Hk Rr) as ((dr & -> & ?) & (lr & -> & ?)).
  destruct (keeps_channels_inv f g Hk Rg) as ((dg & -> & ?) & (lg & -> & ?)).
  destruct (keeps_channels_inv f b Hk Rb) as ((db & -> & ?) & (lb & -> & ?)).
  exists dr, dg, db, lr, lg, lb; cbn [Py.bind].
  split; [reflexivity |]; split; [reflexivity |].
  repeat constructor; lia.
Qed.

Lemma darken_lighten_channels_witness :
  _darken "#1ABC9C" (double 0.7) = Ok "#12836d"
  /\ _lighten "#1ABC9C" (double 0.7) = Ok "#baeae1".
Proof.
  destruct (darken_lighten_channels "#1ABC9C" 26 188 156 (double 0.7) eq_refl eq_refl)
    as (Hd & Hl & _).
  split; [rewrite Hd | rewrite Hl]; vm_compute; reflexivity.
Defined.

(** ** Gradient stops *)

Lemma set_stop_head (s0 s1 : GradientStop) (rest : list GradientStop)
      (c0 c1 : RGBColor) :
  (stops <- set_stop (s0 :: s1 :: rest) 0 c0 0 ;; set_stop stops 1 c1 1)
  = Ok (mkStop (position_attr 0) (StopRGB c0)
          :: mkStop (position_attr 1) (StopRGB c1) :: rest).
Proof. reflexivity. Qed.

(** C4: with no extra stop the routine does what the claim says: on the
    gradient of a fresh fill it sets the first stop to position 0 and the
    second, the last, to position 1 (the attribute [100000]), strictly
    ascending.  With any extra stop it does not insert it: the base stops
    are set, and then the search for the stop list raises
    [AttributeError], for every input, so that no gradient with an extra
    stop is ever built. *)
Theorem gradient_extra_stops_raise (s0 s1 : GradientStop) (rest : list GradientStop)
        (color_start color_end : string) (c0 c1 : RGBColor)
        (es : ExtraStop) (extra_stops : list ExtraStop) :
  _hex color_start = Ok c0 ->
  _hex color_end = Ok c1 ->
  let first := mkStop (position_attr 0) (StopRGB c0) in
  let second := mkStop (position_attr 1) (StopRGB c1) in
  stop_pos first = 0%Z
  /\ stop_pos second = 100000%Z
  /\ (stop_pos first < stop_pos second)%Z
  /\ _apply_gradient_fill (s0 :: s1 :: rest) color_start color_end []
     = Ok (first :: second :: rest)
  /\ _apply_gradient_fill (s0 :: s1 :: rest) color_start color_end (es :: extra_stops)
     = Raise AttributeError
  /\ (forall stops cs ce,
         _apply_gradient_fill stops cs ce (es :: extra_stops)
         <> Ok (first :: mkStop (Py.int (pos es * 1000))
                                (StopVal (lstrip_char "#" (es_color es)))
                      :: second :: rest)).
Proof.
  intros H0 H1 first second.
  split; [reflexivity |]; split; [reflexivity |]; split; [reflexivity |].
  split; [| split].
  - unfold _apply_gradient_fill; rewrite H0; cbn [Py.bind set_stop nth_error firstn skipn app].
    rewrite H1; reflexivity.
  - unfold _apply_gradient_fill; rewrite H0; cbn [Py.bind set_stop nth_error firstn skipn app].
    rewrite H1; reflexivity.
  - intros stops cs ce H; unfold _apply_gradient_fill in H.
    destruct (_hex cs) as [k0 |]; [| discriminate H]; cbn [Py.bind] in H.
    destruct (set_stop stops 0 k0 0) as [st0 |]; [| discriminate H]; cbn [Py.bind] in H.
    destruct (_hex ce) as [k1 |]; [| discriminate H]; cbn [Py.bind] in H.
    destruct (set_stop st0 1 k1 1); discriminate H.
Qed.

Lemma gradient_extra_stops_raise_witness :
  _apply_gradient_fill [mkStop 0 (StopVal "000000"); mkStop 100000 (StopVal "FFFFFF")]
                       "#1A5276" "#2980B9" [mkExtraStop 50 "#3498DB"]
  = Raise AttributeError.
Proof.
  destruct (gradient_extra_stops_raise
              (mkStop 0 (StopVal "000000")) (mkStop 100000 (StopVal "FFFFFF")) []
              "#1A5276" "#2980B9" (mkRGB 26 82 118) (mkRGB 41 128 185)
              (mkExtraStop 50 "#3498DB") [] eq_refl eq_refl)
    as (_ & _ & _ & _ & H & _).
  exact H.
Defined.

End ColorFacts.

(* ================================================================== *)
(** * Properties of the slide builders *)
(* ================================================================== *)

Module BuilderFacts.

Import Pptx Layout.
Local Open Scope list_scope.

Ltac bind_inv H :=
  let a := fresh "a" in
  let E := fresh "E" in
  apply PyFacts.bind_ok in H as (a & E & H).

Lemma drawn_add_slide (prs : Presentation) (slide : Slide) :
  drawn (fst (add_slide prs)) slide = (prs ++ [slide])%list.
Proof.
  unfold drawn, add_slide; simpl; rewrite removelast_last; reflexivity.
Qed.

Lemma length_add_slide (prs : Presentation) :
  List.length (fst (add_slide prs)) = S (List.length prs).
Proof.
  unfold add_slide; simpl; rewrite length_app; simpl; lia.
Qed.

(** ** What each helper adds to the slide *)

Lemma text_frame_texts (cfg : TextConfig) (font : string) (fr : TextFrame) (t : string) :
  text cfg = Some t -> _add_text_to_frame cfg font = Ok fr -> frame_texts fr = [t].
Proof.
  intros Ht H; unfold _add_text_to_frame in H; rewrite Ht in H.
  bind_inv H; injection H as <-.
  unfold _set_run_style in E; bind_inv E; bind_inv E; injection E as <-.
  reflexivity.
Qed.

Lemma add_text_box_inv slide l t wd ht cfg font slide' :
  _add_text_box slide l t wd ht cfg font = Ok slide' ->
  exists fr, _add_text_to_frame cfg font = Ok fr
             /\ slide' = add_shape slide
                           (TextBox (_inches l) (_inches t) (_inches wd) (_inches ht) fr).
Proof.
  unfold _add_text_box; intros H; bind_inv H; injection H as <-; eauto.
Qed.

Lemma add_decorative_bar_inv slide bx by_ bw bh color slide' :
  _add_decorative_bar slide bx by_ bw bh color = Ok slide' ->
  exists c, slide' = add_shape slide
                       (AutoShape RECTANGLE (_inches bx) (_inches by_) (_inches bw)
                                  (_inches bh) c None false None None).
Proof.
  unfold _add_decorative_bar; intros H; bind_inv H; injection H as <-; eauto.
Qed.

Lemma add_rounded_rect_inv slide l t wd ht fill bc bw shadow slide' :
  _add_rounded_rect slide l t wd ht fill bc bw shadow = Ok slide' ->
  exists c ln, border bc bw = Ok ln
               /\ slide' = add_shape slide
                             (AutoShape ROUNDED_RECTANGLE (_inches l) (_inches t)
                                        (_inches wd) (_inches ht) c ln shadow None None).
Proof.
  unfold _add_rounded_rect; intros H; bind_inv H; bind_inv H; injection H as <-; eauto.
Qed.

Lemma add_circle_inv slide l t size fill bc bw slide' :
  _add_circle slide l t size fill bc bw = Ok slide' ->
  exists c ln, border bc bw = Ok ln
               /\ slide' = add_shape slide
                             (AutoShape OVAL (_inches l) (_inches t) (_inches size)
                                        (_inches size) c ln false None None).
Proof.
  unfold _add_circle; intros H; bind_inv H; bind_inv H; injection H as <-; eauto.
Qed.

Lemma apply_bg_solid_inv slide color slide' :
  _apply_bg_solid slide color = Ok slide' -> shapes slide' = shapes slide.
Proof.
  unfold _apply_bg_solid; intros H; bind_inv H; injection H as <-; reflexivity.
Qed.

Lemma footer_inv slide prs theme font slide' :
  _add_slide_footer slide prs theme font = Ok slide' ->
  exists bar box,
    shapes slide' = (shapes slide ++ [bar; box])%list
    /\ is_footer (List.length prs) bar box.
Proof.
  unfold _add_slide_footer; intros H.
  bind_inv H; bind_inv H.
  apply add_decorative_bar_inv in E0 as (c & ->).
  apply add_text_box_inv in H as (fr & Hfr & ->).
  apply text_frame_texts with (t := str_nat (List.length prs)) in Hfr; [| reflexivity].
  exists (AutoShape RECTANGLE 0 7.2 13.333 0.04 c None false None None),
         (TextBox 12.2 7.0 0.8 0.3 fr).
  split.
  - simpl; rewrite <- app_assoc; reflexivity.
  - split; eauto.
Qed.

Lemma title_bar_inv slide title theme font slide' :
  title_bar slide title theme font = Ok slide' ->
  exists bg box underline,
    shapes slide' = (shapes slide ++ [bg; box; underline])%list
    /\ background slide' = background slide
    /\ is_title_bar title bg box underline.
Proof.
  unfold title_bar; intros H.
  bind_inv H; bind_inv H; bind_inv H; bind_inv H; bind_inv H.
  apply add_rounded_rect_inv in E0 as (c & ln & Hln & ->).
  injection Hln as <-.
  apply add_text_box_inv in E2 as (fr & Hfr & ->).
  apply add_decorative_bar_inv in H as (c' & ->).
  apply text_frame_texts with (t := title) in Hfr; [| reflexivity].
  do 3 eexists; split; [| split].
  - simpl; rewrite <- !app_assoc; reflexivity.
  - reflexivity.
  - repeat split; eauto.
Qed.

(** ** Every builder adds one slide; the light ones end with the footer *)

(** Walks down the statements of a builder that returned [Ok], naming the
    result of each one. *)
Ltac walk H :=
  repeat match type of H with
         | Py.bind ?m _ = Ok _ =>
             let a := fresh "a" in
             let E := fresh "E" in
             destruct m as [a | ?] eqn:E; [cbn [Py.bind] in H | discriminate H]
         | (let (_, _) := ?p in _) = Ok _ => destruct p
         | (if ?c then _ else _) = Ok _ => destruct c
         | match ?o with Some _ => _ | None => _ end = Ok _ => destruct o
         end.

Lemma footer_then_drawn prs slide0 theme font slide prs' :
  _add_slide_footer slide0 (fst (add_slide prs)) theme font = Ok slide ->
  Ok (drawn (fst (add_slide prs)) slide) = Ok prs' ->
  adds_slide_with_footer prs prs'.
Proof.
  intros Hf H; injection H as <-.
  apply footer_inv in Hf as (bar & box & Hs & Hfoot).
  rewrite length_add_slide in Hfoot.
  exists slide, bar, box, (shapes slide0).
  split; [apply drawn_add_slide | auto].
Qed.

Ltac footer_builder f :=
  intros H;
  unfold f in H;
  change (add_slide ?p) with (fst (add_slide p), blank_slide) in H;
  cbv iota beta in H;
  walk H;
  match goal with
  | Hf : _add_slide_footer _ _ _ _ = Ok _ |- _ => exact (footer_then_drawn _ _ _ _ _ _ Hf H)
  end.

Ltac plain_builder f :=
  intros H;
  unfold f in H;
  change (add_slide ?p) with (fst (add_slide p), blank_slide) in H;
  cbv iota beta in H;
  walk H;
  injection H as <-;
  eexists; apply drawn_add_slide.

Lemma footer_adds_slide prs prs' :
  adds_slide_with_footer prs prs' -> adds_slide prs prs'.
Proof. intros (slide & _ & _ & _ & -> & _); exists slide; reflexivity. Qed.

Section Builders.

Variable env : Env.
Variables (prs prs' : Presentation) (sd : SlideData) (theme : Theme).
Variables (font workspace : string).

Lemma title_slide_adds :
  _build_title_slide prs sd theme font = Ok prs' -> adds_slide prs prs'.
Proof. plain_builder _build_title_slide. Qed.

Lemma section_slide_adds :
  _build_section_slide prs sd theme font = Ok prs' -> adds_slide prs prs'.
Proof. plain_builder _build_section_slide. Qed.

Lemma quote_slide_adds :
  _build_quote_slide prs sd theme font = Ok prs' -> adds_slide prs prs'.
Proof. plain_builder _build_quote_slide. Qed.

Lemma ending_slide_adds :
  _build_ending_slide prs sd theme font = Ok prs' -> adds_slide prs prs'.
Proof. plain_builder _build_ending_slide. Qed.

Lemma content_slide_footer :
  _build_content_slide env prs sd theme font = Ok prs' ->
  adds_slide_with_footer prs prs'.
Proof. footer_builder _build_content_slide. Qed.

Lemma two_column_slide_footer :
  _build_two_column_slide prs sd theme font = Ok prs' ->
  adds_slide_with_footer prs prs'.
Proof. footer_builder _build_two_column_slide. Qed.

Lemma three_column_slide_footer :
  _build_three_column_slide prs sd theme font = Ok prs' ->
  adds_slide_with_footer prs prs'.
Proof. footer_builder _build_three_column_slide. Qed.

Lemma cards_slide_footer :
  _build_cards_slide prs sd theme font = Ok prs' ->
  adds_slide_with_footer prs prs'.
Proof. footer_builder _build_cards_slide. Qed.

Lemma chart_slide_footer :
  _build_chart_slide prs sd theme font = Ok prs' ->
  adds_slide_with_footer prs prs'.
Proof. footer_builder _build_chart_slide. Qed.

Lemma stats_slide_footer :
  _build_stats_slide prs sd theme font = Ok prs' ->
  adds_slide_with_footer prs prs'.
Proof. footer_builder _build_stats_slide. Qed.

Lemma timeline_slide_footer :
  _build_timeline_slide prs sd theme font = Ok prs' ->
  adds_slide_with_footer prs prs'.
Proof. footer_builder _build_timeline_slide. Qed.

Lemma table_slide_footer :
  _build_table_slide prs sd theme font = Ok prs' ->
  adds_slide_with_footer prs prs'.
Proof. footer_builder _build_table_slide. Qed.

Lemma image_slide_footer :
  _build_image_slide env prs sd theme font workspace = Ok prs' ->
  adds_slide_with_footer prs prs'.
Proof. footer_builder _build_image_slide. Qed.

Lemma comparison_slide_footer :
  _build_comparison_slide prs sd theme font = Ok prs' ->
  adds_slide_with_footer prs prs'.
Proof. footer_builder _build_comparison_slide. Qed.

(** One turn of the loop adds one slide, and a footer with the number of
    that slide unless the type is one of the dark ones. *)
Lemma build_slide_adds :
  build_slide env theme font workspace sd prs = Ok prs' ->
  adds_slide prs prs'
  /\ (has_footer (normalized_type sd) = true -> adds_slide_with_footer prs prs').
Proof.
  unfold build_slide, normalized_type.
  generalize (strip (lower (Py.get (slide_type sd) "content"))) as st.
  intros st H.
  unfold SLIDE_BUILDERS, lookup in H.
  repeat match type of H with
         | context [String.eqb ?k st] =>
             let E := fresh "E" in
             destruct (String.eqb k st) eqn:E;
             [apply String.eqb_eq in E; subst st;
              cbv [String.eqb Ascii.eqb Bool.eqb call4 call5] in H
             | cbv iota in H]
         end.
  all: try (split; [| discriminate]).
  all: try (apply title_slide_adds in H; exact H).
  all: try (apply section_slide_adds in H; exact H).
  all: try (apply quote_slide_adds in H; exact H).
  all: try (apply ending_slide_adds in H; exact H).
  all: match goal with
       | |- adds_slide _ _ /\ _ =>
           cut (adds_slide_with_footer prs prs');
           [intros Hf; split; [apply footer_adds_slide; exact Hf | intros _; exact Hf] |]
       end.
  all: first [ apply content_slide_footer; exact H
             | apply two_column_slide_footer; exact H
             | apply three_column_slide_footer; exact H
             | apply cards_slide_footer; exact H
             | apply chart_slide_footer; exact H
             | apply stats_slide_footer; exact H
             | apply timeline_slide_footer; exact H
             | apply table_slide_footer; exact H
             | apply image_slide_footer; exact H
             | apply comparison_slide_footer; exact H ].
Qed.

End Builders.


(** ** The deck *)

Section Deck.

Variable env : Env.
Variables (theme : Theme) (font workspace : string).


End Deck.



(** ** Builders on a theme whose colours are valid *)

Lemma theme_ok_role (theme : Theme) (key : string) :
  theme_ok theme = true -> In key role_keys ->
  exists c rgb, lookup key theme = Some c /\ _hex c = Ok rgb.
Proof.
  unfold theme_ok; intros H Hin.
  rewrite forallb_forall in H; specialize (H key Hin).
  destruct (lookup key theme) as [c |]; [| discriminate H].
  unfold color_ok in H; destruct (_hex c) as [rgb |] eqn:E; [| discriminate H].
  exists c, rgb; auto.
Qed.

Ltac role Hok key c rgb L Hx :=
  destruct (theme_ok_role _ key Hok) as (c & rgb & L & Hx);
  [unfold role_keys; simpl; tauto |].

Lemma literal_frame_ok (cfg : TextConfig) (font t c : string) (rgb : RGBColor) :
  text cfg = Some t -> color cfg = Some c ->
  set_font_size (Py.get (font_size cfg) 18%Q) = Ok tt ->
  _hex c = Ok rgb ->
  exists fr, _add_text_to_frame cfg font = Ok fr.
Proof.
  intros Ht Hc Hfs Hx; unfold _add_text_to_frame, _set_run_style.
  rewrite Ht, Hc, Hfs; cbn [Py.get Py.bind]; rewrite Hx; cbn [Py.bind]; eauto.
Qed.

Lemma text_box_ok slide l t wd ht (cfg : TextConfig) (font tx c : string)
      (rgb : RGBColor) :
  text cfg = Some tx -> color cfg = Some c ->
  set_font_size (Py.get (font_size cfg) 18%Q) = Ok tt ->
  _hex c = Ok rgb ->
  exists slide', _add_text_box slide l t wd ht cfg font = Ok slide'.
Proof.
  intros Ht Hc Hfs Hx; unfold _add_text_box.
  destruct (literal_frame_ok cfg font tx c rgb Ht Hc Hfs Hx) as (fr & ->).
  cbn [Py.bind]; eauto.
Qed.

Lemma bar_ok slide bx by_ bw bh (c : string) (rgb : RGBColor) :
  _hex c = Ok rgb -> exists slide', _add_decorative_bar slide bx by_ bw bh c = Ok slide'.
Proof.
  intros Hx; unfold _add_decorative_bar; rewrite Hx; cbn [Py.bind]; eauto.
Qed.

Lemma border_ok (bc : option string) (bw : Q) :
  (forall c, bc = Some c -> exists rgb, _hex c = Ok rgb) ->
  exists ln, border bc bw = Ok ln.
Proof.
  intros H; unfold border; destruct bc as [c |]; [| eauto].
  destruct (truthy c && Py.lt 0 bw); [| eauto].
  destruct (H c eq_refl) as (rgb & ->); cbn [Py.bind]; eauto.
Qed.

Lemma rounded_rect_ok slide l t wd ht (c : string) (rgb : RGBColor) bc bw shadow :
  _hex c = Ok rgb ->
  (forall c', bc = Some c' -> exists rgb', _hex c' = Ok rgb') ->
  exists slide', _add_rounded_rect slide l t wd ht c bc bw shadow = Ok slide'.
Proof.
  intros Hx Hb; unfold _add_rounded_rect; rewrite Hx; cbn [Py.bind].
  destruct (border_ok bc bw Hb) as (ln & ->); cbn [Py.bind]; eauto.
Qed.

Lemma circle_ok slide l t size (c : string) (rgb : RGBColor) bc bw :
  _hex c = Ok rgb ->
  (forall c', bc = Some c' -> exists rgb', _hex c' = Ok rgb') ->
  exists slide', _add_circle slide l t size c bc bw = Ok slide'.
Proof.
  intros Hx Hb; unfold _add_circle; rewrite Hx; cbn [Py.bind].
  destruct (border_ok bc bw Hb) as (ln & ->); cbn [Py.bind]; eauto.
Qed.

(** Runs the shape-adding calls of a builder whose colours are known to be
    valid. *)
Ltac run_ok :=
  repeat first
    [ match goal with
      | |- exists s, Py.bind (Py.bind _ _) _ = Ok s => rewrite PyFacts.bind_assoc
      | |- exists s, Py.bind (_add_text_box ?sl ?l ?t ?wd ?ht ?cfg ?f) _ = Ok s =>
          let Hs := fresh "Hs" in
          assert (Hs : exists s', _add_text_box sl l t wd ht cfg f = Ok s')
            by (eapply text_box_ok;
                [reflexivity | reflexivity | reflexivity | eassumption]);
          destruct Hs as (? & ->); cbn [Py.bind]
      | |- exists s, _add_text_box ?sl ?l ?t ?wd ?ht ?cfg ?f = Ok s =>
          eapply text_box_ok; [reflexivity | reflexivity | reflexivity | eassumption]
      | |- exists s, Py.bind (_add_decorative_bar ?sl ?bx ?b_y ?bw ?bh ?c) _ = Ok s =>
          let Hs := fresh "Hs" in
          assert (Hs : exists s', _add_decorative_bar sl bx b_y bw bh c = Ok s')
            by (eapply bar_ok; eassumption);
          destruct Hs as (? & ->); cbn [Py.bind]
      | |- exists s, Py.bind (_add_circle ?sl ?l ?t ?sz ?c ?bc ?bw) _ = Ok s =>
          let Hs := fresh "Hs" in
          assert (Hs : exists s', _add_circle sl l t sz c bc bw = Ok s')
            by (eapply circle_ok; [eassumption | intros ? [= <-]; eauto]);
          destruct Hs as (? & ->); cbn [Py.bind]
      | |- exists s, Py.bind (_add_rounded_rect ?sl ?l ?t ?wd ?ht ?c ?bc ?bw ?sh) _ = Ok s =>
          let Hs := fresh "Hs" in
          assert (Hs : exists s', _add_rounded_rect sl l t wd ht c bc bw sh = Ok s')
            by (eapply rounded_rect_ok; [eassumption | intros ? [= <-]; eauto]);
          destruct Hs as (? & ->); cbn [Py.bind]
      | |- exists s, Py.bind (if ?c then _ else _) _ = Ok s => destruct c
      | |- exists s, (if ?c then _ else _) = Ok s => destruct c
      | |- exists s, Py.bind (Ok _) _ = Ok s => cbn [Py.bind]
      | |- exists s, Ok _ = Ok s => eexists; reflexivity
      end ].

Section ValidTheme.

Variable theme : Theme.
Hypothesis Hok : theme_ok theme = true.
Variable font : string.

Lemma bg_solid_ok slide default :
  exists slide', _apply_bg_solid slide (get_or theme "bg" default) = Ok slide'.
Proof.
  role Hok "bg" c rgb L Hx.
  unfold _apply_bg_solid, get_or; rewrite L; cbn [Py.get]; rewrite Hx.
  cbn [Py.bind]; eauto.
Qed.

Lemma title_bar_ok slide title :
  exists slide', title_bar slide title theme font = Ok slide'.
Proof.
  role Hok "primary" cp rp Lp Hp.
  role Hok "text_light" ct rt Ltl Htl.
  role Hok "accent" ca ra La Ha.
  unfold title_bar, item; rewrite Lp, Ltl, La; cbn [of_option Py.bind].
  destruct (rounded_rect_ok slide 0%Q 0%Q 13.333%Q 1.1%Q cp rp None 0%Q false Hp) as (s1 & ->);
    [discriminate |]; cbn [Py.bind].
  destruct (text_box_ok s1 0.8%Q 0.15%Q 11%Q 0.8%Q
              (with_anchor "MIDDLE" (with_bold (literal title 26%Q ct "LEFT")))
              font title ct rt eq_refl eq_refl eq_refl Htl) as (s2 & ->); cbn [Py.bind].
  apply bar_ok with (rgb := ra); exact Ha.
Qed.

Lemma footer_ok slide prs :
  exists slide', _add_slide_footer slide prs theme font = Ok slide'.
Proof.
  role Hok "accent" ca ra La Ha.
  role Hok "secondary" cs rs Ls Hs.
  unfold _add_slide_footer, item, get_or; rewrite La, Ls; cbn [of_option Py.bind Py.get].
  destruct (bar_ok slide 0%Q 7.2%Q 13.333%Q 0.04%Q ca ra Ha) as (s1 & ->); cbn [Py.bind].
  apply text_box_ok with (tx := str_nat (List.length prs)) (c := cs) (rgb := rs); auto.
Qed.

(** The head of the light builders: background, then title bar. *)
Lemma light_head_ok title default :
  exists slide0 slide1,
    _apply_bg_solid blank_slide (get_or theme "bg" default) = Ok slide0
    /\ title_bar slide0 title theme font = Ok slide1.
Proof.
  destruct (bg_solid_ok blank_slide default) as (s0 & H0).
  destruct (title_bar_ok s0 title) as (s1 & H1).
  eauto.
Qed.

(** A slide made of the head and of the footer alone. *)
Lemma head_and_footer_only prs title default slide0 slide1 slide2 :
  _apply_bg_solid blank_slide (get_or theme "bg" default) = Ok slide0 ->
  title_bar slide0 title theme font = Ok slide1 ->
  _add_slide_footer slide1 (fst (add_slide prs)) theme font = Ok slide2 ->
  furniture_only title (S (List.length prs)) slide2.
Proof.
  intros H0 H1 H2.
  apply apply_bg_solid_inv in H0.
  apply title_bar_inv in H1 as (bg & box & ul & Hs1 & _ & Htb).
  apply footer_inv in H2 as (bar & num & Hs2 & Hf).
  rewrite length_add_slide in Hf.
  exists bg, box, ul, bar, num; split; [| auto].
  rewrite Hs2, Hs1, H0; reflexivity.
Qed.

End ValidTheme.

(** ** The fallback of the dispatcher *)






(** C9: on a theme whose colours are valid, the cards builder with no card
    and the stats builder with no stat do not raise: they add one slide
    that carries the title bar and the footer and nothing else; and the table
    routine with empty data, or with an empty first row, returns without
    adding a table, so that the table slide is that same furniture. *)
Theorem zero_items_empty_layout (prs : Presentation) (sd : SlideData) (theme : Theme)
        (font : string) :
  theme_ok theme = true ->
  let furniture prs' :=
    exists slide, prs' = Ok (prs ++ [slide])
                  /\ furniture_only (Py.get (title sd) "") (S (List.length prs)) slide in
  (cards sd = [] -> furniture (_build_cards_slide prs sd theme font))
  /\ (stats sd = [] -> furniture (_build_stats_slide prs sd theme font))
  /\ (forall slide cfg,
         data cfg = [] \/ (exists rest, data cfg = [] :: rest) ->
         _add_styled_table slide cfg theme font = Ok slide)
  /\ (forall cfg, table sd = Some cfg -> data cfg = [] ->
                  furniture (_build_table_slide prs sd theme font)).
Proof.
  intros Hok furniture.
  destruct (light_head_ok theme Hok font (Py.get (title sd) "") "#FFFFFF")
    as (s0 & s1 & H0 & H1).
  destruct (footer_ok theme Hok font s1 (fst (add_slide prs))) as (s2 & H2).
  pose proof (head_and_footer_only theme font prs _ _ s0 s1 s2 H0 H1 H2) as Hfur.
  assert (Hdone : furniture (Ok (drawn (fst (add_slide prs)) s2))).
  { exists s2; split; [rewrite drawn_add_slide; reflexivity | exact Hfur]. }
  repeat split.
  - intros Hc; unfold _build_cards_slide.
    change (add_slide prs) with (fst (add_slide prs), blank_slide); cbv iota beta.
    rewrite H0; cbn [Py.bind]; rewrite H1; cbn [Py.bind].
    rewrite Hc; cbn [List.length Nat.eqb]; rewrite H2; exact Hdone.
  - intros Hs; unfold _build_stats_slide.
    change (add_slide prs) with (fst (add_slide prs), blank_slide); cbv iota beta.
    rewrite H0; cbn [Py.bind]; rewrite H1; cbn [Py.bind].
    rewrite Hs; cbn [List.length Nat.eqb]; rewrite H2; exact Hdone.
  - intros slide cfg [Hd | (rest & Hd)]; unfold _add_styled_table; rewrite Hd;
      [reflexivity |].
    cbn [List.length Nat.eqb orb]; reflexivity.
  - intros cfg Ht Hd; unfold _build_table_slide.
    change (add_slide prs) with (fst (add_slide prs), blank_slide); cbv iota beta.
    rewrite H0; cbn [Py.bind]; rewrite H1; cbn [Py.bind].
    rewrite Ht; cbn [Py.get].
    unfold _add_styled_table, table_slide_defaults; cbn [data]; rewrite Hd.
    cbn [Py.bind]; rewrite H2; exact Hdone.
Qed.

Lemma zero_items_empty_layout_witness :
  exists slide,
    _build_cards_slide [] (with_title (Some "Plan") empty_slide_data) midnight "Arial"
    = Ok [slide]
    /\ furniture_only "Plan" 1 slide.
Proof.
  exact (proj1 (zero_items_empty_layout [] (with_title (Some "Plan") empty_slide_data)
                                         midnight "Arial" eq_refl) eq_refl).
Defined.


(** ** The card grid *)

(** Walks down every statement that is known to have returned [Ok]. *)
Ltac walk_all :=
  repeat match goal with
         | H : Py.bind ?m _ = Ok _ |- _ =>
             let a := fresh "a" in
             let E := fresh "E" in
             destruct m as [a | ?] eqn:E; [cbn [Py.bind] in H | discriminate H]
         | H : (let (_, _) := ?p in _) = Ok _ |- _ => destruct p
         | H : (if ?c then _ else _) = Ok _ |- _ => destruct c
         | H : match ?o with Some _ => _ | None => _ end = Ok _ |- _ => destruct o
         | H : Ok _ = Ok _ |- _ => injection H as ?; subst
         end.

(** Replaces every shape-adding call that returned [Ok] by the slide that
    it returned. *)
Ltac shapes_added :=
  repeat match goal with
         | H : _add_text_box _ _ _ _ _ _ _ = Ok _ |- _ =>
             apply add_text_box_inv in H as (? & ? & ->)
         | H : _add_decorative_bar _ _ _ _ _ _ = Ok _ |- _ =>
             apply add_decorative_bar_inv in H as (? & ->)
         | H : _add_rounded_rect _ _ _ _ _ _ _ _ _ = Ok _ |- _ =>
             apply add_rounded_rect_inv in H as (? & ? & ? & ->)
         | H : _add_circle _ _ _ _ _ _ _ = Ok _ |- _ =>
             apply add_circle_inv in H as (? & ? & ? & ->)
         end.

Lemma card_backgrounds_app (a b : list Shape) :
  card_backgrounds (a ++ b) = card_backgrounds a ++ card_backgrounds b.
Proof.
  induction a as [| sh a IH]; simpl; [reflexivity |].
  destruct (card_background sh); rewrite IH; reflexivity.
Qed.

Lemma draw_card_inv theme font cols_count card_w card_h idx card slide slide' :
  draw_card theme font cols_count card_w card_h idx card slide = Ok slide' ->
  card_backgrounds (shapes slide')
  = card_backgrounds (shapes slide)
    ++ [let '(cx, cy) := card_origin cols_count card_w card_h idx in
        mkRegion cx cy card_w card_h].
Proof.
  unfold draw_card; intros H.
  destruct (card_origin cols_count card_w card_h idx) as (cx, cy).
  walk_all; shapes_added; walk_all; shapes_added.
  all: cbn [shapes add_shape]; rewrite !card_backgrounds_app; cbn;
    rewrite ?app_nil_r; reflexivity.
Qed.

Lemma cards_loop_inv theme font cols_count card_w card_h (cards : list Card) :
  forall start slide slide',
    for_enumerate (draw_card theme font cols_count card_w card_h) start cards slide
    = Ok slide' ->
    card_backgrounds (shapes slide')
    = card_backgrounds (shapes slide)
      ++ map (fun idx => let '(cx, cy) := card_origin cols_count card_w card_h idx in
                         mkRegion cx cy card_w card_h)
             (seq start (List.length cards)).
Proof.
  induction cards as [| card rest IH]; intros start slide slide' H; simpl in H.
  - injection H as <-; simpl; rewrite app_nil_r; reflexivity.
  - bind_inv H.
    apply draw_card_inv in E; apply IH in H.
    rewrite H, E, <- app_assoc; reflexivity.
Qed.

Lemma cards_slide_regions prs sd theme font prs' cols_count rows_count kept
      card_w card_h :
  cards sd <> [] ->
  card_grid (cards sd) = (cols_count, rows_count, kept) ->
  card_size cols_count rows_count = Ok (card_w, card_h) ->
  _build_cards_slide prs sd theme font = Ok prs' ->
  exists slide,
    prs' = prs ++ [slide]
    /\ card_backgrounds (shapes slide)
       = card_regions cols_count card_w card_h (List.length kept).
Proof.
  intros Hne Hgrid Hsize H; unfold _build_cards_slide in H.
  change (add_slide prs) with (fst (add_slide prs), blank_slide) in H.
  cbv iota beta in H.
  destruct (cards sd) as [| c0 cs] eqn:Hcards; [contradiction |].
  rewrite Hgrid, Hsize in H.
  cbn [List.length Nat.eqb Py.bind] in H.
  bind_inv H; bind_inv H; bind_inv H; bind_inv H; injection H as <-.
  apply apply_bg_solid_inv in E.
  apply title_bar_inv in E0 as (bg & box & ul & Hs1 & _ & (c & ->) & (fr & -> & _) & (c' & ->)).
  apply cards_loop_inv in E1.
  apply footer_inv in E2 as (bar & num & Hs2 & (cb & ->) & (frn & -> & _)).
  exists a2; split; [apply drawn_add_slide |].
  rewrite Hs2, card_backgrounds_app, E1, Hs1, E; cbn.
  rewrite app_nil_r; reflexivity.
Qed.

Section ValidThemeCards.

Variable theme : Theme.
Hypothesis Hok : theme_ok theme = true.
Variable font : string.

Lemma draw_card_ok cols_count card_w card_h idx card slide :
  card_renders theme font card ->
  exists slide', draw_card theme font cols_count card_w card_h idx card slide = Ok slide'.
Proof.
  intros Hr.
  role Hok "card_bg" cb rb Lb Hb.
  role Hok "card_border" cbo rbo Lbo Hbo.
  role Hok "accent" ca ra La Ha.
  role Hok "primary" cp rp Lp Hp.
  unfold draw_card, item.
  destruct (card_origin cols_count card_w card_h idx) as (cx, cy).
  rewrite Lb, Lbo, La, Lp; cbn [of_option Py.bind].
  unfold card_renders in Hr.
  destruct (card_content card) as [v |];
    [destruct (value_truthy v); [destruct (Hr eq_refl) as (fr & Hfr) |] |].
  all: run_ok.
  all: unfold _add_text_box; rewrite Hfr; cbn [Py.bind]; eauto.
Qed.

Lemma cards_loop_ok cols_count card_w card_h (card_list : list Card) :
  Forall (card_renders theme font) card_list ->
  forall start slide,
    exists slide',
      for_enumerate (draw_card theme font cols_count card_w card_h) start card_list
                    slide
      = Ok slide'.
Proof.
  induction card_list as [| card rest IH]; intros Hall start slide; simpl; [eauto |].
  apply Forall_cons_iff in Hall as (Hc & Hrest).
  destruct (draw_card_ok cols_count card_w card_h start card slide Hc) as (s1 & ->).
  cbn [Py.bind]; apply IH; exact Hrest.
Qed.

Lemma cards_slide_ok prs sd cols_count rows_count kept card_w card_h :
  card_grid (cards sd) = (cols_count, rows_count, kept) ->
  card_size cols_count rows_count = Ok (card_w, card_h) ->
  Forall (card_renders theme font) kept ->
  exists prs', _build_cards_slide prs sd theme font = Ok prs'.
Proof.
  intros Hgrid Hsize Hall; unfold _build_cards_slide.
  change (add_slide prs) with (fst (add_slide prs), blank_slide); cbv iota beta.
  destruct (light_head_ok theme Hok font (Py.get (title sd) "") "#FFFFFF")
    as (s0 & s1 & -> & H1); cbn [Py.bind]; rewrite H1; cbn [Py.bind].
  destruct (List.length (cards sd) =? 0)%nat.
  - destruct (footer_ok theme Hok font s1 (fst (add_slide prs))) as (s2 & ->).
    cbn [Py.bind]; eauto.
  - rewrite Hgrid, Hsize; cbn [Py.bind].
    destruct (cards_loop_ok cols_count card_w card_h kept Hall 0%nat s1) as (s2 & ->).
    cbn [Py.bind].
    destruct (footer_ok theme Hok font s2 (fst (add_slide prs))) as (s3 & ->).
    cbn [Py.bind]; eauto.
Qed.

End ValidThemeCards.

(** Regions that the checker finds disjoint are disjoint. *)
Lemma disjointb_sound (a b : Region) : disjointb a b = true -> disjoint a b.
Proof.
  unfold disjointb, disjoint; intros H.
  repeat (apply orb_prop in H as [H | H]); apply Qle_bool_imp_le in H; tauto.
Qed.

Lemma disjoint_sym (a b : Region) : disjoint a b -> disjoint b a.
Proof. unfold disjoint; tauto. Qed.

Lemma pairwise_disjointb_sound (l : list Region) :
  pairwise_disjointb l = true ->
  forall i j ri rj,
    i <> j -> nth_error l i = Some ri -> nth_error l j = Some rj -> disjoint ri rj.
Proof.
  induction l as [| r l IH]; intros H i j ri rj Hij Hi Hj.
  - destruct i; discriminate Hi.
  - simpl in H; apply andb_prop in H as (Hr & Hl).
    rewrite forallb_forall in Hr.
    destruct i as [| i], j as [| j]; simpl in Hi, Hj.
    + contradiction.
    + injection Hi as <-; apply disjointb_sound, Hr; eapply nth_error_In; eauto.
    + injection Hj as <-; apply disjoint_sym, disjointb_sound, Hr.
      eapply nth_error_In; eauto.
    + eapply (IH Hl i j); eauto.
Qed.

(** C1: for a list of [n >= 1] cards the builder chooses the grid by fixed
    thresholds ([n <= 3]: [n] columns and one row; [n = 4]: 2 by 2;
    [5 <= n <= 6]: 3 by 2; [n > 6]: 3 by 2 on the first six cards), the
    column width is [(total_w - (cols - 1) * gap) / cols], and the card
    regions are at most six, of positive width and height, and pairwise
    disjoint; they are the card backgrounds of the slide that the builder
    adds, and the builder does add it on a theme whose colours are valid
    when the text of every kept card can be written. *)
Theorem cards_grid_layout (card_list : list Card) :
  (1 <= List.length card_list)%nat ->
  let n := List.length card_list in
  exists cols_count rows_count kept card_w card_h,
    card_grid card_list = (cols_count, rows_count, kept)
    /\ ((n <= 3)%nat -> cols_count = n /\ rows_count = 1%nat)
    /\ (n = 4%nat -> cols_count = 2%nat /\ rows_count = 2%nat)
    /\ ((5 <= n <= 6)%nat -> cols_count = 3%nat /\ rows_count = 2%nat)
    /\ ((6 < n)%nat -> cols_count = 3%nat /\ rows_count = 2%nat)
    /\ kept = firstn 6 card_list
    /\ card_size cols_count rows_count = Ok (card_w, card_h)
    /\ (card_w == (cards_total_w - (float_of_nat cols_count - 1) * cards_gap)
                  / float_of_nat cols_count)%Q
    /\ let regions := card_regions cols_count card_w card_h (List.length kept) in
       List.length regions = Nat.min n 6
       /\ (List.length regions <= 6)%nat
       /\ Forall (fun r => (0 < w r)%Q /\ (0 < h r)%Q) regions
       /\ (forall i j ri rj,
              i <> j -> nth_error regions i = Some ri -> nth_error regions j = Some rj ->
              disjoint ri rj)
       /\ (forall prs sd theme font prs',
              cards sd = card_list ->
              _build_cards_slide prs sd theme font = Ok prs' ->
              exists slide,
                prs' = prs ++ [slide] /\ card_backgrounds (shapes slide) = regions)
       /\ (forall prs sd theme font,
              cards sd = card_list ->
              theme_ok theme = true ->
              Forall (card_renders theme font) kept ->
              exists prs', _build_cards_slide prs sd theme font = Ok prs').
Proof.
  intros Hn n.
  destruct card_list as [| c1 [| c2 [| c3 [| c4 [| c5 [| c6 [| c7 rest]]]]]]];
    [simpl in Hn; lia | ..].
  all: subst n; cbv [card_grid]; cbn [List.length Nat.leb firstn].
  all: do 5 eexists.
  all: split; [reflexivity |].
  all: do 4 (split; [intros; lia |]).
  all: split; [reflexivity |].
  all: split; [vm_compute; reflexivity |].
  all: split; [vm_compute; reflexivity |].
  all: cbv zeta.
  all: split; [unfold card_regions; rewrite length_map, length_seq; cbn; lia |].
  all: split; [unfold card_regions; rewrite length_map, length_seq; cbn; lia |].
  all: split; [cbn [card_regions List.length seq map];
               repeat constructor; vm_compute; reflexivity |].
  all: split; [apply pairwise_disjointb_sound; vm_compute; reflexivity |].
  all: split.
  all: try (intros prs sd theme font prs' Hcards Hb;
            eapply cards_slide_regions in Hb;
            [ exact Hb
            | rewrite Hcards; discriminate
            | rewrite Hcards; cbv [card_grid]; cbn [List.length Nat.leb firstn];
              reflexivity
            | vm_compute; reflexivity ]).
  all: intros prs sd theme font Hcards Hok Hall.
  all: eapply cards_slide_ok;
    [ exact Hok
    | rewrite Hcards; cbv [card_grid]; cbn [List.length Nat.leb firstn]; reflexivity
    | vm_compute; reflexivity
    | exact Hall ].
Qed.

Lemma cards_grid_layout_witness :
  exists cols_count rows_count kept,
    card_grid (map sample_card ["a"; "b"; "c"; "d"; "e"])
    = (cols_count, rows_count, kept)
    /\ cols_count = 3%nat /\ rows_count = 2%nat.
Proof.
  destruct (cards_grid_layout (map sample_card ["a"; "b"; "c"; "d"; "e"]))
    as (cols & rows & kept & cw & chh & Hg & _ & _ & H56 & _);
    [simpl; lia |].
  exists cols, rows, kept; split; [exact Hg | apply H56; simpl; lia].
Defined.

(** ** The timeline *)

Lemma draw_step_inv theme font step_width i step slide slide' :
  draw_step theme font step_width i step slide = Ok slide' ->
  exists group,
    shapes slide' = shapes slide ++ group
    /\ is_step_group (step_cx step_width i) step_width i step group.
Proof.
  intros H; unfold is_step_group.
  cut (exists marker number content,
          shapes slide' = shapes slide ++ marker :: number :: content
          /\ is_marker (step_cx step_width i) marker
          /\ (exists l t wd ht fr, number = TextBox l t wd ht fr
                                   /\ frame_texts fr = [str_nat (i + 1)])
          /\ Forall2 (is_step_box (step_cx step_width i - step_width / 2 + 0.1)
                                  (step_width - 0.2) (i mod 2 =? 0)%nat)
                     (step_texts i step) content
          /\ ((i mod 2 = 0)%nat -> Forall above_axis content)
          /\ ((i mod 2 = 1)%nat -> Forall below_axis content)).
  { intros (m & nb & ct & Hs & Hrest); exists (m :: nb :: ct); split; [exact Hs |].
    exists m, nb, ct; split; [reflexivity | exact Hrest]. }
  unfold draw_step in H; cbv zeta in H.
  unfold step_texts; cbv zeta.
  destruct (i mod 2 =? 0)%nat eqn:Hpar;
    destruct (truthy (Py.get (step_time_label step) "")) eqn:Htl;
    destruct (truthy (Py.get (step_description step) "")) eqn:Hds.
  all: [> apply Nat.eqb_eq in Hpar .. | apply Nat.eqb_neq in Hpar
        | apply Nat.eqb_neq in Hpar | apply Nat.eqb_neq in Hpar
        | apply Nat.eqb_neq in Hpar ].
  all: walk_all.
  all: repeat match goal with
              | H : _add_circle _ _ _ _ _ _ _ = Ok _ |- _ =>
                  apply add_circle_inv in H as (? & ? & _ & ->)
              | H : _add_text_box _ _ _ _ _ (with_no_margins _) _ = Ok _ |- _ =>
                  apply add_text_box_inv in H as (? & Hnum & ->);
                  apply text_frame_texts with (t := str_nat (i + 1)) in Hnum;
                  [| reflexivity]
              end.
  all: shapes_added.
  all: repeat match goal with
              | H : _add_text_to_frame ?cfg ?f = Ok ?fr |- _ =>
                  pose proof (text_frame_texts cfg f fr _ eq_refl H); clear H
              end.
  all: do 3 eexists.
  all: split; [cbn [shapes add_shape]; rewrite <- ?app_assoc; cbn [app]; reflexivity |].
  all: split; [do 4 eexists; split; [reflexivity |];
               unfold step_cx, node_size, timeline_line_y; cbn [_inches];
               split; [field | reflexivity] |].
  all: split; [do 5 eexists; split; [reflexivity | exact Hnum] |].
  all: split;
    [ cbn [app];
      repeat (apply Forall2_cons;
              [do 5 eexists; split; [reflexivity |]; cbn [_inches];
               split; [reflexivity |]; split; [reflexivity |];
               split; [eassumption | vm_compute; discriminate] |]);
      apply Forall2_nil |].
  all: split; intros Hi; try (exfalso; lia).
  all: repeat constructor.
  all: do 5 eexists; (split; [reflexivity |]); cbn [_inches];
    unfold timeline_line_y; vm_compute; discriminate.
Qed.

Lemma steps_loop_inv theme font step_width (step_list : list Step) :
  forall start slide slide',
    for_enumerate (draw_step theme font step_width) start step_list slide = Ok slide' ->
    exists groups,
      shapes slide' = shapes slide ++ List.concat groups
      /\ List.length groups = List.length step_list
      /\ forall k group,
          nth_error groups k = Some group ->
          exists step,
            nth_error step_list k = Some step
            /\ is_step_group (step_cx step_width (start + k)) step_width (start + k)
                             step group.
Proof.
  induction step_list as [| step rest IH]; intros start slide slide' H; simpl in H.
  - injection H as <-; exists []; simpl; rewrite app_nil_r; repeat split; auto.
    intros [| k] group Hk; discriminate Hk.
  - bind_inv H.
    apply draw_step_inv in E as (group0 & Hs0 & Hg0).
    apply IH in H as (groups & Hs & Hlen & Hk).
    exists (group0 :: groups); split; [| split].
    + rewrite Hs, Hs0, <- app_assoc; reflexivity.
    + simpl; rewrite Hlen; reflexivity.
    + intros [| k] group Hn; simpl in Hn.
      * injection Hn as <-; rewrite Nat.add_0_r; exists step; split; [reflexivity | exact Hg0].
      * apply Hk in Hn as (st & Hst & Hg).
        replace (start + S k)%nat with (S start + k)%nat by lia.
        exists st; split; [exact Hst | exact Hg].
Qed.

Section ValidThemeTimeline.

Variable theme : Theme.
Hypothesis Hok : theme_ok theme = true.
Variable font : string.

Lemma draw_step_ok step_width i step slide :
  exists slide', draw_step theme font step_width i step slide = Ok slide'.
Proof.
  role Hok "accent" ca ra La Ha.
  role Hok "primary" cp rp Lp Hp.
  role Hok "text_light" ct rt Ltl Htl.
  role Hok "text_dark" cd rd Ld Hd.
  unfold draw_step, item, get_or; rewrite La, Lp, Ltl, Ld.
  cbn [of_option Py.bind Py.get].
  run_ok.
Qed.

Lemma steps_loop_ok step_width (step_list : list Step) :
  forall start slide,
    exists slide',
      for_enumerate (draw_step theme font step_width) start step_list slide = Ok slide'.
Proof.
  induction step_list as [| step rest IH]; intros start slide; simpl; [eauto |].
  destruct (draw_step_ok step_width start step slide) as (s1 & ->); cbn [Py.bind].
  apply IH.
Qed.

End ValidThemeTimeline.

Lemma div_by_count (a : Q) (n : nat) :
  (1 <= n)%nat -> Py.div a (float_of_nat n) = Ok (a / float_of_nat n)%Q.
Proof.
  intros Hn; unfold Py.div.
  destruct (Qeq_bool (float_of_nat n) 0) eqn:E; [| reflexivity].
  apply Qeq_bool_iff in E; unfold float_of_nat, Qeq in E; simpl in E; lia.
Qed.

(** C8: for a non-empty list of [n] steps, on a theme whose colours are
    valid, the timeline builder adds one slide on which the step of index
    [i] has its marker centred at
    [x = start + i * step_width + step_width / 2], with
    [step_width = 11.7 / n], and centred on the axis bar; the content of the
    step, which is its title and, when they are not empty, its time label
    and its description, one text box each in the column of the step, is
    above the axis line when [i] is even and below it when [i] is odd. *)
Theorem timeline_layout (prs : Presentation) (sd : SlideData) (theme : Theme)
        (font : string) :
  theme_ok theme = true ->
  (1 <= List.length (steps sd))%nat ->
  let n := List.length (steps sd) in
  let step_width := (timeline_length / float_of_nat n)%Q in
  exists slide pre groups post,
    _build_timeline_slide prs sd theme font = Ok (prs ++ [slide])
    /\ shapes slide = pre ++ List.concat groups ++ post
    /\ List.length groups = n
    /\ forall i group,
        nth_error groups i = Some group ->
        exists step,
          nth_error (steps sd) i = Some step
          /\ is_step_group
               (timeline_start_x + float_of_nat i * step_width + step_width / 2)%Q
               step_width i step group.
Proof.
  intros Hok Hn n step_width.
  destruct (light_head_ok theme Hok font (Py.get (title sd) "") "#FFFFFF")
    as (s0 & s1 & H0 & H1).
  role Hok "secondary" cs rs Ls Hs.
  destruct (bar_ok s1 0.8%Q timeline_line_y 11.7%Q 0.04%Q cs rs Hs) as (s2 & H2).
  destruct (steps_loop_ok theme Hok font step_width (steps sd) 0%nat s2) as (s3 & H3).
  destruct (footer_ok theme Hok font s3 (fst (add_slide prs))) as (s4 & H4).
  exists s4.
  assert (Hrun : _build_timeline_slide prs sd theme font = Ok (prs ++ [s4])).
  { unfold _build_timeline_slide.
    change (add_slide prs) with (fst (add_slide prs), blank_slide); cbv iota beta.
    rewrite H0; cbn [Py.bind]; rewrite H1; cbn [Py.bind].
    destruct (List.length (steps sd)) as [| m] eqn:Hlen; [lia |].
    cbn [Nat.eqb]; unfold item; rewrite Ls; cbn [of_option Py.bind].
    rewrite H2; cbn [Py.bind].
    rewrite div_by_count by lia; cbn [Py.bind].
    subst n step_width; rewrite H3; cbn [Py.bind]; rewrite H4; cbn [Py.bind].
    rewrite drawn_add_slide; reflexivity. }
  apply apply_bg_solid_inv in H0.
  apply title_bar_inv in H1 as (bg & box & ul & Hs1 & _).
  apply add_decorative_bar_inv in H2 as (c & ->).
  apply steps_loop_inv in H3 as (groups & Hs3 & Hlen & Hgroups).
  apply footer_inv in H4 as (bar & num & Hs4 & _).
  exists (shapes s1 ++ [AutoShape RECTANGLE 0.8 timeline_line_y 11.7 0.04 c None false
                                  None None]), groups, [bar; num].
  split; [exact Hrun |].
  split; [rewrite Hs4, Hs3; cbn [shapes add_shape _inches]; rewrite <- !app_assoc;
          reflexivity |].
  split; [exact Hlen |].
  intros i group Hi; apply (Hgroups i group Hi).
Qed.

Lemma timeline_layout_witness :
  exists slide pre groups post,
    _build_timeline_slide []
      (with_steps [mkStep (Some "plan") None (Some "Q1");
                   mkStep (Some "build") (Some "two teams") None;
                   mkStep (Some "ship") None None] empty_slide_data)
      midnight "Arial"
    = Ok [slide]
    /\ shapes slide = pre ++ List.concat groups ++ post
    /\ List.length groups = 3%nat
    /\ exists second,
        nth_error groups 1 = Some second
        /\ is_step_group (0.8 + 1 * (11.7 / 3) + (11.7 / 3) / 2)%Q (11.7 / 3)%Q 1
                         (mkStep (Some "build") (Some "two teams") None) second.
Proof.
  destruct (timeline_layout []
              (with_steps [mkStep (Some "plan") None (Some "Q1");
                           mkStep (Some "build") (Some "two teams") None;
                           mkStep (Some "ship") None None] empty_slide_data)
              midnight "Arial" eq_refl)
    as (slide & pre & groups & post & Hb & Hs & Hl & Hg); [simpl; lia |].
  exists slide, pre, groups, post.
  split; [exact Hb |]; split; [exact Hs |]; split; [exact Hl |].
  destruct groups as [| first [| second rest]]; try discriminate Hl.
  exists second; split; [reflexivity |].
  destruct (Hg 1%nat second eq_refl) as (step & Hst & Hgrp).
  injection Hst as <-; exact Hgrp.
Defined.

End BuilderFacts.

(* ================================================================== *)
(** * Properties of the charts *)
(* ================================================================== *)

Module ChartFacts.

Import Office ChartLayout.
Local Open Scope list_scope.

(** ** Pie charts *)





(** ** Stacked bars *)

Lemma length_add_arrays (a b : list Q) :
  List.length a = List.length b -> List.length (add_arrays a b) = List.length a.
Proof.
  intros H; unfold add_arrays; rewrite length_map, length_combine, H.
  apply Nat.min_id.
Qed.

Lemma nth_add_arrays (a : list Q) :
  forall (b : list Q) (j : nat),
    List.length a = List.length b -> (j < List.length a)%nat ->
    nth j (add_arrays a b) 0%Q = (nth j a 0 + nth j b 0)%Q.
Proof.
  induction a as [| x a IH]; intros [| y b] j Hlen Hj; simpl in *; try lia.
  destruct j as [| j]; [reflexivity |].
  apply IH; lia.
Qed.

Lemma length_stacked_values (n : nat) (s : Series) :
  (n <= List.length (Py.get (values s) (repeat 0%Q n)))%nat ->
  List.length (stacked_values n s) = n.
Proof.
  intros H; unfold stacked_values; rewrite length_firstn; lia.
Qed.

Lemma length_baseline_from (n : nat) (rows : list (list Q)) :
  forall init,
    List.length init = n -> Forall (fun row => List.length row = n) rows ->
    List.length (fold_left add_arrays rows init) = n.
Proof.
  induction rows as [| row rows IH]; intros init Hi Hr; simpl; [exact Hi |].
  inversion Hr as [| ? ? Hrow Hrest]; subst.
  apply IH; [| exact Hrest].
  rewrite length_add_arrays; congruence.
Qed.

(** The baseline at category [j] is the sum of the rows at [j]. *)
Lemma nth_baseline_from (n : nat) (rows : list (list Q)) (j : nat) :
  (j < n)%nat ->
  forall init,
    List.length init = n -> Forall (fun row => List.length row = n) rows ->
    nth j (fold_left add_arrays rows init) 0%Q
    = fold_left Qplus (map (fun row => nth j row 0%Q) rows) (nth j init 0%Q).
Proof.
  intros Hj; induction rows as [| row rows IH]; intros init Hi Hr; simpl;
    [reflexivity |].
  inversion Hr as [| ? ? Hrow Hrest]; subst.
  rewrite IH; [| rewrite length_add_arrays; congruence | exact Hrest].
  rewrite nth_add_arrays by (congruence || lia); reflexivity.
Qed.

Lemma in_firstn {A : Type} (i : nat) (l : list A) (a : A) :
  In a (firstn i l) -> In a l.
Proof.
  intros H; rewrite <- (firstn_skipn i l); apply in_or_app; left; exact H.
Qed.

Lemma nth_zeros (n j : nat) : nth j (repeat 0%Q n) 0%Q = 0%Q.
Proof.
  revert j; induction n as [| n IH]; intros [| j]; simpl; auto.
Qed.

Section Stacked.

Variables (categories : list string) (colors : list string) (n : nat).
Hypothesis Hcolors : colors <> [].
Hypothesis Hn : n = List.length categories.

Lemma stacked_loop (series_list : list Series) :
  Forall (fun s => (n <= List.length (Py.get (values s) (repeat 0%Q n)))%nat)
         series_list ->
  forall start calls bottom,
    List.length bottom = n ->
    exists bars,
      for_enumerate (stacked_step categories colors) start series_list (calls, bottom)
      = Ok (calls ++ bars,
            fold_left add_arrays (map (stacked_values n) series_list) bottom)
      /\ List.length bars = List.length series_list
      /\ forall i s,
          nth_error series_list i = Some s ->
          exists label color,
            nth_error bars i
            = Some (bar (arange n) (stacked_values n s) 0.6%Q
                        (fold_left add_arrays
                                   (map (stacked_values n) (firstn i series_list))
                                   bottom)
                        label color).
Proof.
  induction series_list as [| s rest IH]; intros Hall start calls bottom Hb.
  - exists []; simpl; rewrite app_nil_r; repeat split; auto.
    intros [| i] s Hi; discriminate Hi.
  - apply Forall_cons_iff in Hall as (Hs & Hrest).
    pose proof (length_stacked_values n s Hs) as Hlen.
    assert (Hstep : stacked_step categories colors start s (calls, bottom)
                    = Ok (calls ++ [bar (arange n) (stacked_values n s) 0.6%Q bottom
                                        (series_label s start)
                                        (nth (start mod List.length colors) colors "")],
                          add_arrays bottom (stacked_values n s))).
    { unfold stacked_step; rewrite <- Hn; fold (stacked_values n s).
      unfold broadcast_to; rewrite Hlen, Nat.eqb_refl; cbn [Py.bind].
      unfold color_at; destruct colors; [contradiction | reflexivity]. }
    destruct (IH Hrest (S start)
                 (calls ++ [bar (arange n) (stacked_values n s) 0.6%Q bottom
                                (series_label s start)
                                (nth (start mod List.length colors) colors "")])
                 (add_arrays bottom (stacked_values n s)))
      as (bars & Hloop & Hbars & Hnth);
      [rewrite length_add_arrays; congruence |].
    eexists (_ :: bars); split; [| split].
    + cbn [for_enumerate map fold_left]; rewrite Hstep; cbn [Py.bind].
      rewrite Hloop, <- app_assoc; reflexivity.
    + simpl; rewrite Hbars; reflexivity.
    + intros [| i] s' Hi; simpl in Hi.
      * injection Hi as <-; simpl; eauto.
      * apply Hnth in Hi as (label & color & Hi); simpl; eauto.
Qed.

End Stacked.

(** C7: in a stacked bar chart over [n] categories whose series have a
    value for every category, the bars of series [i] are drawn on the
    baseline that, at category [j], is the sum of the values of the series
    [0 .. i-1] at [j], from zero; for the series [[1,2]] and [[3,4]] over two
    categories the second series is drawn on [[1,2]] and the stacked total at
    category 0 is [1 + 3 = 4]. *)
Theorem stacked_baseline (title : string) (categories : list string)
        (series_list : list Series) (colors : list string) (show_values : bool)
        (font_size : Q) :
  let n := List.length categories in
  colors <> [] ->
  Forall (fun s => (n <= List.length (Py.get (values s) (repeat 0%Q n)))%nat)
         series_list ->
  exists bars,
    draw_chart "stacked_bar" title categories series_list colors show_values font_size
    = Ok (bars ++ [set_xticks (arange n);
                   set_xticklabels categories (rotation_for categories)])
    /\ List.length bars = List.length series_list
    /\ (forall i s,
          nth_error series_list i = Some s ->
          let below := map (stacked_values n) (firstn i series_list) in
          (exists label color,
              nth_error bars i
              = Some (bar (arange n) (stacked_values n s) 0.6%Q (baseline n below)
                          label color))
          /\ forall j, (j < n)%nat -> nth j (baseline n below) 0%Q = stacked_total below j)
    /\ baseline 2 [[1; 2]%Q] = [1; 2]%Q
    /\ stacked_total [[1; 2]%Q; [3; 4]%Q] 0 = 4%Q.
Proof.
  intros n Hcolors Hall.
  destruct (stacked_loop categories colors n Hcolors eq_refl series_list Hall 0%nat []
                         (repeat 0%Q n) (repeat_length _ _))
    as (bars & Hloop & Hlen & Hnth).
  exists bars; split; [| split; [exact Hlen | split; [| split; reflexivity]]].
  - unfold draw_chart.
    replace (String.eqb "stacked_bar" "pie") with false by reflexivity.
    replace (String.eqb "stacked_bar" "scatter") with false by reflexivity.
    replace (String.eqb "stacked_bar" "area") with false by reflexivity.
    replace (String.eqb "stacked_bar" "bar_horizontal") with false by reflexivity.
    replace (String.eqb "stacked_bar" "stacked_bar") with true by reflexivity.
    cbv iota; fold n; rewrite Hloop; reflexivity.
  - intros i s Hi below; split; [exact (Hnth i s Hi) |].
    intros j Hj; unfold baseline, stacked_total.
    rewrite (nth_baseline_from n below j Hj); [rewrite nth_zeros; reflexivity | |].
    + apply repeat_length.
    + subst below; apply Forall_forall; intros row Hrow.
      apply in_map_iff in Hrow as (s' & <- & Hin).
      apply length_stacked_values.
      rewrite Forall_forall in Hall; apply Hall.
      eapply in_firstn; eauto.
Qed.

Lemma stacked_baseline_witness :
  exists bars,
    draw_chart "stacked_bar" "Sales" ["north"; "south"]
               [series_of [1; 2]%Q; series_of [3; 4]%Q] default_colors false 11%Q
    = Ok (bars ++ [set_xticks (arange 2); set_xticklabels ["north"; "south"] 0%Q])
    /\ List.length bars = 2%nat.
Proof.
  destruct (stacked_baseline "Sales" ["north"; "south"]
                             [series_of [1; 2]%Q; series_of [3; 4]%Q] default_colors
                             false 11%Q)
    as (bars & Hd & Hl & _).
  - discriminate.
  - repeat constructor.
  - exists bars; split; [exact Hd | exact Hl].
Defined.

End ChartFacts.

(* ================================================================== *)
(** * Properties of the entry points *)
(* ================================================================== *)

Module EntryFacts.

Import Pptx Layout.

(** The word and spreadsheet generators catch what the loop over the blocks
    or the final save raises: once the document-level settings are applied,
    they return a record, and it is the error record when the [try] body
    raised. *)
Lemma document_try_catches (env : Env) (Doc Block : Type) (doc : Doc)
      (render : Block -> Doc -> result Doc) (str_exn : exn -> string)
      (prefix saved_to file_path workspace : string) (blocks : list Block) :
  workspace_path env = Some workspace ->
  truthy workspace = true ->
  (forall p, makedirs env p = Ok tt) ->
  exists r,
    Office.generate_document env Doc Block (Ok doc) render str_exn prefix saved_to
                             file_path blocks
    = Ok r
    /\ forall e,
        (d <- for_each render blocks doc ;; save env (path_join workspace file_path))
        = Raise e ->
        r = Error (prefix ++ str_exn e).
Proof.
  intros Hw Ht Hm; unfold Office.generate_document.
  rewrite Hw, Ht, Hm; cbn [negb Py.bind].
  destruct (d <- for_each render blocks doc ;; save env (path_join workspace file_path))
    as [u | e0] eqn:E.
  - eexists; split; [reflexivity |]; intros e He; discriminate He.
  - eexists; split; [reflexivity |]; intros e He; injection He as <-; reflexivity.
Qed.

(** The presentation generator has no [try]: what the final save raises
    leaves the entry point as an exception. *)
Lemma pptx_save_failure_propagates (env : Env) (file_path workspace : string)
      (slides_content : list SlideData) (presentation_settings : option Settings)
      (prs : Presentation) (e : exn) :
  workspace_path env = Some workspace ->
  truthy workspace = true ->
  (forall p, makedirs env p = Ok tt) ->
  build_deck env slides_content (Py.get presentation_settings no_settings) workspace
  = Ok prs ->
  save env (path_join workspace file_path) = Raise e ->
  generate_pptx_presentation env file_path slides_content presentation_settings
  = Raise e.
Proof.
  intros Hw Ht Hm Hd Hs; unfold generate_pptx_presentation.
  rewrite Hw, Ht, Hm; cbn [negb Py.bind].
  rewrite Hd; cbn [Py.bind]; rewrite Hs; reflexivity.
Qed.

(** C5 at the failing input: with a full disk the presentation entry point
    raises [OSError] instead of returning the error record, where the word
    and spreadsheet entry points, on the same disk, return it. *)
Theorem pptx_entry_point_raises_on_save_error :
  generate_pptx_presentation full_disk_env "deck.pptx" sample_deck None = Raise OSError
  /\ Office.generate_word_document full_disk_env unit unit (Ok tt) (fun _ d => Ok d)
                                   (fun _ => "No space left on device")
                                   "report.docx" [tt]
     = Ok (Error "Word generation error: No space left on device")
  /\ Office.generate_excel_document full_disk_env unit unit (Ok tt) (fun _ d => Ok d)
                                    (fun _ => "No space left on device")
                                    "book.xlsx" [tt]
     = Ok (Error "Excel generation error: No space left on device").
Proof.
  split; [| split]; vm_compute; reflexivity.
Qed.

End EntryFacts.

(* ================================================================== *)
(** * Colours: what the transforms return and what they refuse *)
(* ================================================================== *)

Module HexFacts.

Import Pptx Layout.

(** [int(s, 16)] raises nothing but [ValueError]. *)
Lemma int16_raises (s : string) (e : exn) : int16 s = Raise e -> e = ValueError.
Proof.
  unfold int16.
  match goal with
  | |- of_option _ ?o = _ -> _ => destruct o; simpl; congruence
  end.
Qed.

(** Every value of 0..255 is printed by [{v:02x}] as two characters that
    [int(_, 16)] reads back. *)
Lemma format_02x_table :
  forallb (fun n =>
             match format_02x (Z.of_nat n) with
             | String a (String b EmptyString) =>
                 negb (Ascii.eqb a "#")
                 && match int16 (String a (String b EmptyString)) with
                    | Ok z => (z =? Z.of_nat n)%Z
                    | Raise _ => false
                    end
             | _ => false
             end)
          (seq 0 256)
  = true.
Proof. vm_compute; reflexivity. Qed.

Lemma format_02x_byte (v : Z) :
  (0 <= v <= 255)%Z ->
  exists a b,
    format_02x v = String a (String b EmptyString)
    /\ Ascii.eqb a "#" = false
    /\ int16 (String a (String b EmptyString)) = Ok v.
Proof.
  intros Hv.
  pose proof format_02x_table as H.
  rewrite forallb_forall in H.
  specialize (H (Z.to_nat v)).
  rewrite Z2Nat.id in H by lia.
  assert (Hin : In (Z.to_nat v) (seq 0 256)) by (apply in_seq; lia).
  specialize (H Hin).
  destruct (format_02x v) as [| a [| b [| ? ?]]]; try discriminate H.
  apply andb_prop in H as (Ha & Hb).
  destruct (int16 (String a (String b EmptyString))) as [z |] eqn:Ei;
    [| discriminate Hb].
  apply Z.eqb_eq in Hb; subst z.
  exists a, b; split; [reflexivity | split; [| exact Ei]].
  destruct (Ascii.eqb a "#"); [discriminate Ha | reflexivity].
Qed.

(** The string that the transforms build from three channels of 0..255 is
    a colour of six digits that [_hex] reads back. *)
Lemma hex_of_formatted (r g b : Z) :
  (0 <= r <= 255)%Z -> (0 <= g <= 255)%Z -> (0 <= b <= 255)%Z ->
  _hex ("#" ++ format_02x r ++ format_02x g ++ format_02x b) = Ok (mkRGB r g b)
  /\ String.length (lstrip_char "#" ("#" ++ format_02x r ++ format_02x g ++ format_02x b))
     = 6%nat.
Proof.
  intros Hr Hg Hb.
  destruct (format_02x_byte r Hr) as (a1 & b1 & -> & Ha1 & Hi1).
  destruct (format_02x_byte g Hg) as (a2 & b2 & -> & Ha2 & Hi2).
  destruct (format_02x_byte b Hb) as (a3 & b3 & -> & Ha3 & Hi3).
  unfold _hex.
  cbn [String.append lstrip_char].
  replace (Ascii.eqb "#" "#") with true by reflexivity.
  cbn [lstrip_char]; rewrite Ha1.
  cbn [String.length Nat.eqb substring].
  rewrite Hi1, Hi2, Hi3; cbn [Py.bind].
  split; [| reflexivity].
  unfold rgb_color.
  replace ((0 <=? r) && (r <=? 255) && (0 <=? g) && (g <=? 255)
           && (0 <=? b) && (b <=? 255))%Z with true; [reflexivity |].
  symmetry; repeat (apply andb_true_intro; split); apply Z.leb_le; lia.
Qed.

(** A channel transform that is tabulated on the 256 values. *)
Lemma channel_table (ch : Z -> result Z) (expected : Z -> Z) :
  forallb (fun v => match ch v with
                    | Ok d => (d =? expected v)%Z
                    | Raise _ => false
                    end)
          (map Z.of_nat (seq 0 256))
  = true ->
  forall v, (0 <= v <= 255)%Z -> ch v = Ok (expected v).
Proof.
  intros H v Hv.
  pose proof (ColorFacts.every_channel _ H v Hv) as Hc; cbv beta in Hc.
  destruct (ch v) as [d |]; [| discriminate Hc].
  apply Z.eqb_eq in Hc; subst d; reflexivity.
Qed.

Section SixDigits.

Variables (color : string) (r g b : Z).
Hypothesis Hlen : String.length (lstrip_char "#" color) = 6%nat.
Hypothesis Hhex : _hex color = Ok (mkRGB r g b).

Lemma channels_in_range : (0 <= r <= 255)%Z /\ (0 <= g <= 255)%Z /\ (0 <= b <= 255)%Z.
Proof.
  destruct (ColorFacts.hex_channels color r g b Hlen Hhex) as (_ & _ & _ & H); exact H.
Qed.

(** The transforms on a factor that keeps the channels. *)
Lemma transformed (f : float) :
  keeps_channels f = true ->
  exists dr dg db lr lg lb,
    (darken_channel r f = Ok dr /\ darken_channel g f = Ok dg
     /\ darken_channel b f = Ok db)
    /\ (lighten_channel r f = Ok lr /\ lighten_channel g f = Ok lg
        /\ lighten_channel b f = Ok lb)
    /\ _darken color f = Ok ("#" ++ format_02x dr ++ format_02x dg ++ format_02x db)
    /\ _lighten color f = Ok ("#" ++ format_02x lr ++ format_02x lg ++ format_02x lb)
    /\ ((0 <= dr <= 255)%Z /\ (0 <= dg <= 255)%Z /\ (0 <= db <= 255)%Z)
    /\ ((0 <= lr <= 255)%Z /\ (0 <= lg <= 255)%Z /\ (0 <= lb <= 255)%Z).
Proof.
  intros Hk.
  destruct channels_in_range as (Rr & Rg & Rb).
  rewrite (ColorFacts.darken_by_channel color r g b f Hlen Hhex).
  rewrite (ColorFacts.lighten_by_channel color r g b f Hlen Hhex).
  destruct (ColorFacts.keeps_channels_inv f r Hk Rr) as ((dr & Er & ?) & (lr & Fr & ?)).
  destruct (ColorFacts.keeps_channels_inv f g Hk Rg) as ((dg & Eg & ?) & (lg & Fg & ?)).
  destruct (ColorFacts.keeps_channels_inv f b Hk Rb) as ((db & Eb & ?) & (lb & Fb & ?)).
  exists dr, dg, db, lr, lg, lb.
  rewrite Er, Eg, Eb, Fr, Fg, Fb; cbn [Py.bind].
  repeat split; auto; lia.
Qed.

End SixDigits.

(** The colour that a transform returns, for a factor that keeps the
    channels, is one that [_hex] accepts and that the transforms accept
    again. *)
Lemma darken_ok (color : string) (rgb : RGBColor) (f : float) :
  String.length (lstrip_char "#" color) = 6%nat ->
  _hex color = Ok rgb ->
  keeps_channels f = true ->
  exists d rgb', _darken color f = Ok d /\ _hex d = Ok rgb'.
Proof.
  intros Hlen Hhex Hk; destruct rgb as [r g b].
  destruct (transformed color r g b Hlen Hhex f Hk)
    as (dr & dg & db & lr & lg & lb & _ & _ & Hd & _ & (? & ? & ?) & _).
  rewrite Hd; do 2 eexists; split; [reflexivity |].
  apply hex_of_formatted; assumption.
Qed.

Lemma lighten_ok (color : string) (rgb : RGBColor) (f : float) :
  String.length (lstrip_char "#" color) = 6%nat ->
  _hex color = Ok rgb ->
  keeps_channels f = true ->
  exists l rgb', _lighten color f = Ok l /\ _hex l = Ok rgb'.
Proof.
  intros Hlen Hhex Hk; destruct rgb as [r g b].
  destruct (transformed color r g b Hlen Hhex f Hk)
    as (dr & dg & db & lr & lg & lb & _ & _ & _ & Hl & _ & (? & ? & ?)).
  rewrite Hl; do 2 eexists; split; [reflexivity |].
  apply hex_of_formatted; assumption.
Qed.

(** X2: for a colour of six digits and a factor that takes the 256 channel
    values into 0..255, as each factor of the engine does, [_darken] and
    [_lighten] return a colour of six digits that [_hex] reads back as the
    transformed channels [int(v * f)] and [int(v + (255 - v) * f)] of the
    float arithmetic: what the transforms print, [_hex] parses, and the
    result can be transformed again. *)
Theorem transforms_return_colours (color : string) (r g b : Z) (f : float) :
  String.length (lstrip_char "#" color) = 6%nat ->
  _hex color = Ok (mkRGB r g b) ->
  keeps_channels f = true ->
  forallb keeps_channels engine_factors = true
  /\ exists dr dg db lr lg lb d l,
      (darken_channel r f = Ok dr /\ darken_channel g f = Ok dg
       /\ darken_channel b f = Ok db)
      /\ (lighten_channel r f = Ok lr /\ lighten_channel g f = Ok lg
          /\ lighten_channel b f = Ok lb)
      /\ _darken color f = Ok d
      /\ _lighten color f = Ok l
      /\ _hex d = Ok (mkRGB dr dg db)
      /\ _hex l = Ok (mkRGB lr lg lb)
      /\ String.length (lstrip_char "#" d) = 6%nat
      /\ String.length (lstrip_char "#" l) = 6%nat.
Proof.
  intros Hlen Hhex Hk; split; [exact ColorFacts.engine_factors_keep_channels |].
  destruct (transformed color r g b Hlen Hhex f Hk)
    as (dr & dg & db & lr & lg & lb & Hdc & Hlc & Hd & Hl & (? & ? & ?) & (? & ? & ?)).
  exists dr, dg, db, lr, lg, lb; do 2 eexists.
  split; [exact Hdc |]; split; [exact Hlc |].
  split; [exact Hd |]; split; [exact Hl |].
  destruct (hex_of_formatted dr dg db) as (Hxd & Hld); auto.
  destruct (hex_of_formatted lr lg lb) as (Hxl & Hll); auto.
Qed.

Lemma transforms_return_colours_witness :
  exists d l,
    _darken "#5AAAB4" (double 0.7) = Ok d /\ _lighten "#5AAAB4" (double 0.7) = Ok l
    /\ _hex d = Ok (mkRGB 62 118 125) /\ _hex l = Ok (mkRGB 205 229 232).
Proof.
  destruct (transforms_return_colours "#5AAAB4" 90 170 180 (double 0.7) eq_refl eq_refl)
    as (_ & dr & dg & db & lr & lg & lb & d & l & (Er & Eg & Eb) & (Fr & Fg & Fb)
        & Hd & Hl & Hxd & Hxl & _).
  - vm_compute; reflexivity.
  - exists d, l; split; [exact Hd |]; split; [exact Hl |].
    assert (Vr : darken_channel 90 (double 0.7) = Ok 62%Z) by (vm_compute; reflexivity).
    assert (Vg : darken_channel 170 (double 0.7) = Ok 118%Z) by (vm_compute; reflexivity).
    assert (Vb : darken_channel 180 (double 0.7) = Ok 125%Z) by (vm_compute; reflexivity).
    assert (Wr : lighten_channel 90 (double 0.7) = Ok 205%Z) by (vm_compute; reflexivity).
    assert (Wg : lighten_channel 170 (double 0.7) = Ok 229%Z) by (vm_compute; reflexivity).
    assert (Wb : lighten_channel 180 (double 0.7) = Ok 232%Z) by (vm_compute; reflexivity).
    split; [rewrite Hxd | rewrite Hxl]; congruence.
Defined.

(** The two transforms at the ends of the factor range, channel by channel. *)
Lemma darken_by_zero (v : Z) :
  (0 <= v <= 255)%Z -> darken_channel v (double 0) = Ok 0%Z.
Proof.
  apply (channel_table (fun v => darken_channel v (double 0)) (fun _ => 0%Z)).
  vm_compute; reflexivity.
Qed.

Lemma darken_by_one (v : Z) :
  (0 <= v <= 255)%Z -> darken_channel v (double 1) = Ok v.
Proof.
  apply (channel_table (fun v => darken_channel v (double 1)) (fun v => v)).
  vm_compute; reflexivity.
Qed.

Lemma lighten_by_zero (v : Z) :
  (0 <= v <= 255)%Z -> lighten_channel v (double 0) = Ok v.
Proof.
  apply (channel_table (fun v => lighten_channel v (double 0)) (fun v => v)).
  vm_compute; reflexivity.
Qed.

Lemma lighten_by_one (v : Z) :
  (0 <= v <= 255)%Z -> lighten_channel v (double 1) = Ok 255%Z.
Proof.
  apply (channel_table (fun v => lighten_channel v (double 1)) (fun _ => 255%Z)).
  vm_compute; reflexivity.
Qed.

(** X3: at the ends of the factor range the transforms are what a caller
    expects: [_darken] by 1 and [_lighten] by 0 return the colour itself
    (as [_hex] reads it; the digits come back in lower case), [_darken] by 0
    returns black and [_lighten] by 1 returns white. *)
Theorem transforms_at_the_ends (color : string) (r g b : Z) :
  String.length (lstrip_char "#" color) = 6%nat ->
  _hex color = Ok (mkRGB r g b) ->
  _darken color (double 0) = Ok "#000000"
  /\ _lighten color (double 1) = Ok "#ffffff"
  /\ exists d l,
      _darken color (double 1) = Ok d /\ _lighten color (double 0) = Ok l
      /\ _hex d = _hex color /\ _hex l = _hex color.
Proof.
  intros Hlen Hhex.
  destruct (channels_in_range color r g b Hlen Hhex) as (Rr & Rg & Rb).
  rewrite !(ColorFacts.darken_by_channel color r g b _ Hlen Hhex).
  rewrite !(ColorFacts.lighten_by_channel color r g b _ Hlen Hhex).
  rewrite !darken_by_zero, !darken_by_one, !lighten_by_zero, !lighten_by_one
    by assumption.
  cbn [Py.bind].
  split; [reflexivity |]; split; [reflexivity |].
  do 2 eexists; split; [reflexivity |]; split; [reflexivity |].
  rewrite Hhex.
  split; apply hex_of_formatted; assumption.
Qed.

Lemma transforms_at_the_ends_witness :
  _darken "#1ABC9C" (double 0) = Ok "#000000"
  /\ _lighten "#1ABC9C" (double 1) = Ok "#ffffff".
Proof.
  destruct (transforms_at_the_ends "#1ABC9C" 26 188 156 eq_refl eq_refl)
    as (H0 & H1 & _).
  split; assumption.
Defined.

(** The first character that [lstrip] leaves is not the stripped one. *)
Lemma lstrip_char_head (ch : ascii) (s : string) (a : ascii) (rest : string) :
  lstrip_char ch s = String a rest -> Ascii.eqb a ch = false.
Proof.
  induction s as [| c s IH]; simpl; [discriminate |].
  destruct (Ascii.eqb c ch) eqn:E; [exact IH |].
  intros H; injection H as <- <-; exact E.
Qed.

Lemma short_hex_doubles (color : string) :
  String.length (lstrip_char "#" color) = 3%nat ->
  _hex color = _hex (double_chars (lstrip_char "#" color)).
Proof.
  intros Hlen; unfold _hex.
  destruct (lstrip_char "#" color) as [| a [| b [| c [| ? ?]]]] eqn:E;
    try discriminate Hlen.
  apply lstrip_char_head in E.
  cbn [String.length Nat.eqb double_chars lstrip_char]; rewrite E.
  cbn [String.length Nat.eqb]; reflexivity.
Qed.

Lemma short_darken_raises (color : string) (f : float) :
  String.length (lstrip_char "#" color) = 3%nat -> _darken color f = Raise ValueError.
Proof.
  intros Hlen; unfold _darken.
  destruct (lstrip_char "#" color) as [| a [| b [| c [| ? ?]]]];
    try discriminate Hlen.
  cbn [substring].
  destruct (int16 (String a (String b EmptyString))) as [? | e1] eqn:E1;
    [| apply int16_raises in E1; subst; reflexivity].
  destruct (int16 (String c EmptyString)) as [? | e2] eqn:E2;
    [| apply int16_raises in E2; subst; reflexivity].
  reflexivity.
Qed.

Lemma short_lighten_raises (color : string) (f : float) :
  String.length (lstrip_char "#" color) = 3%nat -> _lighten color f = Raise ValueError.
Proof.
  intros Hlen; unfold _lighten.
  destruct (lstrip_char "#" color) as [| a [| b [| c [| ? ?]]]];
    try discriminate Hlen.
  cbn [substring].
  destruct (int16 (String a (String b EmptyString))) as [? | e1] eqn:E1;
    [| apply int16_raises in E1; subst; reflexivity].
  destruct (int16 (String c EmptyString)) as [? | e2] eqn:E2;
    [| apply int16_raises in E2; subst; reflexivity].
  reflexivity.
Qed.

(** X1: a colour of three digits is read by [_hex] as the colour of six
    digits in which every digit is doubled, but the two transforms do not
    know the short form: on it they raise [ValueError], whatever the
    factor. *)
Theorem short_colour_not_transformed (color : string) (f : float) :
  String.length (lstrip_char "#" color) = 3%nat ->
  _hex color = _hex (double_chars (lstrip_char "#" color))
  /\ _darken color f = Raise ValueError
  /\ _lighten color f = Raise ValueError.
Proof.
  intros Hlen; split; [| split].
  - apply short_hex_doubles; exact Hlen.
  - apply short_darken_raises; exact Hlen.
  - apply short_lighten_raises; exact Hlen.
Qed.

Lemma short_colour_not_transformed_witness :
  _hex "#0AF" = Ok (mkRGB 0 170 255) /\ _darken "#0AF" (double 0.5) = Raise ValueError.
Proof.
  destruct (short_colour_not_transformed "#0AF" (double 0.5) eq_refl) as (Hh & Hd & _).
  split; [rewrite Hh; reflexivity | exact Hd].
Defined.

End HexFacts.

(* ================================================================== *)
(** * Themes: presets, overrides, and the builders of the dark slides *)
(* ================================================================== *)

Module ThemeFacts.

Import Pptx Layout Observed.
Local Open Scope list_scope.

Lemma lookup_in {A : Type} (key : string) (d : list (string * A)) (v : A) :
  lookup key d = Some v -> In v (map snd d).
Proof.
  induction d as [| [k x] d IH]; simpl; [discriminate |].
  destruct (String.eqb k key); [intros [= <-]; left; reflexivity | right; auto].
Qed.

Lemma lookup_app {A : Type} (key : string) (a b : list (string * A)) :
  lookup key (a ++ b)
  = match lookup key a with
    | Some v => Some v
    | None => lookup key b
    end.
Proof.
  induction a as [| [k x] a IH]; simpl; [reflexivity |].
  destruct (String.eqb k key); [reflexivity | exact IH].
Qed.

Lemma presets_checked :
  forallb (fun t => theme_ok t && six_digits t) (midnight :: map snd THEMES) = true.
Proof. vm_compute; reflexivity. Qed.

Lemma get_theme_checked (name : string) :
  theme_ok (_get_theme name) && six_digits (_get_theme name) = true.
Proof.
  pose proof presets_checked as H; rewrite forallb_forall in H; apply H.
  unfold _get_theme; destruct (lookup name THEMES) as [t |] eqn:E; cbn [Py.get].
  - right; eapply lookup_in; exact E.
  - left; reflexivity.
Qed.

(** X4: whatever the name, [_get_theme] returns a theme in which every role
    has a colour that the writer accepts, written with six digits; a name
    that is not a preset gives the midnight theme. *)
Theorem every_name_gives_a_valid_theme (name : string) :
  theme_ok (_get_theme name) = true
  /\ six_digits (_get_theme name) = true
  /\ (lookup name THEMES = None -> _get_theme name = midnight).
Proof.
  pose proof (get_theme_checked name) as H; apply andb_prop in H as (H1 & H2).
  split; [exact H1 | split; [exact H2 |]].
  unfold _get_theme; intros ->; reflexivity.
Qed.

Lemma resolve_theme_lookup (settings : Settings) (key : string) :
  lookup key (resolve_theme settings)
  = match lookup key (custom_colors settings) with
    | Some c => Some c
    | None => lookup key (_get_theme (Py.get (settings_theme settings) "midnight"))
    end.
Proof.
  unfold resolve_theme, merge.
  destruct (custom_colors settings) as [| kv rest]; [reflexivity |].
  apply lookup_app.
Qed.

(** X5: in the theme that the entry point resolves, a role named in
    [custom_colors] has the custom colour and every other role keeps the
    colour of the chosen preset, so every role is present (indexing it
    never raises [KeyError]); the custom colours are not checked, and the
    resolved theme is valid when the custom colours of the roles are. *)
Theorem custom_colours_override (settings : Settings) (key : string) :
  lookup key (resolve_theme settings)
  = match lookup key (custom_colors settings) with
    | Some c => Some c
    | None => lookup key (_get_theme (Py.get (settings_theme settings) "midnight"))
    end
  /\ (In key role_keys -> exists c, item (resolve_theme settings) key = Ok c)
  /\ ((forall k c, In k role_keys -> lookup k (custom_colors settings) = Some c ->
                   color_ok c = true) ->
      theme_ok (resolve_theme settings) = true).
Proof.
  split; [apply resolve_theme_lookup | split].
  - intros Hin; unfold item; rewrite resolve_theme_lookup.
    destruct (lookup key (custom_colors settings)) as [c |]; [exists c; reflexivity |].
    pose proof (get_theme_checked (Py.get (settings_theme settings) "midnight")) as H.
    apply andb_prop in H as (H & _).
    destruct (BuilderFacts.theme_ok_role _ key H Hin) as (c & rgb & -> & _).
    exists c; reflexivity.
  - intros Hcustom; unfold theme_ok; apply forallb_forall; intros k Hin.
    rewrite resolve_theme_lookup.
    destruct (lookup k (custom_colors settings)) as [c |] eqn:E;
      [exact (Hcustom k c Hin E) |].
    pose proof (get_theme_checked (Py.get (settings_theme settings) "midnight")) as H.
    apply andb_prop in H as (H & _).
    destruct (BuilderFacts.theme_ok_role _ k H Hin) as (c & rgb & -> & Hx).
    unfold color_ok; rewrite Hx; reflexivity.
Qed.

Lemma six_digits_role (theme : Theme) (key c : string) :
  six_digits theme = true -> In key role_keys -> lookup key theme = Some c ->
  String.length (lstrip_char "#" c) = 6%nat.
Proof.
  unfold six_digits; intros H Hin L.
  rewrite forallb_forall in H; specialize (H key Hin); rewrite L in H.
  apply Nat.eqb_eq; exact H.
Qed.

Lemma bg_gradient_ok slide (c0 c1 : string) (rgb0 rgb1 : RGBColor) (angle : Q) :
  _hex c0 = Ok rgb0 -> _hex c1 = Ok rgb1 ->
  exists slide', _apply_bg_gradient slide c0 c1 angle = Ok slide'.
Proof.
  intros H0 H1; unfold _apply_bg_gradient; rewrite H0, H1; cbn [Py.bind]; eauto.
Qed.

(** Runs the statements of a dark builder on a theme whose colours are
    valid and of six digits. *)
Ltac run_dark :=
  repeat first
    [ match goal with
      | |- exists s, Py.bind (_lighten ?c ?f) _ = Ok s =>
          let Hl := fresh "Hl" in
          assert (Hl : exists l rgb', _lighten c f = Ok l /\ _hex l = Ok rgb')
            by (eapply HexFacts.lighten_ok;
                [eassumption | eassumption | vm_compute; reflexivity]);
          destruct Hl as (? & ? & -> & ?); cbn [Py.bind]
      | |- exists s, Py.bind (_darken ?c ?f) _ = Ok s =>
          let Hl := fresh "Hl" in
          assert (Hl : exists l rgb', _darken c f = Ok l /\ _hex l = Ok rgb')
            by (eapply HexFacts.darken_ok;
                [eassumption | eassumption | vm_compute; reflexivity]);
          destruct Hl as (? & ? & -> & ?); cbn [Py.bind]
      | |- exists s, Py.bind (_apply_bg_gradient ?sl ?c0 ?c1 ?a) _ = Ok s =>
          let Hs := fresh "Hs" in
          assert (Hs : exists s', _apply_bg_gradient sl c0 c1 a = Ok s')
            by (eapply bg_gradient_ok; eassumption);
          destruct Hs as (? & ->); cbn [Py.bind]
      | |- exists s, Py.bind (match ?o with Some _ => _ | None => _ end) _ = Ok s =>
          destruct o
      end
    | progress BuilderFacts.run_ok ].

Ltac dark_role Hok H6 key :=
  let c := fresh "c" in
  let rgb := fresh "rgb" in
  let L := fresh "L" in
  let Hx := fresh "Hx" in
  let S6 := fresh "S6" in
  BuilderFacts.role Hok key c rgb L Hx;
  assert (S6 : String.length (lstrip_char "#" c) = 6%nat)
    by (apply (six_digits_role _ key c H6); [unfold role_keys; simpl; tauto | exact L]).

Ltac dark_roles Hok H6 :=
  dark_role Hok H6 "gradient_start";
  dark_role Hok H6 "gradient_end";
  dark_role Hok H6 "accent";
  dark_role Hok H6 "primary";
  dark_role Hok H6 "text_light".

Ltac dark_builder f :=
  unfold f, item;
  change (add_slide ?p) with (fst (add_slide p), blank_slide);
  cbv iota beta;
  repeat match goal with
         | L : lookup _ _ = Some _ |- _ => rewrite L
         end;
  cbn [of_option Py.bind];
  run_dark.

Section DarkBuilders.

Variable theme : Theme.
Hypothesis Hok : theme_ok theme = true.
Hypothesis H6 : six_digits theme = true.
Variables (prs : Presentation) (sd : SlideData) (font : string).

Lemma title_slide_ok : exists prs', _build_title_slide prs sd theme font = Ok prs'.
Proof. dark_roles Hok H6; dark_builder _build_title_slide. Qed.

Lemma section_slide_ok : exists prs', _build_section_slide prs sd theme font = Ok prs'.
Proof. dark_roles Hok H6; dark_builder _build_section_slide. Qed.

Lemma quote_slide_ok : exists prs', _build_quote_slide prs sd theme font = Ok prs'.
Proof. dark_roles Hok H6; dark_builder _build_quote_slide. Qed.

Lemma ending_slide_ok : exists prs', _build_ending_slide prs sd theme font = Ok prs'.
Proof. dark_roles Hok H6; dark_builder _build_ending_slide. Qed.

End DarkBuilders.

(** X6: on a theme whose role colours are valid and written with six
    digits (every preset is one), the builders of the title, section, quote
    and ending slides do not raise, whatever the slide data: each adds one
    slide to the deck. *)
Theorem dark_slides_never_raise (theme : Theme) (prs : Presentation) (sd : SlideData)
        (font : string) :
  theme_ok theme = true ->
  six_digits theme = true ->
  (exists slide, _build_title_slide prs sd theme font = Ok (prs ++ [slide]))
  /\ (exists slide, _build_section_slide prs sd theme font = Ok (prs ++ [slide]))
  /\ (exists slide, _build_quote_slide prs sd theme font = Ok (prs ++ [slide]))
  /\ (exists slide, _build_ending_slide prs sd theme font = Ok (prs ++ [slide])).
Proof.
  intros Hok H6; repeat split.
  - destruct (title_slide_ok theme Hok H6 prs sd font) as (p & H).
    destruct (BuilderFacts.title_slide_adds _ _ _ _ _ H) as (slide & ->); eauto.
  - destruct (section_slide_ok theme Hok H6 prs sd font) as (p & H).
    destruct (BuilderFacts.section_slide_adds _ _ _ _ _ H) as (slide & ->); eauto.
  - destruct (quote_slide_ok theme Hok H6 prs sd font) as (p & H).
    destruct (BuilderFacts.quote_slide_adds _ _ _ _ _ H) as (slide & ->); eauto.
  - destruct (ending_slide_ok theme Hok H6 prs sd font) as (p & H).
    destruct (BuilderFacts.ending_slide_adds _ _ _ _ _ H) as (slide & ->); eauto.
Qed.

Lemma dark_slides_never_raise_witness :
  exists slide,
    _build_title_slide [] (with_title (Some "Roadmap") empty_slide_data)
                       (_get_theme "forest") "Arial"
    = Ok [slide].
Proof.
  exact (proj1 (dark_slides_never_raise (_get_theme "forest") []
                  (with_title (Some "Roadmap") empty_slide_data) "Arial"
                  eq_refl eq_refl)).
Defined.

(** X7: a custom accent of three digits passes the check of the theme (the
    footer, the title bar and the light slides draw with it), but the
    title, quote and ending builders lighten the accent and therefore raise
    [ValueError] on such a theme, whatever the slide data. *)
Theorem short_accent_breaks_dark_slides (theme : Theme) (accent : string)
        (prs : Presentation) (sd : SlideData) (font : string) :
  theme_ok theme = true ->
  lookup "accent" theme = Some accent ->
  String.length (lstrip_char "#" accent) = 3%nat ->
  _build_title_slide prs sd theme font = Raise ValueError
  /\ _build_quote_slide prs sd theme font = Raise ValueError
  /\ _build_ending_slide prs sd theme font = Raise ValueError
  /\ exists slide, _add_slide_footer blank_slide prs theme font = Ok slide.
Proof.
  intros Hok La H3.
  BuilderFacts.role Hok "gradient_start" cgs rgs Lgs Hgs.
  BuilderFacts.role Hok "gradient_end" cge rge Lge Hge.
  destruct (bg_gradient_ok blank_slide cgs cge rgs rge 225%Q Hgs Hge) as (s & Hs).
  repeat split.
  - unfold _build_title_slide, item.
    change (add_slide prs) with (fst (add_slide prs), blank_slide); cbv iota beta.
    rewrite Lgs, Lge, La; cbn [of_option Py.bind]; rewrite Hs; cbn [Py.bind].
    rewrite HexFacts.short_lighten_raises by exact H3; reflexivity.
  - unfold _build_quote_slide, item.
    change (add_slide prs) with (fst (add_slide prs), blank_slide); cbv iota beta.
    rewrite Lgs, Lge, La; cbn [of_option Py.bind]; rewrite Hs; cbn [Py.bind].
    rewrite HexFacts.short_lighten_raises by exact H3; reflexivity.
  - unfold _build_ending_slide, item.
    change (add_slide prs) with (fst (add_slide prs), blank_slide); cbv iota beta.
    rewrite Lgs, Lge, La; cbn [of_option Py.bind]; rewrite Hs; cbn [Py.bind].
    rewrite HexFacts.short_lighten_raises by exact H3; reflexivity.
  - apply BuilderFacts.footer_ok; exact Hok.
Qed.

Lemma short_accent_breaks_dark_slides_witness :
  _build_title_slide [] empty_slide_data
                     (resolve_theme (mkSettings None [("accent", "#0AF")] None None None))
                     "Arial"
  = Raise ValueError.
Proof.
  exact (proj1 (short_accent_breaks_dark_slides
                  (resolve_theme (mkSettings None [("accent", "#0AF")] None None None))
                  "#0AF" [] empty_slide_data "Arial" eq_refl eq_refl eq_refl)).
Defined.

End ThemeFacts.

(* ================================================================== *)
(** * Rows of cards: stats, columns, and the content area *)
(* ================================================================== *)

Module RowFacts.

Import Pptx Layout Observed.
Import BuilderFacts.
Local Open Scope list_scope.

(** A loop whose body adds one card background per turn adds them in
    order. *)
Lemma loop_backgrounds {A : Type} (body : nat -> A -> Slide -> result Slide)
      (region : nat -> Region) :
  (forall i a s s', body i a s = Ok s' ->
                    card_backgrounds (shapes s') = card_backgrounds (shapes s) ++ [region i]) ->
  forall (xs : list A) start s s',
    for_enumerate body start xs s = Ok s' ->
    card_backgrounds (shapes s')
    = card_backgrounds (shapes s) ++ map region (seq start (List.length xs)).
Proof.
  intros Hbody; induction xs as [| a rest IH]; intros start s s' H; simpl in H.
  - injection H as <-; simpl; rewrite app_nil_r; reflexivity.
  - bind_inv H.
    apply Hbody in E; apply IH in H.
    rewrite H, E, <- app_assoc; reflexivity.
Qed.

Lemma loop_ok {A : Type} (body : nat -> A -> Slide -> result Slide) :
  (forall i a s, exists s', body i a s = Ok s') ->
  forall (xs : list A) start s, exists s', for_enumerate body start xs s = Ok s'.
Proof.
  intros Hbody; induction xs as [| a rest IH]; intros start s; simpl; [eauto |].
  destruct (Hbody start a s) as (s1 & ->); cbn [Py.bind]; apply IH.
Qed.

Lemma in_content_area_all (l : list Region) :
  forallb in_content_area l = true -> Forall (fun r => in_content_area r = true) l.
Proof.
  intros H; apply Forall_forall; intros r Hr.
  rewrite forallb_forall in H; exact (H r Hr).
Qed.

(** A loop whose body adds one group of shapes per turn adds the groups in
    order, one for each item. *)
Lemma loop_groups {A : Type} (body : nat -> A -> Slide -> result Slide)
      (P : nat -> A -> list Shape -> Prop) :
  (forall i a s s', body i a s = Ok s' ->
                    exists group, shapes s' = shapes s ++ group /\ P i a group) ->
  forall (xs : list A) start s s',
    for_enumerate body start xs s = Ok s' ->
    exists groups,
      shapes s' = shapes s ++ List.concat groups
      /\ List.length groups = List.length xs
      /\ forall k group,
          nth_error groups k = Some group ->
          exists a, nth_error xs k = Some a /\ P (start + k)%nat a group.
Proof.
  intros Hbody; induction xs as [| a rest IH]; intros start s s' H; simpl in H.
  - injection H as <-; exists []; simpl; rewrite app_nil_r; repeat split; auto.
    intros [| k] group Hk; discriminate Hk.
  - bind_inv H.
    apply Hbody in E as (group0 & Hs0 & Hg0).
    apply IH in H as (groups & Hs & Hlen & Hk).
    exists (group0 :: groups); split; [| split].
    + rewrite Hs, Hs0, <- app_assoc; reflexivity.
    + simpl; rewrite Hlen; reflexivity.
    + intros [| k] group Hn; simpl in Hn.
      * injection Hn as <-; rewrite Nat.add_0_r; exists a; split; [reflexivity | exact Hg0].
      * apply Hk in Hn as (a' & Ha' & Hg).
        replace (start + S k)%nat with (S start + k)%nat by lia.
        exists a'; split; [exact Ha' | exact Hg].
Qed.

Lemma nth_error_firstn_inv {A : Type} (n : nat) :
  forall (k : nat) (l : list A) (a : A),
    nth_error (firstn n l) k = Some a -> nth_error l k = Some a.
Proof.
  induction n as [| n IH]; intros k l a H.
  - destruct k; discriminate H.
  - destruct l as [| x l]; [destruct k; discriminate H |].
    destruct k as [| k]; simpl in *; [exact H | apply IH; exact H].
Qed.

(** Names the text of every frame that was written from a literal. *)
Ltac frames_read :=
  repeat match goal with
         | H : _add_text_to_frame ?cfg ?f = Ok ?fr |- _ =>
             pose proof (text_frame_texts cfg f fr _ eq_refl H); clear H
         end.

(** ** Stats *)

Lemma stat_regions_nth (card_w : Q) (n i : nat) :
  (i < n)%nat -> nth_error (stat_regions card_w n) i = Some (stat_region card_w i).
Proof.
  intros Hi; unfold stat_regions.
  rewrite nth_error_map, nth_error_nth' with (d := 0%nat) by (rewrite length_seq; exact Hi).
  rewrite seq_nth by exact Hi; reflexivity.
Qed.

Lemma column_regions_nth (n i : nat) :
  (i < n)%nat -> nth_error (column_regions n) i = Some (column_region i).
Proof.
  intros Hi; unfold column_regions.
  rewrite nth_error_map, nth_error_nth' with (d := 0%nat) by (rewrite length_seq; exact Hi).
  rewrite seq_nth by exact Hi; reflexivity.
Qed.

Lemma draw_stat_group theme font card_w i stat slide slide' :
  draw_stat theme font card_w i stat slide = Ok slide' ->
  exists group,
    shapes slide' = shapes slide ++ group
    /\ is_stat_group (stat_region card_w i) stat group.
Proof.
  intros H; unfold is_stat_group.
  cut (exists bg bar boxes,
          shapes slide' = shapes slide ++ bg :: bar :: boxes
          /\ card_background bg = Some (stat_region card_w i)
          /\ (exists c, bar = AutoShape RECTANGLE (x (stat_region card_w i))
                                        (y (stat_region card_w i))
                                        (w (stat_region card_w i)) 0.06 c None false
                                        None None)
          /\ Forall2 (is_stat_text (stat_region card_w i)) (stat_texts stat) boxes).
  { intros (bg & bar & boxes & Hs & Hrest); exists (bg :: bar :: boxes).
    split; [exact Hs |].
    exists bg, bar, boxes; split; [reflexivity | exact Hrest]. }
  unfold draw_stat in H; cbv zeta in H.
  unfold stat_texts, shown_text.
  destruct (truthy (Py.get (stat_icon stat) "")) eqn:Hi;
    destruct (truthy (Py.get (stat_label stat) "")) eqn:Hl;
    destruct (truthy (Py.get (stat_description stat) "")) eqn:Hd.
  all: walk_all; shapes_added; walk_all; shapes_added.
  all: frames_read.
  all: do 3 eexists.
  all: split; [cbn [shapes add_shape]; rewrite <- ?app_assoc; cbn [app]; reflexivity |].
  all: split; [reflexivity |].
  all: split; [eexists; reflexivity |].
  all: cbn [app].
  all: repeat (apply Forall2_cons;
               [do 5 eexists; split; [reflexivity |];
                cbn [_inches x y w h stat_region];
                split; [reflexivity |]; split; [reflexivity |];
                split; [eassumption |];
                split; vm_compute; discriminate |]).
  all: apply Forall2_nil.
Qed.

Lemma draw_stat_inv theme font card_w i stat slide slide' :
  draw_stat theme font card_w i stat slide = Ok slide' ->
  card_backgrounds (shapes slide')
  = card_backgrounds (shapes slide)
    ++ [mkRegion (0.5 + float_of_nat i * (card_w + 0.4)) 2.2 card_w 3.5]%Q.
Proof.
  unfold draw_stat; intros H.
  walk_all; shapes_added; walk_all; shapes_added.
  all: cbn [shapes add_shape]; rewrite !card_backgrounds_app; cbn;
    rewrite ?app_nil_r; reflexivity.
Qed.

Lemma draw_stat_ok theme font card_w i stat slide :
  theme_ok theme = true ->
  exists slide', draw_stat theme font card_w i stat slide = Ok slide'.
Proof.
  intros Hok.
  role Hok "card_bg" cb rb Lb Hb.
  role Hok "card_border" cbo rbo Lbo Hbo.
  role Hok "accent" ca ra La Ha.
  role Hok "primary" cp rp Lp Hp.
  role Hok "text_dark" cd rd Ld Hd.
  assert (Hgrey : _hex "#888888" = Ok (mkRGB 136 136 136)) by reflexivity.
  unfold draw_stat, item, get_or; rewrite Lb, Lbo, La, Lp, Ld.
  cbn [of_option Py.bind Py.get].
  run_ok.
Qed.

Lemma stats_slide_runs prs sd theme font card_w :
  theme_ok theme = true ->
  stats sd <> [] ->
  (if (List.length (stats sd) <=? 5)%nat
   then Py.div (12.3 - (float_of_nat (List.length (stats sd)) - 1) * 0.4)
               (float_of_nat (List.length (stats sd)))
   else Py.div (12.3 - 4 * 0.4) 5)%Q = Ok card_w ->
  exists slide,
    _build_stats_slide prs sd theme font = Ok (prs ++ [slide])
    /\ card_backgrounds (shapes slide)
       = stat_regions card_w (List.length (firstn 5 (stats sd)))
    /\ exists pre groups post,
        shapes slide = pre ++ List.concat groups ++ post
        /\ List.length groups = Nat.min (List.length (stats sd)) 5
        /\ forall i group,
            nth_error groups i = Some group ->
            exists stat,
              nth_error (stats sd) i = Some stat
              /\ is_stat_group (stat_region card_w i) stat group.
Proof.
  intros Hok Hne Hw.
  destruct (light_head_ok theme Hok font (Py.get (title sd) "") "#FFFFFF")
    as (s0 & s1 & H0 & H1).
  destruct (loop_ok (draw_stat theme font card_w)
                    (fun i a s => draw_stat_ok theme font card_w i a s Hok)
                    (firstn 5 (stats sd)) 0%nat s1) as (s2 & H2).
  destruct (footer_ok theme Hok font s2 (fst (add_slide prs))) as (s3 & H3).
  exists s3; split.
  - unfold _build_stats_slide.
    change (add_slide prs) with (fst (add_slide prs), blank_slide); cbv iota beta.
    rewrite H0; cbn [Py.bind]; rewrite H1; cbn [Py.bind].
    destruct (stats sd) as [| st0 rest] eqn:Hs; [contradiction |].
    cbn [List.length Nat.eqb]; cbn [List.length] in Hw; rewrite Hw; cbn [Py.bind].
    rewrite H2; cbn [Py.bind]; rewrite H3; cbn [Py.bind].
    rewrite drawn_add_slide; reflexivity.
  - pose proof H2 as Hloop.
    apply apply_bg_solid_inv in H0.
    apply title_bar_inv in H1
      as (bg & box & ul & Hs1 & _ & (c & ->) & (fr & -> & _) & (c' & ->)).
    apply (loop_backgrounds _ (fun i => mkRegion (0.5 + float_of_nat i * (card_w + 0.4))
                                                 2.2 card_w 3.5)%Q) in H2;
      [| intros i a s s'; apply draw_stat_inv].
    apply footer_inv in H3 as (bar & num & Hs3 & (cb & ->) & (frn & -> & _)).
    split.
    + rewrite Hs3, card_backgrounds_app, H2, Hs1, H0; cbn.
      rewrite app_nil_r; reflexivity.
    + apply (loop_groups _ (fun i stat group =>
                              is_stat_group (stat_region card_w i) stat group)) in Hloop
        as (groups & Hs2 & Hlen & Hgroups);
        [| intros i a s s'; apply draw_stat_group].
      eexists (shapes s1), groups, _; split; [| split].
      * rewrite Hs3, Hs2, <- app_assoc; reflexivity.
      * rewrite Hlen, length_firstn; apply Nat.min_comm.
      * intros i group Hi.
        destruct (Hgroups i group Hi) as (stat & Hst & Hg).
        exists stat; split; [eapply nth_error_firstn_inv; exact Hst | exact Hg].
Qed.

(** X8: for [n >= 1] stats, on a theme whose colours are valid, the stats
    builder does not raise; it shows the first [min n 5] stats, one card
    each, in one row: the cards have the common width
    [(12.3 - (shown - 1) * 0.4) / shown], which is positive, they are
    pairwise disjoint, and they lie inside the side margins, below the
    title bar and above the footer.  What the slide shows of the stat of
    index [i] is one group of shapes, the groups in the order of the stats:
    the card of index [i], the accent bar along its top, and one text box
    for each text of that stat (the icon, the value, the label, the
    description, the value always and the others when they are not empty),
    0.2 inside the sides of the card and between its top and bottom. *)
Theorem stats_row_layout (prs : Presentation) (sd : SlideData) (theme : Theme)
        (font : string) :
  theme_ok theme = true ->
  (1 <= List.length (stats sd))%nat ->
  let shown := Nat.min (List.length (stats sd)) 5 in
  exists slide card_w,
    _build_stats_slide prs sd theme font = Ok (prs ++ [slide])
    /\ (card_w == (12.3 - (float_of_nat shown - 1) * 0.4) / float_of_nat shown)%Q
    /\ (0 < card_w)%Q
    /\ card_backgrounds (shapes slide) = stat_regions card_w shown
    /\ List.length (stat_regions card_w shown) = shown
    /\ (forall i j ri rj,
           i <> j ->
           nth_error (stat_regions card_w shown) i = Some ri ->
           nth_error (stat_regions card_w shown) j = Some rj ->
           disjoint ri rj)
    /\ Forall (fun r => in_content_area r = true) (stat_regions card_w shown)
    /\ exists pre groups post,
        shapes slide = pre ++ List.concat groups ++ post
        /\ List.length groups = shown
        /\ forall i group,
            nth_error groups i = Some group ->
            exists stat,
              nth_error (stats sd) i = Some stat
              /\ nth_error (stat_regions card_w shown) i = Some (stat_region card_w i)
              /\ is_stat_group (stat_region card_w i) stat group.
Proof.
  intros Hok Hn shown.
  assert (Hne : stats sd <> []) by (destruct (stats sd); [simpl in Hn; lia | discriminate]).
  assert (Hrun : forall card_w,
             (if (List.length (stats sd) <=? 5)%nat
              then Py.div (12.3 - (float_of_nat (List.length (stats sd)) - 1) * 0.4)
                          (float_of_nat (List.length (stats sd)))
              else Py.div (12.3 - 4 * 0.4) 5)%Q = Ok card_w ->
             exists slide,
               _build_stats_slide prs sd theme font = Ok (prs ++ [slide])
               /\ card_backgrounds (shapes slide)
                  = stat_regions card_w (List.length (firstn 5 (stats sd)))
               /\ exists pre groups post,
                   shapes slide = pre ++ List.concat groups ++ post
                   /\ List.length groups = Nat.min (List.length (stats sd)) 5
                   /\ forall i group,
                       nth_error groups i = Some group ->
                       exists stat,
                         nth_error (stats sd) i = Some stat
                         /\ is_stat_group (stat_region card_w i) stat group)
    by (intros cw; apply stats_slide_runs; assumption).
  subst shown; clear Hne.
  destruct (stats sd) as [| s1 [| s2 [| s3 [| s4 [| s5 [| s6 rest]]]]]];
    [simpl in Hn; lia | ..].
  all: cbn [List.length Nat.leb firstn] in Hrun.
  all: match type of Hrun with
       | forall cw, ?d = Ok cw -> _ =>
           let q := eval vm_compute in d in
           match q with
           | Ok ?cw0 =>
               destruct (Hrun cw0) as (slide & Hb & Hbg & Hgr); [vm_compute; reflexivity |];
               exists slide, cw0
           end
       end.
  all: split; [exact Hb |].
  all: split; [vm_compute; reflexivity |].
  all: split; [vm_compute; reflexivity |].
  all: split; [exact Hbg |].
  all: split; [reflexivity |].
  all: split; [apply pairwise_disjointb_sound; vm_compute; reflexivity |].
  all: split; [apply in_content_area_all; vm_compute; reflexivity |].
  all: destruct Hgr as (pre & groups & post & Hs & Hlen & Hg).
  all: exists pre, groups, post; split; [exact Hs | split; [exact Hlen |]].
  all: intros i group Hi; destruct (Hg i group Hi) as (stat & Hst & Hgrp).
  all: exists stat; split; [exact Hst | split; [| exact Hgrp]].
  all: apply stat_regions_nth.
  all: assert (Hlt : (i < List.length groups)%nat) by (apply nth_error_Some; congruence).
  all: rewrite Hlen in Hlt; exact Hlt.
Qed.

Lemma stats_row_layout_witness :
  exists slide,
    _build_stats_slide []
      (with_stats [mkStat (Some "42") (Some "users") None None;
                   mkStat (Some "7") (Some "teams") None None] empty_slide_data)
      midnight "Arial"
    = Ok [slide]
    /\ List.length (card_backgrounds (shapes slide)) = 2%nat.
Proof.
  destruct (stats_row_layout []
              (with_stats [mkStat (Some "42") (Some "users") None None;
                           mkStat (Some "7") (Some "teams") None None] empty_slide_data)
              midnight "Arial" eq_refl)
    as (slide & cw & Hb & _ & _ & Hbg & Hlen & _); [simpl; lia |].
  exists slide; split; [exact Hb | rewrite Hbg; exact Hlen].
Defined.

(** ** Three columns *)

Lemma three_column_regions prs sd theme font prs' :
  _build_three_column_slide prs sd theme font = Ok prs' ->
  exists slide,
    prs' = prs ++ [slide]
    /\ card_backgrounds (shapes slide)
       = column_regions (List.length (firstn 3 (columns sd))).
Proof.
  intros H; unfold _build_three_column_slide in H.
  change (add_slide prs) with (fst (add_slide prs), blank_slide) in H.
  cbv iota beta in H.
  bind_inv H; bind_inv H; bind_inv H; bind_inv H; injection H as <-.
  apply apply_bg_solid_inv in E.
  apply title_bar_inv in E0
    as (bg & box & ul & Hs1 & _ & (c & ->) & (fr & -> & _) & (c' & ->)).
  apply (loop_backgrounds _ (fun i => mkRegion (0.5 + float_of_nat i * (3.7 + 0.45))
                                               1.5 3.7 5.2)%Q) in E1.
  - apply footer_inv in E2 as (bar & num & Hs2 & (cb & ->) & (frn & -> & _)).
    exists a2; split; [apply drawn_add_slide |].
    rewrite Hs2, card_backgrounds_app, E1, Hs1, E; cbn.
    rewrite app_nil_r; reflexivity.
  - clear; intros i col s s' H.
    walk_all; shapes_added; walk_all; shapes_added.
    all: cbn [shapes add_shape]; rewrite !card_backgrounds_app; cbn;
      rewrite ?app_nil_r; reflexivity.
Qed.

(** What one turn of the loop over the columns adds. *)
Lemma three_column_groups prs sd theme font prs' :
  _build_three_column_slide prs sd theme font = Ok prs' ->
  exists slide pre groups post,
    prs' = prs ++ [slide]
    /\ shapes slide = pre ++ List.concat groups ++ post
    /\ List.length groups = Nat.min (List.length (columns sd)) 3
    /\ forall i group,
        nth_error groups i = Some group ->
        exists col,
          nth_error (columns sd) i = Some col
          /\ is_column_group theme font (column_region i) col group.
Proof.
  intros H; unfold _build_three_column_slide in H.
  change (add_slide prs) with (fst (add_slide prs), blank_slide) in H.
  cbv iota beta in H.
  bind_inv H; bind_inv H; bind_inv H; bind_inv H; injection H as <-.
  apply (loop_groups _ (fun i col group =>
                          is_column_group theme font (column_region i) col group)) in E1.
  - destruct E1 as (groups & Hs & Hlen & Hgroups).
    apply footer_inv in E2 as (bar & num & Hs2 & _).
    exists a2, (shapes a0), groups, [bar; num].
    split; [apply drawn_add_slide |].
    split; [rewrite Hs2, Hs, <- app_assoc; reflexivity |].
    split; [rewrite Hlen, length_firstn; apply Nat.min_comm |].
    intros i group Hi.
    destruct (Hgroups i group Hi) as (col & Hc & Hg).
    exists col; split; [eapply nth_error_firstn_inv; exact Hc | exact Hg].
  - clear; intros i col s s' H; cbv beta zeta in H.
    unfold is_column_group.
    cut (exists bg bar rest,
            shapes s' = shapes s ++ bg :: bar :: rest
            /\ card_background bg = Some (column_region i)
            /\ (exists c, bar = AutoShape RECTANGLE (x (column_region i) + 0.3) 1.7 1.2
                                          0.05 c None false None None)
            /\ exists heads body,
                rest = heads ++ [body]
                /\ Forall2 (is_column_head (column_region i)) (column_texts col) heads
                /\ exists l t wd ht fr,
                    body = TextBox l t wd ht fr
                    /\ (l == x (column_region i) + 0.3)%Q
                    /\ (wd == w (column_region i) - 0.6)%Q
                    /\ (t == (if truthy (Py.get (col_icon col) "") then 2.7 else 2.0)
                             + 0.6)%Q
                    /\ (t + ht == 7.0)%Q
                    /\ _add_text_to_frame (column_content_config theme col) font
                       = Ok fr).
    { intros (bg & bar & rest & Hs & Hbg & Hbar & heads & body & -> & Hheads & Hbody).
      exists (bg :: bar :: heads ++ [body]); split; [exact Hs |].
      exists bg, bar, heads, body; auto. }
    unfold column_texts, shown_text.
    destruct (truthy (Py.get (col_icon col) "")) eqn:Hi;
      destruct (truthy (Py.get (col_title col) "")) eqn:Ht;
      cbn [negb] in H.
    all: walk_all; shapes_added; walk_all; shapes_added.
    all: frames_read.
    all: do 3 eexists.
    all: split; [cbn [shapes add_shape]; rewrite <- ?app_assoc; cbn [app]; reflexivity |].
    all: split; [reflexivity |].
    all: split; [eexists; reflexivity |].
    all: match goal with
         | |- exists heads body, [?a; ?b; ?c] = heads ++ [body] /\ _ => exists [a; b], c
         | |- exists heads body, [?a; ?b] = heads ++ [body] /\ _ => exists [a], b
         | |- exists heads body, [?a] = heads ++ [body] /\ _ => exists [], a
         end.
    all: split; [reflexivity |].
    all: cbn [app].
    all: split;
      [ repeat (apply Forall2_cons;
                [do 5 eexists; split; [reflexivity |];
                 cbn [_inches x y w h column_region];
                 split; [reflexivity |];
                 split; [eassumption |];
                 split; [| split; vm_compute; discriminate] |]);
        try apply Forall2_nil |].
    all: try (do 5 eexists; split; [reflexivity |];
              cbn [_inches x y w h column_region];
              split; [reflexivity |]; split; [reflexivity |];
              split; [vm_compute; reflexivity |];
              split; [vm_compute; reflexivity | eassumption]).
    all: match goal with
         | |- (?X + ?a + ?b <= ?X + ?c)%Q =>
             rewrite <- Qplus_assoc; apply Qplus_le_r; vm_compute; discriminate
         end.
Qed.

(** X9: when the three-column builder returns, it has added one slide that
    shows the first [min n 3] columns, later ones are dropped; column [i]
    has a card 3.7 wide at [x = 0.5 + i * 4.15], and the cards are pairwise
    disjoint and lie inside the side margins, below the title bar and above
    the footer.  What the slide shows of the column of index [i] is one
    group of shapes, the groups in the order of the columns: the card of
    index [i], the accent bar, a text box for the icon and one for the
    title when they are not empty, both inside the card, and the body, which
    is the text frame written from the content of that column; the body
    ends at 7.0, below the bottom of the card at 6.7. *)
Theorem three_columns_layout (prs prs' : Presentation) (sd : SlideData) (theme : Theme)
        (font : string) :
  _build_three_column_slide prs sd theme font = Ok prs' ->
  let shown := Nat.min (List.length (columns sd)) 3 in
  exists slide,
    prs' = prs ++ [slide]
    /\ card_backgrounds (shapes slide) = column_regions shown
    /\ List.length (column_regions shown) = shown
    /\ (forall i r, nth_error (column_regions shown) i = Some r ->
                    (x r == 0.5 + float_of_nat i * 4.15)%Q /\ w r = 3.7%Q)
    /\ (forall i j ri rj,
           i <> j ->
           nth_error (column_regions shown) i = Some ri ->
           nth_error (column_regions shown) j = Some rj ->
           disjoint ri rj)
    /\ Forall (fun r => in_content_area r = true) (column_regions shown)
    /\ exists pre groups post,
        shapes slide = pre ++ List.concat groups ++ post
        /\ List.length groups = shown
        /\ forall i group,
            nth_error groups i = Some group ->
            exists col,
              nth_error (columns sd) i = Some col
              /\ nth_error (column_regions shown) i = Some (column_region i)
              /\ is_column_group theme font (column_region i) col group.
Proof.
  intros H shown.
  pose proof (three_column_groups prs sd theme font prs' H)
    as (slide' & pre & groups & post & Hp' & Hsh & Hlen & Hgroups).
  apply three_column_regions in H as (slide & -> & Hbg).
  apply app_inj_tail in Hp' as (_ & <-).
  exists slide; split; [reflexivity |].
  rewrite length_firstn, Nat.min_comm in Hbg; fold shown in Hbg, Hlen.
  split; [exact Hbg |].
  assert (Hgr : exists pre groups post,
             shapes slide = pre ++ List.concat groups ++ post
             /\ List.length groups = shown
             /\ forall i group,
                 nth_error groups i = Some group ->
                 exists col,
                   nth_error (columns sd) i = Some col
                   /\ nth_error (column_regions shown) i = Some (column_region i)
                   /\ is_column_group theme font (column_region i) col group).
  { exists pre, groups, post; split; [exact Hsh | split; [exact Hlen |]].
    intros i group Hi; destruct (Hgroups i group Hi) as (col & Hc & Hg).
    exists col; split; [exact Hc | split; [| exact Hg]].
    apply column_regions_nth.
    rewrite <- Hlen; apply nth_error_Some; congruence. }
  assert (Hs : (shown <= 3)%nat) by (subst shown; lia).
  clearbody shown; clear Hbg Hsh Hlen Hgroups.
  destruct shown as [| [| [| [| ?]]]]; [| | | | lia].
  all: split; [reflexivity |].
  all: split;
    [intros i r Hi;
     repeat (destruct i as [| i]; [injection Hi as <-; split; [vm_compute |]; reflexivity |]);
     try discriminate Hi; destruct i; discriminate Hi |].
  all: split; [apply pairwise_disjointb_sound; vm_compute; reflexivity |].
  all: split; [apply in_content_area_all; vm_compute; reflexivity | exact Hgr].
Qed.

Lemma three_columns_layout_witness :
  exists slide,
    _build_three_column_slide []
      (mkSlideData None (Some "Plans") None None None None None [] None None None None
                   [mkColumn None (Some "a") None; mkColumn None (Some "b") None;
                    mkColumn None (Some "c") None; mkColumn None (Some "d") None]
                   [] None None [] [] None None None None None [] [] None None None)
      midnight "Arial"
    = Ok [slide]
    /\ List.length (card_backgrounds (shapes slide)) = 3%nat.
Proof.
  assert (Hrun : exists prs',
             _build_three_column_slide []
               (mkSlideData None (Some "Plans") None None None None None [] None None None
                            None
                            [mkColumn None (Some "a") None; mkColumn None (Some "b") None;
                             mkColumn None (Some "c") None; mkColumn None (Some "d") None]
                            [] None None [] [] None None None None None [] [] None None
                            None)
               midnight "Arial"
             = Ok prs') by (eexists; vm_compute; reflexivity).
  destruct Hrun as (prs' & Hrun).
  destruct (three_columns_layout _ _ _ _ _ Hrun) as (slide & Hp & Hbg & Hlen & _).
  exists slide; split; [rewrite Hrun, Hp; reflexivity | rewrite Hbg; exact Hlen].
Defined.

(** ** Cards *)

(** X10: the card regions of the cards slide, for any number [n >= 1] of
    cards, lie inside the side margins of the slide, below the title bar
    and above the footer. *)
Theorem cards_stay_in_content_area (card_list : list Card) (cols_count rows_count : nat)
        (kept : list Card) (card_w card_h : Q) :
  (1 <= List.length card_list)%nat ->
  card_grid card_list = (cols_count, rows_count, kept) ->
  card_size cols_count rows_count = Ok (card_w, card_h) ->
  Forall (fun r => in_content_area r = true)
         (card_regions cols_count card_w card_h (List.length kept)).
Proof.
  intros Hn Hgrid Hsize.
  destruct card_list as [| c1 [| c2 [| c3 [| c4 [| c5 [| c6 [| c7 rest]]]]]]];
    [simpl in Hn; lia | ..].
  all: cbv [card_grid] in Hgrid; cbn [List.length Nat.leb firstn] in Hgrid.
  all: injection Hgrid as <- <- <-.
  all: vm_compute in Hsize; injection Hsize as <- <-.
  all: apply in_content_area_all; vm_compute; reflexivity.
Qed.

Lemma cards_stay_in_content_area_witness :
  Forall (fun r => in_content_area r = true)
         (card_regions 3 (11600 # 3000) (4450 # 2000) 5).
Proof.
  apply (cards_stay_in_content_area (map sample_card ["a"; "b"; "c"; "d"; "e"]) 3 2
                                    (map sample_card ["a"; "b"; "c"; "d"; "e"])).
  - simpl; lia.
  - reflexivity.
  - vm_compute; reflexivity.
Defined.

End RowFacts.

(* ================================================================== *)
(** * Timeline geometry, text frames, tables and native charts *)
(* ================================================================== *)

Module FrameFacts.

Import Pptx Layout Observed.
Import BuilderFacts.
Local Open Scope list_scope.

(** ** The steps of the timeline *)

Lemma float_of_nat_pos (n : nat) : (1 <= n)%nat -> (0 < float_of_nat n)%Q.
Proof. intros H; unfold float_of_nat, Qlt; simpl; lia. Qed.

Lemma float_of_nat_le (i n : nat) :
  (i <= n)%nat -> (float_of_nat i <= float_of_nat n)%Q.
Proof. intros H; unfold float_of_nat, Qle; simpl; lia. Qed.

Lemma float_of_nat_S (i : nat) : (float_of_nat (S i) == float_of_nat i + 1)%Q.
Proof. unfold float_of_nat, Qeq; simpl; lia. Qed.

(** X11: on a timeline of [n >= 1] steps every marker is centred strictly
    inside the axis, consecutive markers are one step width apart, the
    markers of consecutive steps do not overlap exactly when [n <= 29], and
    the content boxes have a positive width exactly when [n <= 58]. *)
Theorem timeline_steps_fit (n i : nat) :
  (1 <= n)%nat -> (i < n)%nat ->
  let step_width := (timeline_length / float_of_nat n)%Q in
  (timeline_start_x < step_cx step_width i)%Q
  /\ (step_cx step_width i < timeline_start_x + timeline_length)%Q
  /\ (step_cx step_width (S i) - step_cx step_width i == step_width)%Q
  /\ ((n <= 29)%nat
      <-> (step_cx step_width i + node_size / 2
           <= step_cx step_width (S i) - node_size / 2)%Q)
  /\ ((n <= 58)%nat <-> (0 < step_width - 0.2)%Q).
Proof.
  intros Hn Hi step_width.
  pose proof (float_of_nat_pos n Hn) as HN.
  assert (HI0 : (0 <= float_of_nat i)%Q) by (unfold float_of_nat, Qle; simpl; lia).
  assert (HI : (float_of_nat i + 1 <= float_of_nat n)%Q)
    by (rewrite <- float_of_nat_S; apply float_of_nat_le; lia).
  assert (Hsw : (step_width * float_of_nat n == 11.7)%Q).
  { subst step_width; unfold timeline_length; field.
    intros H0; rewrite H0 in HN; apply (Qlt_irrefl 0); exact HN. }
  assert (Hpos : (0 < step_width)%Q).
  { subst step_width; unfold timeline_length.
    apply Qlt_shift_div_l; [exact HN | rewrite Qmult_0_l; reflexivity]. }
  assert (Hgap : (step_cx step_width (S i) - step_cx step_width i == step_width)%Q).
  { unfold step_cx; rewrite float_of_nat_S; ring. }
  generalize dependent step_width; intros sw Hsw Hpos Hgap.
  remember (float_of_nat n) as N eqn:EN.
  remember (float_of_nat i) as I eqn:EI.
  assert (Hm : (step_cx sw i + node_size / 2 <= step_cx sw (S i) - node_size / 2)%Q
               <-> (0.4 <= sw)%Q).
  { unfold node_size, Qdiv; change (/ 2)%Q with (1 # 2)%Q; split; intros H; lra. }
  split; [| split; [| split; [exact Hgap | split]]].
  - unfold step_cx, timeline_start_x, Qdiv; rewrite <- EI.
    change (/ 2)%Q with (1 # 2)%Q; nra.
  - unfold step_cx, timeline_start_x, timeline_length, Qdiv; rewrite <- EI.
    change (/ 2)%Q with (1 # 2)%Q.
    assert (I * sw + sw <= 11.7)%Q by nra.
    nra.
  - rewrite Hm; split; intros H.
    + assert (N <= 29)%Q by (subst N; unfold float_of_nat, Qle; simpl; lia).
      nra.
    + assert (H0 : (0.4 * N <= 11.7)%Q) by nra.
      subst N; unfold float_of_nat, Qle, Qmult, inject_Z in H0.
      cbn [Qnum Qden] in H0; lia.
  - split; intros H.
    + assert (N <= 58)%Q by (subst N; unfold float_of_nat, Qle; simpl; lia).
      nra.
    + assert (H0 : (0.2 * N < 11.7)%Q) by nra.
      subst N; unfold float_of_nat, Qlt, Qmult, inject_Z in H0.
      cbn [Qnum Qden] in H0; lia.
Qed.

Lemma timeline_steps_fit_witness :
  (step_cx (timeline_length / float_of_nat 3) 1 < timeline_start_x + timeline_length)%Q.
Proof.
  refine (proj1 (proj2 (timeline_steps_fit 3 1 _ _))); lia.
Defined.

(** ** Loops that collect results *)


Lemma map_result_from_inv {A B : Type} (f : nat -> A -> result B) (xs : list A) :
  forall start ys,
    map_result_from f start xs = Ok ys ->
    List.length ys = List.length xs
    /\ forall i x, nth_error xs i = Some x ->
                   exists y, nth_error ys i = Some y /\ f (start + i)%nat x = Ok y.
Proof.
  induction xs as [| x xs IH]; intros start ys H; simpl in H.
  - injection H as <-; split; [reflexivity |].
    intros [| i] x Hx; discriminate Hx.
  - bind_inv H; bind_inv H; injection H as <-.
    destruct (IH _ _ E0) as (Hlen & Hnth).
    split; [simpl; rewrite Hlen; reflexivity |].
    intros [| i] x' Hx; simpl in Hx.
    + injection Hx as <-; exists a; rewrite Nat.add_0_r; auto.
    + apply Hnth in Hx as (y & Hy & Hf); exists y; split; [exact Hy |].
      replace (start + S i)%nat with (S start + i)%nat by lia; exact Hf.
Qed.

(** What holds of every result holds of the collected list. *)
Lemma map_result_spec {A B C : Type} (f : A -> result B) (g : B -> C) (h : A -> C)
      (P : B -> Prop) (xs : list A) :
  (forall x y, f x = Ok y -> g y = h x /\ P y) ->
  forall ys, map_result f xs = Ok ys -> map g ys = map h xs /\ Forall P ys.
Proof.
  intros Hf; induction xs as [| x xs IH]; intros ys H; simpl in H.
  - injection H as <-; split; [reflexivity | constructor].
  - bind_inv H; bind_inv H; injection H as <-.
    destruct (Hf _ _ E) as (Hg & HP); destruct (IH _ E0) as (Hm & HF).
    split; [simpl; rewrite Hg, Hm; reflexivity | constructor; assumption].
Qed.


(** ** Text frames *)

Lemma flat_map_singletons {A B : Type} (g : A -> list B) (h : A -> B) (xs : list A) :
  (forall x, In x xs -> g x = [h x]) -> flat_map g xs = map h xs.
Proof.
  induction xs as [| x xs IH]; intros H; simpl; [reflexivity |].
  rewrite (H x (or_introl eq_refl)), IH; [reflexivity |].
  intros x' Hx; apply H; right; exact Hx.
Qed.

(** The paragraph written for a bullet item: its level and its one run. *)
Lemma bullet_paragraphs (f : BulletItem -> result Paragraph) (items : list BulletItem) :
  (forall item p, f item = Ok p ->
                  par_level p = bullet_level item
                  /\ map run_text (par_runs p) = [bullet_line item]) ->
  forall ps,
    map_result f items = Ok ps ->
    List.length ps = List.length items
    /\ map par_level ps = map bullet_level items
    /\ flat_map (fun p => map run_text (par_runs p)) ps = map bullet_line items.
Proof.
  intros Hf; induction items as [| item items IH]; intros ps H; simpl in H.
  - injection H as <-; repeat split.
  - bind_inv H; bind_inv H; injection H as <-.
    destruct (Hf _ _ E) as (Hl & Hr); destruct (IH _ E0) as (Hlen & Hlv & Htx).
    simpl; rewrite Hlen, Hl, Hlv, Hr, Htx; repeat split.
Qed.

(** X14: a text frame that [_add_text_to_frame] has filled always has at
    least one paragraph; the [text] key wins over [paragraphs] and
    [bullets]: the frame then holds that text in one run; a non-empty
    [bullets] list alone gives one paragraph per item, at the level of the
    item, whose text is the item behind two spaces per level and the bullet
    character. *)
Theorem text_frame_contents (cfg : TextConfig) (font : string) (fr : TextFrame) :
  _add_text_to_frame cfg font = Ok fr ->
  tf_paragraphs fr <> []
  /\ (forall t, text cfg = Some t ->
                frame_texts fr = [t] /\ List.length (tf_paragraphs fr) = 1%nat)
  /\ (forall items,
         text cfg = None -> paragraphs cfg = None -> bullets cfg = Some items ->
         items <> [] ->
         List.length (tf_paragraphs fr) = List.length items
         /\ map par_level (tf_paragraphs fr) = map bullet_level items
         /\ frame_texts fr = map bullet_line items).
Proof.
  intros H; split; [| split].
  - unfold _add_text_to_frame in H.
    destruct (text cfg); [| destruct (paragraphs cfg); [| destruct (bullets cfg)]].
    + bind_inv H; injection H as <-; discriminate.
    + bind_inv H; injection H as <-; cbn [tf_paragraphs].
      destruct a; discriminate.
    + bind_inv H; injection H as <-; cbn [tf_paragraphs].
      destruct a; discriminate.
    + injection H as <-; discriminate.
  - intros t Ht; split; [exact (text_frame_texts cfg font fr t Ht H) |].
    unfold _add_text_to_frame in H; rewrite Ht in H.
    bind_inv H; injection H as <-; reflexivity.
  - intros items Ht Hp Hb Hne.
    unfold _add_text_to_frame in H; rewrite Ht, Hp, Hb in H.
    bind_inv H; injection H as <-; cbn [tf_paragraphs].
    apply bullet_paragraphs in E as (Hlen & Hlv & Htx).
    + assert (Hw : written_paragraphs a = a).
      { destruct a; [destruct items; [contradiction | discriminate Hlen] | reflexivity]. }
      unfold frame_texts; cbn [tf_paragraphs]; rewrite Hw; auto.
    + clear; intros item p Hf.
      destruct item as [s | t l c b fs]; cbv beta iota zeta in Hf;
        unfold _set_run_style in Hf;
        repeat match goal with
               | H : Py.bind _ _ = Ok _ |- _ => bind_inv H
               end;
        repeat match goal with
               | H : Ok _ = Ok _ |- _ => injection H as <-
               end;
        split; reflexivity.
Qed.

Lemma text_frame_contents_witness :
  exists fr,
    _add_text_to_frame (bullets_config [BulletStr "one";
                                        BulletDict (Some "two") (Some 1%nat) None None None]
                                       "#333333") "Arial"
    = Ok fr
    /\ frame_texts fr = ["•  one"; "  •  two"].
Proof.
  assert (Hrun : exists fr,
             _add_text_to_frame
               (bullets_config [BulletStr "one";
                                BulletDict (Some "two") (Some 1%nat) None None None]
                               "#333333") "Arial"
             = Ok fr) by (eexists; vm_compute; reflexivity).
  destruct Hrun as (fr & Hrun); exists fr; split; [exact Hrun |].
  destruct (text_frame_contents _ _ _ Hrun) as (_ & _ & Hb).
  destruct (Hb _ eq_refl eq_refl eq_refl) as (_ & _ & Htx); [discriminate |].
  exact Htx.
Defined.

(** ** Tables *)

(** X12: for data whose first row is not empty, the table that
    [_add_styled_table] adds has one row per data row and as many columns
    as the first row has cells; row [r] is written with the first cells of
    the data row, up to that number of columns (a longer row is cut, a
    shorter one leaves cells unwritten), and its cells are bold exactly in
    the header row [r = 0]. *)
Theorem styled_table_shape (slide slide' : Slide) (cfg : TableConfig) (theme : Theme)
        (font : string) (first : list string) (rest : list (list string)) :
  data cfg = first :: rest ->
  first <> [] ->
  _add_styled_table slide cfg theme font = Ok slide' ->
  exists l t wd ht cells,
    shapes slide'
    = shapes slide
      ++ [TableShape (S (List.length rest)) (List.length first) l t wd ht cells]
    /\ List.length cells = S (List.length rest)
    /\ forall r row,
        nth_error (first :: rest) r = Some row ->
        exists written,
          nth_error cells r = Some written
          /\ map cell_text written = firstn (List.length first) row
          /\ Forall (fun c => cell_bold c = (r =? 0)%nat) written.
Proof.
  intros Hd Hne H; unfold _add_styled_table in H; rewrite Hd in H.
  destruct first as [| v0 vs]; [contradiction |].
  cbn [List.length Nat.eqb orb] in H.
  bind_inv H; bind_inv H; injection H as <-.
  apply map_result_from_inv in E0 as (Hlen & Hrows).
  do 5 eexists; split; [reflexivity |].
  split; [exact Hlen |].
  intros r row Hr.
  destruct (Hrows r row Hr) as (written & Hw & Hf).
  exists written; split; [exact Hw |].
  cbn [Nat.add] in Hf.
  eapply map_result_spec with (h := fun v => v) in Hf.
  - destruct Hf as (Hm & HF); rewrite map_id in Hm; split; [exact Hm | exact HF].
  - clear; intros v c Hc; cbv beta in Hc.
    destruct (r =? 0)%nat; bind_inv Hc; bind_inv Hc; bind_inv Hc; injection Hc as <-;
      split; reflexivity.
Qed.

Lemma styled_table_shape_witness :
  exists slide' l t wd ht cells,
    _add_styled_table blank_slide
      (mkTableConfig None None None None [["k"; "v"]; ["a"; "1"; "extra"]; ["b"]]
                     None None None None None)
      midnight "Arial"
    = Ok slide'
    /\ shapes slide' = [TableShape 3 2 l t wd ht cells]
    /\ map (map cell_text) cells = [["k"; "v"]; ["a"; "1"]; ["b"]].
Proof.
  assert (Hrun : exists slide',
             _add_styled_table blank_slide
               (mkTableConfig None None None None [["k"; "v"]; ["a"; "1"; "extra"]; ["b"]]
                              None None None None None)
               midnight "Arial"
             = Ok slide') by (eexists; vm_compute; reflexivity).
  destruct Hrun as (slide' & Hrun).
  destruct (styled_table_shape
              blank_slide slide'
              (mkTableConfig None None None None [["k"; "v"]; ["a"; "1"; "extra"]; ["b"]]
                             None None None None None)
              midnight "Arial" ["k"; "v"] [["a"; "1"; "extra"]; ["b"]]
              eq_refl ltac:(discriminate) Hrun)
    as (l & t & wd & ht & cells & Hs & Hlen & Hrows).
  exists slide', l, t, wd, ht, cells; split; [exact Hrun |]; split; [exact Hs |].
  destruct (Hrows 0%nat _ eq_refl) as (w0 & H0 & T0 & _).
  destruct (Hrows 1%nat _ eq_refl) as (w1 & H1 & T1 & _).
  destruct (Hrows 2%nat _ eq_refl) as (w2 & H2 & T2 & _).
  destruct cells as [| c0 [| c1 [| c2 [| ? ?]]]]; try discriminate Hlen.
  injection H0 as ->; injection H1 as ->; injection H2 as ->.
  simpl; rewrite T0, T1, T2; reflexivity.
Defined.

(** ** Native charts *)






End FrameFacts.

(* ================================================================== *)
(** * The dispatcher, the image slide and the presentation entry point *)
(* ================================================================== *)

Module DispatchFacts.

Import Pptx Layout Observed.
Import BuilderFacts.
Local Open Scope list_scope.

Section Dispatch.

Variable env : Env.
Variables (theme : Theme) (font workspace : string).

(** No builder of the registry reads the tag of the slide. *)
Lemma registry_ignores_tag (key : string) (b : Builder) :
  lookup key (SLIDE_BUILDERS env) = Some b ->
  forall a c sd prs,
    call4 b prs (with_slide_type a sd) theme font
    = call4 b prs (with_slide_type c sd) theme font
    /\ call5 b prs (with_slide_type a sd) theme font workspace
       = call5 b prs (with_slide_type c sd) theme font workspace.
Proof.
  unfold SLIDE_BUILDERS, lookup; intros H.
  repeat match type of H with
         | context [String.eqb ?k key] =>
             destruct (String.eqb k key);
             [injection H as <-; intros a c sd prs; split; reflexivity |]
         end.
  discriminate H.
Qed.

Lemma content_ignores_tag (a c : option string) (sd : SlideData) (prs : Presentation) :
  _build_content_slide env prs (with_slide_type a sd) theme font
  = _build_content_slide env prs (with_slide_type c sd) theme font.
Proof. reflexivity. Qed.

(** The dispatcher reads the tag only to choose the builder. *)
Lemma build_slide_by_key (a c : option string) (sd : SlideData) (prs : Presentation) :
  strip (lower (Py.get a "content")) = strip (lower (Py.get c "content")) ->
  build_slide env theme font workspace (with_slide_type a sd) prs
  = build_slide env theme font workspace (with_slide_type c sd) prs.
Proof.
  intros Hk; unfold build_slide; cbn [slide_type with_slide_type]; rewrite Hk.
  destruct (lookup (strip (lower (Py.get c "content"))) (SLIDE_BUILDERS env))
    as [b |] eqn:E.
  - destruct (registry_ignores_tag _ b E a c sd prs) as (H4 & H5).
    destruct (String.eqb (strip (lower (Py.get c "content"))) "image"); assumption.
  - apply content_ignores_tag.
Qed.

Lemma build_slide_alias (k k' : string) (sd : SlideData) (prs : Presentation) :
  strip (lower k) = k -> strip (lower k') = k' ->
  lookup k (SLIDE_BUILDERS env) = lookup k' (SLIDE_BUILDERS env) ->
  String.eqb k "image" = String.eqb k' "image" ->
  build_slide env theme font workspace (with_slide_type (Some k) sd) prs
  = build_slide env theme font workspace (with_slide_type (Some k') sd) prs.
Proof.
  intros Hk Hk' Hl Hi; unfold build_slide; cbn [slide_type with_slide_type Py.get].
  rewrite Hk, Hk', Hl, Hi.
  destruct (lookup k' (SLIDE_BUILDERS env)) as [b |] eqn:E.
  - destruct (registry_ignores_tag _ b E (Some k) (Some k') sd prs) as (H4 & H5).
    destruct (String.eqb k' "image"); assumption.
  - apply content_ignores_tag.
Qed.

End Dispatch.

(** X15: the dispatcher reads the tag of a slide only to choose the
    builder, and reads it lower-cased and trimmed: two tags that agree up
    to case and surrounding white space build the same slide; a slide with
    no tag is built as a content slide; and each alias of the registry
    builds what the tag it stands for builds. *)
Theorem dispatch_reads_normalised_tag (env : Env) (theme : Theme)
        (font workspace : string) (sd : SlideData) (prs : Presentation) :
  let build tag := build_slide env theme font workspace (with_slide_type tag sd) prs in
  (forall st st', strip (lower st) = strip (lower st') -> build (Some st) = build (Some st'))
  /\ build None = build (Some "content")
  /\ Forall (fun p => build (Some (fst p)) = build (Some (snd p))) tag_aliases.
Proof.
  intros build; subst build; cbv beta; split; [| split].
  - intros st st' H; apply build_slide_by_key; exact H.
  - apply build_slide_by_key; reflexivity.
  - unfold tag_aliases; repeat constructor; cbn [fst snd];
      apply build_slide_alias; reflexivity.
Qed.

(** ** The image slide *)

Lemma pictures_app (a b : list Shape) : pictures (a ++ b) = pictures a ++ pictures b.
Proof. unfold pictures; apply flat_map_app. Qed.

Lemma add_picture_inv env slide path l t wd ht slide' :
  shapes_add_picture env slide path l t wd ht = Ok slide' ->
  add_picture env path = Ok tt
  /\ slide' = add_shape slide (Picture path l t wd ht).
Proof.
  unfold shapes_add_picture; intros H; bind_inv H; injection H as <-.
  destruct a; auto.
Qed.

(** What the image builder has drawn when it returns. *)
Lemma image_slide_inv (env : Env) (prs prs' : Presentation) (sd : SlideData)
      (theme : Theme) (font workspace : string) :
  _build_image_slide env prs sd theme font workspace = Ok prs' ->
  let img_path := Py.get (image_path sd) "" in
  let full_path := if isabs img_path then img_path else path_join workspace img_path in
  exists slide,
    prs' = prs ++ [slide]
    /\ pictures (shapes slide)
       = (if truthy img_path && path_exists env full_path then [full_path] else [])
    /\ (truthy img_path && path_exists env full_path = true ->
        add_picture env full_path = Ok tt).
Proof.
  intros H img_path full_path; unfold _build_image_slide in H.
  change (add_slide prs) with (fst (add_slide prs), blank_slide) in H.
  cbv iota beta in H.
  fold img_path in H; fold full_path in H.
  bind_inv H; bind_inv H; bind_inv H; bind_inv H; bind_inv H; injection H as <-.
  apply apply_bg_solid_inv in E.
  apply title_bar_inv in E0
    as (bg & box & ul & Hs1 & _ & (c & ->) & (fr & -> & _) & (c' & ->)).
  apply footer_inv in E3 as (bar & num & Hs3 & (cb & ->) & (frn & -> & _)).
  exists a3; split; [apply drawn_add_slide |].
  rewrite Hs3, pictures_app; cbn [pictures flat_map app]; rewrite app_nil_r.
  assert (Hcap : pictures (shapes a2) = pictures (shapes a1)).
  { destruct (truthy (Py.get (caption sd) "")).
    - apply add_text_box_inv in E2 as (? & _ & ->).
      cbn [shapes add_shape]; rewrite pictures_app; cbn; apply app_nil_r.
    - injection E2 as <-; reflexivity. }
  assert (Hhead : pictures (shapes a0) = []) by (rewrite Hs1, E; reflexivity).
  rewrite Hcap.
  destruct (truthy img_path); cbn [andb];
    [| injection E1 as <-; split; [exact Hhead | discriminate]].
  destruct (path_exists env full_path);
    [| injection E1 as <-; split; [exact Hhead | discriminate]].
  destruct (description sd) as [d |]; [destruct (value_truthy d) |].
  - bind_inv E1.
    match goal with
    | Hp : shapes_add_picture _ _ _ _ _ _ _ = Ok _ |- _ =>
        apply add_picture_inv in Hp as (Hadd & ->)
    end.
    apply add_text_box_inv in E1 as (? & _ & ->).
    cbn [shapes add_shape]; rewrite !pictures_app, Hhead; split; [reflexivity | auto].
  - apply add_picture_inv in E1 as (Hadd & ->).
    cbn [shapes add_shape]; rewrite pictures_app, Hhead; split; [reflexivity | auto].
  - apply add_picture_inv in E1 as (Hadd & ->).
    cbn [shapes add_shape]; rewrite pictures_app, Hhead; split; [reflexivity | auto].
Qed.

(** Without a picture to add, the image builder runs to its end on a valid
    theme. *)
Lemma image_slide_without_picture (env : Env) (prs : Presentation) (sd : SlideData)
      (theme : Theme) (font workspace : string) :
  theme_ok theme = true ->
  let img_path := Py.get (image_path sd) "" in
  let full_path := if isabs img_path then img_path else path_join workspace img_path in
  truthy img_path && path_exists env full_path = false ->
  exists prs', _build_image_slide env prs sd theme font workspace = Ok prs'.
Proof.
  intros Hok img_path full_path Hno; unfold _build_image_slide.
  change (add_slide prs) with (fst (add_slide prs), blank_slide).
  cbv iota beta.
  fold img_path; fold full_path.
  destruct (bg_solid_ok theme Hok blank_slide "#FFFFFF") as (s0 & ->); cbn [Py.bind].
  destruct (title_bar_ok theme Hok font s0 (Py.get (title sd) "")) as (s1 & ->);
    cbn [Py.bind].
  assert (Hpic : (if truthy img_path
                  then if path_exists env full_path
                       then match description sd with
                            | Some description =>
                                if value_truthy description
                                then slide <- shapes_add_picture env s1 full_path
                                                                 0.8 1.5 7.5 5 ;;
                                     _add_text_box slide 8.8 1.5 4 5
                                       (setdefault_color
                                          (get_or theme "text_dark" "#333333")
                                          (setdefault_font_size 14
                                             (as_config description)))
                                       font
                                else shapes_add_picture env s1 full_path 1.5 1.5 10 5
                            | None => shapes_add_picture env s1 full_path 1.5 1.5 10 5
                            end
                       else Ok s1
                  else Ok s1) = Ok s1).
  { destruct (truthy img_path); [| reflexivity].
    destruct (path_exists env full_path); [discriminate Hno | reflexivity]. }
  rewrite Hpic; cbn [Py.bind].
  assert (Hcap : exists s2,
             (if truthy (Py.get (caption sd) "")
              then _add_text_box s1 0.8 6.5 11.5 0.5
                     (with_italic (literal (Py.get (caption sd) "") 12 "#888888"
                                           "CENTER"))
                     font
              else Ok s1) = Ok s2).
  { destruct (truthy (Py.get (caption sd) "")); [| eauto].
    eapply text_box_ok with (c := "#888888"); reflexivity. }
  destruct Hcap as (s2 & ->); cbn [Py.bind].
  destruct (footer_ok theme Hok font s2 (fst (add_slide prs))) as (s3 & ->);
    cbn [Py.bind].
  eauto.
Qed.

(** X17: on a valid theme, an image entry with no path, or with a path
    (joined to the workspace unless absolute) at which no file exists, is
    built without any error, as a slide without any picture; with a file
    there, the builder hands it to the writer, and raises what the writer
    raises on a file that it cannot read as an image; when the builder
    returns, the slide holds the picture at that path exactly when the path
    is not empty and a file exists there, which the writer then has
    read. *)
Theorem image_slide_pictures (env : Env) (prs : Presentation) (sd : SlideData)
        (theme : Theme) (font workspace : string) :
  theme_ok theme = true ->
  let img_path := Py.get (image_path sd) "" in
  let full_path := if isabs img_path then img_path else path_join workspace img_path in
  let present := truthy img_path && path_exists env full_path in
  let run := _build_image_slide env prs sd theme font workspace in
  (present = false ->
   exists slide, run = Ok (prs ++ [slide]) /\ pictures (shapes slide) = [])
  /\ (present = true ->
      forall e, add_picture env full_path = Raise e -> run = Raise e)
  /\ (forall prs',
         run = Ok prs' ->
         exists slide,
           prs' = prs ++ [slide]
           /\ pictures (shapes slide) = (if present then [full_path] else [])
           /\ (present = true -> add_picture env full_path = Ok tt)).
Proof.
  intros Hok img_path full_path present run; split; [| split].
  - intros Hno.
    destruct (image_slide_without_picture env prs sd theme font workspace Hok Hno)
      as (prs' & Hrun).
    destruct (image_slide_inv env prs prs' sd theme font workspace Hrun)
      as (slide & -> & Hpic & _).
    exists slide; split; [exact Hrun |].
    fold img_path in Hpic; fold full_path in Hpic; fold present in Hpic.
    rewrite Hno in Hpic; exact Hpic.
  - intros Hyes e He; subst run; unfold _build_image_slide.
    change (add_slide prs) with (fst (add_slide prs), blank_slide).
    cbv iota beta.
    fold img_path; fold full_path.
    destruct (bg_solid_ok theme Hok blank_slide "#FFFFFF") as (s0 & ->); cbn [Py.bind].
    destruct (title_bar_ok theme Hok font s0 (Py.get (title sd) "")) as (s1 & ->);
      cbn [Py.bind].
    apply andb_prop in Hyes as (Ht & Hp); rewrite Ht, Hp.
    unfold shapes_add_picture; rewrite He.
    destruct (description sd) as [d |]; [destruct (value_truthy d) |]; reflexivity.
  - intros prs' Hrun.
    exact (image_slide_inv env prs prs' sd theme font workspace Hrun).
Qed.

Lemma image_slide_pictures_witness :
  exists slide,
    _build_image_slide sample_env []
      (mkSlideData (Some "image") (Some "Site") None None None None None [] None None None
                   None [] [] None None [] [] None (Some "site.png") None None None [] []
                   None None None)
      midnight "Arial" "/ws"
    = Ok [slide]
    /\ pictures (shapes slide) = [].
Proof.
  destruct (image_slide_pictures
              sample_env []
              (mkSlideData (Some "image") (Some "Site") None None None None None [] None
                           None None None [] [] None None [] [] None (Some "site.png")
                           None None None [] [] None None None)
              midnight "Arial" "/ws" eq_refl)
    as (Hno & _).
  destruct (Hno eq_refl) as (slide & Hrun & Hpic).
  exists slide; split; assumption.
Defined.

(** ** The presentation entry point *)

(** X16: without a workspace the presentation entry point returns its
    error record and touches nothing; with one it never returns an error
    record: it returns the success record or raises.  The success record
    is returned only once the writer has saved the deck, at the file path
    joined to the workspace, or at the file path itself when it is
    absolute; it names the theme that was asked for, also when that name
    is not a preset and midnight was used. *)
Theorem presentation_entry_outcomes (env : Env) (file_path : string)
        (slides_content : list SlideData) (presentation_settings : option Settings) :
  let run := generate_pptx_presentation env file_path slides_content
                                        presentation_settings in
  (Py.get (option_map truthy (workspace_path env)) false = false ->
   run = Ok (Error "Workspace not configured. Please set up workspace first."))
  /\ forall workspace,
      workspace_path env = Some workspace -> truthy workspace = true ->
      (forall msg, run <> Ok (Error msg))
      /\ (forall e, save env (path_join workspace file_path) = Raise e ->
                    forall r, run <> Ok (Success r))
      /\ forall r,
          run = Ok (Success r) ->
          save env (path_join workspace file_path) = Ok tt
          /\ Py.file_path r = path_join workspace file_path
          /\ (isabs file_path = true -> Py.file_path r = file_path)
          /\ theme_name r
             = Some (Py.get (settings_theme (Py.get presentation_settings no_settings))
                            "midnight").
Proof.
  intros run; subst run; unfold generate_pptx_presentation; split.
  - destruct (workspace_path env) as [w |]; cbn [option_map Py.get];
      [intros ->; reflexivity | reflexivity].
  - intros workspace -> Ht; rewrite Ht; cbn [negb].
    split; [| split].
    + intros msg H; bind_inv H; bind_inv H; bind_inv H; discriminate H.
    + intros e He r H; bind_inv H; bind_inv H; bind_inv H; congruence.
    + intros r H; bind_inv H; bind_inv H; bind_inv H; injection H as <-.
      cbn [Py.file_path theme_name]; destruct a1.
      split; [exact E1 | split; [reflexivity | split; [| reflexivity]]].
      intros Habs; unfold path_join; rewrite Habs; reflexivity.
Qed.

End DispatchFacts.

(* ================================================================== *)
(** * tools/office_tools.py: colours, grouped bars, column widths, entry points *)
(* ================================================================== *)

Module OfficeFacts.

Import Office.
Local Open Scope list_scope.

(** ** Colour names *)

Lemma lstrip_head (s : string) (c : ascii) (rest : string) :
  lstrip s = String c rest -> is_space c = false.
Proof.
  induction s as [| a s IH]; simpl; [discriminate |].
  destruct (is_space a) eqn:E; [exact IH |].
  intros H; injection H as <- <-; exact E.
Qed.

Lemma lstrip_fixed (s : string) :
  match s with
  | EmptyString => True
  | String c _ => is_space c = false
  end ->
  lstrip s = s.
Proof. destruct s as [| c s]; simpl; [reflexivity | intros ->; reflexivity]. Qed.

Lemma rstrip_idem (s : string) : rstrip (rstrip s) = rstrip s.
Proof.
  induction s as [| c s IH]; simpl; [reflexivity |].
  destruct (rstrip s) as [| c' r] eqn:E.
  - destruct (is_space c) eqn:Ec; simpl; [reflexivity | rewrite Ec; reflexivity].
  - change (rstrip (String c (String c' r)))
      with (match rstrip (String c' r) with
            | EmptyString => if is_space c then EmptyString else String c EmptyString
            | String a b => String c (String a b)
            end).
    rewrite IH; reflexivity.
Qed.

Lemma rstrip_keeps_head (c : ascii) (s : string) :
  is_space c = false -> exists r, rstrip (String c s) = String c r.
Proof.
  intros Hc; simpl; destruct (rstrip s); [rewrite Hc |]; eauto.
Qed.

Lemma strip_idem (s : string) : strip (strip s) = strip s.
Proof.
  unfold strip.
  destruct (lstrip s) as [| c t] eqn:E; [reflexivity |].
  pose proof (lstrip_head s c t E) as Hc.
  destruct (rstrip_keeps_head c t Hc) as (r & Hr).
  rewrite (lstrip_fixed (rstrip (String c t))) by (rewrite Hr; exact Hc).
  apply rstrip_idem.
Qed.

Lemma strip_hash (s : string) :
  lstrip s = s -> lstrip_char "#" (strip (String "#" s)) = lstrip_char "#" (strip s).
Proof.
  intros Hs; unfold strip; rewrite Hs.
  change (lstrip (String "#" s)) with (String "#" s).
  change (rstrip (String "#" s))
    with (match rstrip s with
          | EmptyString => String "#" EmptyString
          | String a b => String "#" (String a b)
          end).
  destruct (rstrip s); reflexivity.
Qed.

Lemma named_values :
  forallb (fun v => (String.length v =? 6)%nat
                    && match _hex_to_rgb v with
                       | Ok _ => true
                       | Raise _ => false
                       end)
          (map snd named)
  = true.
Proof. vm_compute; reflexivity. Qed.

(** X18: [_parse_color] returns a string of six characters whenever the
    default has six (a named colour, the six characters given, or the
    default); an absent or empty colour gives the default; white space
    around the colour and a leading [#] do not change the result; and the
    value of every colour name is one that [_hex_to_rgb] accepts. *)
Theorem parse_color_shape (color_str : option string) (default : string) :
  (String.length default = 6%nat ->
   String.length (_parse_color color_str default) = 6%nat)
  /\ _parse_color None default = default
  /\ _parse_color (Some "") default = default
  /\ (forall s, _parse_color (Some (strip s)) default = _parse_color (Some s) default)
  /\ (forall s, s <> "" -> lstrip s = s ->
                _parse_color (Some ("#" ++ s)%string) default = _parse_color (Some s) default)
  /\ (forall name hex, Pptx.lookup name named = Some hex ->
                       exists rgb, _hex_to_rgb hex = Ok rgb).
Proof.
  split; [| split; [reflexivity | split; [reflexivity | split; [| split]]]].
  - intros Hd; unfold _parse_color.
    destruct color_str as [s |]; [| exact Hd].
    destruct (negb (truthy s)); [exact Hd |].
    destruct (Pptx.lookup (lower (lstrip_char "#" (strip s))) named) as [v |] eqn:E.
    + apply ThemeFacts.lookup_in in E.
      pose proof named_values as H; rewrite forallb_forall in H.
      specialize (H v E); apply andb_prop in H as (H & _).
      apply Nat.eqb_eq; exact H.
    + destruct (String.length (lstrip_char "#" (strip s)) =? 6)%nat eqn:E6;
        [apply Nat.eqb_eq; exact E6 | exact Hd].
  - intros s; unfold _parse_color.
    destruct s as [| c s]; [reflexivity |].
    destruct (strip (String c s)) as [| c' s'] eqn:E.
    + cbn [truthy negb]. 
      cbn [lstrip_char lower map_string Pptx.lookup named String.length Nat.eqb].
      reflexivity.
    + cbn [truthy negb]; rewrite <- E, strip_idem; reflexivity.
  - intros s Hne Hs; unfold _parse_color.
    destruct s as [| c s]; [contradiction |].
    cbn [String.append truthy negb].
    rewrite strip_hash by exact Hs; reflexivity.
  - intros name hex E.
    apply ThemeFacts.lookup_in in E.
    pose proof named_values as H; rewrite forallb_forall in H.
    specialize (H hex E); apply andb_prop in H as (_ & H).
    destruct (_hex_to_rgb hex) as [rgb |]; [eauto | discriminate H].
Qed.

(** ** Grouped bars *)

(** A loop whose body appends one call per turn. *)
Lemma append_loop {A : Type} (body : nat -> A -> list AxCall -> result (list AxCall))
      (f : nat -> A -> AxCall) :
  (forall i a calls, body i a calls = Ok (calls ++ [f i a])) ->
  forall (xs : list A) start calls,
    exists added,
      for_enumerate body start xs calls = Ok (calls ++ added)
      /\ List.length added = List.length xs
      /\ forall i a, nth_error xs i = Some a ->
                     nth_error added i = Some (f (start + i)%nat a).
Proof.
  intros Hbody; induction xs as [| a rest IH]; intros start calls.
  - exists []; simpl; rewrite app_nil_r; repeat split; auto.
    intros [| i] a Hi; discriminate Hi.
  - cbn [for_enumerate]; rewrite Hbody; cbn [Py.bind].
    destruct (IH (S start) (calls ++ [f start a])) as (added & Hloop & Hlen & Hnth).
    rewrite Hloop.
    exists (f start a :: added); split; [rewrite <- app_assoc; reflexivity |].
    split; [simpl; rewrite Hlen; reflexivity |].
    intros [| i] a' Hi; simpl in Hi.
    + injection Hi as <-; rewrite Nat.add_0_r; reflexivity.
    + apply Hnth in Hi; simpl.
      replace (start + S i)%nat with (S start + i)%nat by lia; exact Hi.
Qed.

(** X19: a bar chart ([bar], [grouped_bar] or any type that is not one of
    the six special ones), drawn without value labels over [n] categories
    with series that have a value for every category, draws one group of
    bars per series: the bars of series [i] are [0.8 / k] wide, [k] the
    number of series, and centred at [j + offset i] over category [j], with
    [offset i = (i - k/2 + 0.5) * width]; consecutive series touch without
    overlapping, and the group of a category spans exactly [0.8] around its
    tick, so that the groups of two categories never overlap. *)
Theorem grouped_bars_side_by_side (chart_type title : string) (categories : list string)
        (series_list : list Series) (colors : list string) (font_size : Q) :
  let n := List.length categories in
  let k := Nat.max (List.length series_list) 1 in
  let bar_width := (0.8 / float_of_nat k)%Q in
  let offset i := ((float_of_nat i - float_of_nat k / 2 + 0.5) * bar_width)%Q in
  colors <> [] ->
  existsb (String.eqb chart_type)
          ["pie"; "scatter"; "area"; "bar_horizontal"; "stacked_bar"; "line"] = false ->
  Forall (fun s => (n <= List.length (Py.get (values s) []))%nat) series_list ->
  exists bars,
    draw_chart chart_type title categories series_list colors false font_size
    = Ok (bars ++ [set_xticks (arange n);
                   set_xticklabels categories (rotation_for categories)])
    /\ List.length bars = List.length series_list
    /\ (forall i s,
          nth_error series_list i = Some s ->
          exists label color,
            nth_error bars i
            = Some (bar (map (fun v => (v + offset i)%Q) (arange n))
                        (firstn n (Py.get (values s) [])) bar_width (repeat 0%Q n)
                        label color)
            /\ List.length (firstn n (Py.get (values s) [])) = n)
    /\ (forall i, offset (S i) - bar_width / 2 == offset i + bar_width / 2)%Q
    /\ (offset 0%nat - bar_width / 2 == - 0.4)%Q
    /\ (offset (k - 1)%nat + bar_width / 2 == 0.4)%Q.
Proof.
  intros n k bar_width offset Hc Hty Hall.
  assert (Hk : (1 <= k)%nat) by (subst k; lia).
  assert (HK : ~ (float_of_nat k == 0)%Q).
  { unfold float_of_nat, Qeq; simpl; lia. }
  assert (Hrun : exists added,
             draw_chart chart_type title categories series_list colors false font_size
             = Ok (added ++ [set_xticks (arange n);
                             set_xticklabels categories (rotation_for categories)])
             /\ List.length added = List.length series_list
             /\ forall i s,
                 nth_error series_list i = Some s ->
                 nth_error added i
                 = Some (bar (map (fun v => (v + offset i)%Q) (arange n))
                             (firstn n (Py.get (values s) [])) bar_width (repeat 0%Q n)
                             (series_label s i)
                             (nth (i mod List.length colors) colors ""))).
  { unfold draw_chart.
    cbn [existsb] in Hty.
    repeat (apply orb_false_elim in Hty as (?E & Hty)).
    rewrite E, E0, E1, E2, E3, E4.
    fold n; fold k.
    rewrite (BuilderFacts.div_by_count 0.8%Q k Hk); cbn [Py.bind].
    fold bar_width.
    match goal with
    | |- context [for_enumerate ?body 0%nat series_list []] =>
        destruct (append_loop body
                    (fun i s => bar (map (fun v => (v + offset i)%Q) (arange n))
                                    (firstn n (Py.get (values s) [])) bar_width
                                    (repeat 0%Q n) (series_label s i)
                                    (nth (i mod List.length colors) colors "")))
          with (xs := series_list) (start := 0%nat) (calls := @nil AxCall)
          as (added & Hloop & Hlen & Hnth)
    end.
    - intros i s calls; unfold color_at.
      destruct colors; [contradiction | reflexivity].
    - rewrite Hloop; cbn [Py.bind app]; exists added; auto. }
  destruct Hrun as (bars & Hd & Hlen & Hnth).
  exists bars; split; [exact Hd | split; [exact Hlen | split; [| split; [| split]]]].
  - intros i s Hi.
    do 2 eexists; split; [exact (Hnth i s Hi) |].
    rewrite Forall_forall in Hall.
    rewrite length_firstn; apply Nat.min_l, Hall.
    eapply nth_error_In; exact Hi.
  - intros i; subst offset bar_width; cbv beta.
    rewrite FrameFacts.float_of_nat_S; field; exact HK.
  - subst offset bar_width; cbv beta.
    change (float_of_nat 0) with 0%Q; field; exact HK.
  - subst offset bar_width; cbv beta.
    assert (Hk1 : (float_of_nat (k - 1) == float_of_nat k - 1)%Q).
    { unfold float_of_nat, Qeq; simpl.
      rewrite Nat2Z.inj_sub by exact Hk; simpl; lia. }
    rewrite Hk1; field; exact HK.
Qed.

Lemma grouped_bars_side_by_side_witness :
  exists bars,
    draw_chart "bar" "Sales" ["north"; "south"]
               [ChartLayout.series_of [1; 2]%Q; ChartLayout.series_of [3; 4]%Q]
               default_colors false 11%Q
    = Ok (bars ++ [set_xticks (arange 2); set_xticklabels ["north"; "south"] 0%Q])
    /\ List.length bars = 2%nat.
Proof.
  destruct (grouped_bars_side_by_side "bar" "Sales" ["north"; "south"]
              [ChartLayout.series_of [1; 2]%Q; ChartLayout.series_of [3; 4]%Q]
              default_colors 11%Q)
    as (bars & Hd & Hl & _).
  - discriminate.
  - reflexivity.
  - repeat constructor.
  - exists bars; split; [exact Hd | exact Hl].
Defined.

End OfficeFacts.

(* ================================================================== *)
(** * The spreadsheet: cells written, widths of the columns; the entry points *)
(* ================================================================== *)

Module SheetFacts.

Import Office.
Local Open Scope list_scope.

Section Sheet.

Variable Value : Type.
Variable value_truthy : Value -> bool.
Variable value_str : Value -> string.

(** What the sheet holds once a row has been written. *)
Lemma write_row_get (row : list Value) :
  forall (ws : Worksheet Value) r c0 r' c',
    write_row Value ws r c0 row r' c'
    = match (if (r' =? r)%nat && (c0 <=? c')%nat then nth_error row (c' - c0) else None) with
      | Some v => v
      | None => ws r' c'
      end.
Proof.
  induction row as [| v rest IH]; intros ws r c0 r' c'; cbn [write_row].
  - destruct ((r' =? r)%nat && (c0 <=? c')%nat); [destruct (c' - c0)%nat |]; reflexivity.
  - rewrite IH; unfold set_cell.
    destruct (r' =? r)%nat eqn:Er; cbn [andb]; [| reflexivity].
    destruct (c0 <=? c')%nat eqn:E0; [apply Nat.leb_le in E0 | apply Nat.leb_gt in E0].
    + destruct (S c0 <=? c')%nat eqn:E1;
        [apply Nat.leb_le in E1 | apply Nat.leb_gt in E1].
      * replace (c' - c0)%nat with (S (c' - S c0)) by lia; cbn [nth_error].
        destruct (nth_error rest (c' - S c0)); [reflexivity |].
        replace (c' =? c0)%nat with false by (symmetry; apply Nat.eqb_neq; lia).
        reflexivity.
      * replace c' with c0 by lia.
        rewrite Nat.sub_diag, Nat.eqb_refl; reflexivity.
    + replace (S c0 <=? c')%nat with false by (symmetry; apply Nat.leb_gt; lia).
      replace (c' =? c0)%nat with false by (symmetry; apply Nat.eqb_neq; lia).
      reflexivity.
Qed.

(** What the sheet holds once the data has been written from row [r0]. *)
Lemma write_data_get (data : list (list Value)) :
  forall (ws : Worksheet Value) r0 r' c',
    write_data Value ws r0 data r' c'
    = match (if (r0 <=? r')%nat then nth_error data (r' - r0) else None) with
      | Some row =>
          match (if (1 <=? c')%nat then nth_error row (c' - 1) else None) with
          | Some v => v
          | None => ws r' c'
          end
      | None => ws r' c'
      end.
Proof.
  induction data as [| row rest IH]; intros ws r0 r' c'; cbn [write_data].
  - destruct (r0 <=? r')%nat; [destruct (r' - r0)%nat |]; reflexivity.
  - rewrite IH, !write_row_get.
    destruct (r0 <=? r')%nat eqn:E0; [apply Nat.leb_le in E0 | apply Nat.leb_gt in E0].
    + destruct (S r0 <=? r')%nat eqn:E1;
        [apply Nat.leb_le in E1 | apply Nat.leb_gt in E1].
      * replace (r' - r0)%nat with (S (r' - S r0)) by lia; cbn [nth_error].
        replace (r' =? r0)%nat with false by (symmetry; apply Nat.eqb_neq; lia).
        reflexivity.
      * replace r' with r0 by lia.
        rewrite Nat.sub_diag, Nat.eqb_refl; reflexivity.
    + replace (S r0 <=? r')%nat with false by (symmetry; apply Nat.leb_gt; lia).
      replace (r' =? r0)%nat with false by (symmetry; apply Nat.eqb_neq; lia).
      reflexivity.
Qed.

(** The longest row. *)
Lemma fold_max_ge (l : list nat) :
  forall acc, (acc <= fold_left Nat.max l acc)%nat
              /\ forall x, In x l -> (x <= fold_left Nat.max l acc)%nat.
Proof.
  induction l as [| y l IH]; intros acc; simpl; [split; [lia | tauto] |].
  destruct (IH (Nat.max acc y)) as (Hacc & Hin).
  split; [lia |].
  intros x [<- | Hx]; [lia | auto].
Qed.

Lemma max_row_length_ge (data : list (list Value)) (row : list Value) :
  In row data -> (List.length row <= max_row_length Value data)%nat.
Proof.
  destruct data as [| first rest]; [intros [] |]; cbn [max_row_length].
  destruct (fold_max_ge (map (@List.length Value) rest) (List.length first))
    as (Hacc & Hin).
  intros [<- | Hr]; [exact Hacc | apply Hin, in_map; exact Hr].
Qed.

(** The loop over the rows of a column computes the greatest length of the
    [str] of a truthy cell. *)
Lemma max_len_loop (ws : Worksheet Value) (c : nat) (rows : list nat) :
  forall acc,
    let step := fun max_len r_idx =>
                  let value := ws r_idx c in
                  if value_truthy value
                  then let cell_len := Py.len (value_str value) in
                       if (max_len <? cell_len)%nat then cell_len else max_len
                  else max_len in
    let m := fold_left step rows acc in
    (acc <= m)%nat
    /\ (forall r, In r rows -> value_truthy (ws r c) = true ->
                  (Py.len (value_str (ws r c)) <= m)%nat)
    /\ (m = acc
        \/ exists r, In r rows /\ value_truthy (ws r c) = true
                     /\ Py.len (value_str (ws r c)) = m).
Proof.
  induction rows as [| r0 rows IH]; intros acc step m.
  - subst m; simpl; split; [lia | split; [intros r [] | left; reflexivity]].
  - subst m; cbn [fold_left].
    destruct (IH (step acc r0)) as (Hacc & Hall & Hex).
    fold step in Hacc, Hall, Hex.
    assert (Hstep : (acc <= step acc r0)%nat
                    /\ (value_truthy (ws r0 c) = true ->
                        (Py.len (value_str (ws r0 c)) <= step acc r0)%nat)
                    /\ (step acc r0 = acc
                        \/ (value_truthy (ws r0 c) = true
                            /\ Py.len (value_str (ws r0 c)) = step acc r0))).
    { subst step; cbv beta zeta.
      destruct (value_truthy (ws r0 c)); [| split; [lia | split; [discriminate | auto]]].
      destruct (acc <? Py.len (value_str (ws r0 c)))%nat eqn:E;
        [apply Nat.ltb_lt in E | apply Nat.ltb_ge in E].
      - split; [lia | split; [lia | right; auto]].
      - split; [lia | split; [intros _; exact E | left; reflexivity]]. }
    destruct Hstep as (H1 & H2 & H3).
    split; [lia | split].
    + intros r [<- | Hr] Ht; [specialize (H2 Ht); lia | apply Hall; assumption].
    + destruct Hex as [Hm | (r & Hr & Ht & Hl)].
      * rewrite Hm; destruct H3 as [-> | (Ht & Hl)]; [left; reflexivity |].
        right; exists r0; split; [left; reflexivity | auto].
      * right; exists r; split; [right; exact Hr | auto].
Qed.

Lemma column_max_len_spec (ws : Worksheet Value) (rows c : nat) :
  (forall r, (1 <= r <= rows)%nat -> value_truthy (ws r c) = true ->
             (Py.len (value_str (ws r c))
              <= column_max_len Value value_truthy value_str ws rows c)%nat)
  /\ (column_max_len Value value_truthy value_str ws rows c = 0%nat
      \/ exists r, (1 <= r <= rows)%nat /\ value_truthy (ws r c) = true
                   /\ Py.len (value_str (ws r c))
                      = column_max_len Value value_truthy value_str ws rows c).
Proof.
  destruct (max_len_loop ws c (seq 1 rows) 0%nat) as (_ & Hall & Hex).
  split.
  - intros r Hr Ht; apply Hall; [apply in_seq; lia | exact Ht].
  - destruct Hex as [Hz | (r & Hr & Ht & Hl)]; [left; exact Hz | right].
    exists r; split; [apply in_seq in Hr; lia | auto].
Qed.

(** X20: when a sheet gives no column widths, one width is set for each
    column up to the length of the longest data row, and every width is
    between 10 and 50: it is the greatest length of the text of a
    non-empty cell of the column, plus 4, kept within these bounds.  A
    column is therefore at least 4 wider than each of its cells that is
    up to 46 characters long; on the sheet that the data loop has written,
    these cells are the data values. *)
Theorem auto_widths_fit (ws : Worksheet Value) (data : list (list Value)) :
  List.length (auto_widths Value value_truthy value_str ws data)
  = max_row_length Value data
  /\ (forall row, In row data -> (List.length row <= max_row_length Value data)%nat)
  /\ (forall c,
        (1 <= c <= max_row_length Value data)%nat ->
        exists width max_len,
          nth_error (auto_widths Value value_truthy value_str ws data) (c - 1)
          = Some (c, width)
          /\ width = Nat.min (Nat.max (max_len + 4) 10) 50
          /\ (10 <= width <= 50)%nat
          /\ (forall r, (1 <= r <= List.length data)%nat ->
                        value_truthy (ws r c) = true ->
                        (Py.len (value_str (ws r c)) <= max_len)%nat
                        /\ (Nat.min (Py.len (value_str (ws r c)) + 4) 50
                            <= width)%nat)
          /\ (max_len = 0%nat
              \/ exists r, (1 <= r <= List.length data)%nat
                           /\ value_truthy (ws r c) = true
                           /\ Py.len (value_str (ws r c)) = max_len))
  /\ (forall ws0 i j row v,
        nth_error data i = Some row -> nth_error row j = Some v ->
        write_data Value ws0 1 data (S i) (S j) = v).
Proof.
  split; [| split; [| split]].
  - unfold auto_widths; rewrite length_map, length_seq; reflexivity.
  - apply max_row_length_ge.
  - intros c Hc.
    exists (auto_width Value value_truthy value_str ws (List.length data) c),
           (column_max_len Value value_truthy value_str ws (List.length data) c).
    destruct (column_max_len_spec ws (List.length data) c) as (Hall & Hex).
    split; [| split; [reflexivity | split; [unfold auto_width; lia | split]]].
    + unfold auto_widths.
      rewrite nth_error_map.
      replace (nth_error (seq 1 (max_row_length Value data)) (c - 1)) with (Some c);
        [reflexivity |].
      symmetry; rewrite nth_error_nth' with (d := 0%nat) by (rewrite length_seq; lia).
      rewrite seq_nth by lia; f_equal; lia.
    + intros r Hr Ht.
      specialize (Hall r Hr Ht).
      split; [exact Hall | unfold auto_width; lia].
    + exact Hex.
  - intros ws0 i j row v Hi Hj.
    rewrite write_data_get.
    cbn [Nat.leb Nat.sub]; rewrite !Nat.sub_0_r, Hi, Hj; reflexivity.
Qed.

End Sheet.

(** A cell of twenty accented letters, forty bytes, is twenty characters
    long: its column is 24 wide. *)
Lemma auto_widths_fit_witness :
  nth_error
    (auto_widths string truthy (fun s => s)
                 (write_data string (fun _ _ => "") 1 [["éééééééééééééééééééé"]])
                 [["éééééééééééééééééééé"]])
    0
  = Some (1%nat, 24%nat)
  /\ String.length "éééééééééééééééééééé" = 40%nat.
Proof.
  split; [| reflexivity].
  destruct (auto_widths_fit string truthy (fun s => s)
              (write_data string (fun _ _ => "") 1 [["éééééééééééééééééééé"]])
              [["éééééééééééééééééééé"]])
    as (_ & _ & Hcol & _).
  destruct (Hcol 1%nat) as (width & max_len & Hn & _); [vm_compute; lia |].
  change (1 - 1)%nat with 0%nat in Hn; rewrite Hn.
  vm_compute in Hn; injection Hn as <-; reflexivity.
Defined.

(** ** The word and spreadsheet entry points *)

(** X21: with a workspace, the word and spreadsheet generators raise only
    what happens before their [try]: creating the output directory and
    applying the document settings.  Once these are done they always return
    a record: the success record, with the file path joined to the
    workspace, when the loop over the blocks and the save both returned,
    and otherwise the error record that carries the text of the exception
    behind the prefix of the generator. *)
Theorem document_entry_outcomes (env : Env) (Doc Block : Type)
        (apply_settings : result Doc) (render : Block -> Doc -> result Doc)
        (str_exn : exn -> string) (prefix saved_to file_path workspace : string)
        (blocks : list Block) :
  workspace_path env = Some workspace ->
  truthy workspace = true ->
  let full_path := path_join workspace file_path in
  let out_dir := if truthy (dirname full_path) then dirname full_path else workspace in
  let run := generate_document env Doc Block apply_settings render str_exn prefix
                               saved_to file_path blocks in
  (forall e, makedirs env out_dir = Raise e -> run = Raise e)
  /\ (forall e, makedirs env out_dir = Ok tt -> apply_settings = Raise e -> run = Raise e)
  /\ forall doc,
      makedirs env out_dir = Ok tt -> apply_settings = Ok doc ->
      (forall e,
          (d <- for_each render blocks doc ;; save env full_path) = Raise e ->
          run = Ok (Error (prefix ++ str_exn e)%string))
      /\ ((d <- for_each render blocks doc ;; save env full_path) = Ok tt ->
          run = Ok (Success (mkSuccess full_path None None (saved_to ++ file_path)%string))).
Proof.
  intros Hw Ht full_path out_dir run; subst run; unfold generate_document.
  rewrite Hw, Ht; cbn [negb]; fold full_path; fold out_dir.
  split; [| split].
  - intros e ->; reflexivity.
  - intros e -> ->; reflexivity.
  - intros doc -> ->; cbn [Py.bind]; split.
    + intros e ->; reflexivity.
    + intros ->; reflexivity.
Qed.

Lemma document_entry_outcomes_witness :
  generate_word_document Layout.full_disk_env unit unit (Ok tt) (fun _ d => Ok d)
                         (fun _ => "No space left on device") "report.docx" [tt]
  = Ok (Error "Word generation error: No space left on device").
Proof.
  refine (proj1 (proj2 (proj2
            (document_entry_outcomes Layout.full_disk_env unit unit (Ok tt)
               (fun _ d => Ok d) (fun _ => "No space left on device")
               "Word generation error: " "Word document saved to " "report.docx" "/ws"
               [tt] eq_refl eq_refl)) tt eq_refl eq_refl) OSError eq_refl).
Defined.

End SheetFacts.

(* ================================================================== *)
(** * How the slides are composed *)
(* ================================================================== *)

Module ComposeFacts.

Import Pptx Layout Observed.
Import BuilderFacts.
Local Open Scope list_scope.

(** ** Elements of the content slide *)

Lemma add_element_inv env slide elem theme font slide' :
  _add_element env slide elem theme font = Ok slide' ->
  exists added,
    shapes slide' = shapes slide ++ added /\ (List.length added <= 1)%nat.
Proof.
  unfold _add_element; intros H.
  destruct (String.eqb (Py.get (e_type elem) "text") "text").
  { apply add_text_box_inv in H as (fr & _ & ->); eexists; split; [reflexivity |].
    simpl; lia. }
  destruct (String.eqb (Py.get (e_type elem) "text") "shape").
  { bind_inv H; bind_inv H; bind_inv H; bind_inv H; injection H as <-.
    eexists; split; [reflexivity | simpl; lia]. }
  destruct (String.eqb (Py.get (e_type elem) "text") "image").
  { destruct (path_exists env _).
    - apply DispatchFacts.add_picture_inv in H as (_ & ->).
      eexists; split; [reflexivity | simpl; lia].
    - injection H as <-.
      exists []; rewrite app_nil_r; split; [reflexivity | simpl; lia]. }
  destruct (String.eqb (Py.get (e_type elem) "text") "chart").
  { unfold _add_native_chart in H; bind_inv H; bind_inv H; injection H as <-.
    eexists; split; [reflexivity | simpl; lia]. }
  destruct (String.eqb (Py.get (e_type elem) "text") "table").
  { unfold _add_styled_table in H.
    destruct (data (table_of_element elem)) as [| first rest];
      [injection H as <-; exists []; rewrite app_nil_r; split; [reflexivity | simpl; lia] |].
    destruct ((List.length (first :: rest) =? 0)%nat || (List.length first =? 0)%nat);
      [injection H as <-; exists []; rewrite app_nil_r; split; [reflexivity | simpl; lia] |].
    bind_inv H; bind_inv H; injection H as <-.
    eexists; split; [reflexivity | simpl; lia]. }
  injection H as <-; exists []; rewrite app_nil_r; split; [reflexivity | simpl; lia].
Qed.

Lemma elements_loop_inv env theme font (elems : list Element) :
  forall slide slide',
    for_each (fun elem slide => _add_element env slide elem theme font) elems slide
    = Ok slide' ->
    exists added,
      shapes slide' = shapes slide ++ added
      /\ (List.length added <= List.length elems)%nat.
Proof.
  induction elems as [| elem rest IH]; intros slide slide' H; simpl in H.
  - injection H as <-; exists []; rewrite app_nil_r; split; [reflexivity | simpl; lia].
  - bind_inv H.
    apply add_element_inv in E as (a1 & Hs1 & Hl1).
    apply IH in H as (a2 & Hs2 & Hl2).
    exists (a1 ++ a2); split; [rewrite Hs2, Hs1, app_assoc; reflexivity |].
    rewrite length_app; simpl; lia.
Qed.

(** X22: when the content builder returns, it has added one slide made
    of the title bar, a body and the footer with the number of the slide;
    the body holds at most one text box for the content and at most one
    shape per element, in the order of the elements: an element adds its
    shape, or nothing (an unknown type, an image whose file is missing, a
    table without data), and whatever the element does not raise is not
    reported. *)
Theorem content_slide_composition (env : Env) (prs prs' : Presentation)
        (sd : SlideData) (theme : Theme) (font : string) :
  _build_content_slide env prs sd theme font = Ok prs' ->
  exists slide bg box underline body bar number,
    prs' = prs ++ [slide]
    /\ shapes slide = [bg; box; underline] ++ body ++ [bar; number]
    /\ is_title_bar (Py.get (title sd) "") bg box underline
    /\ is_footer (S (List.length prs)) bar number
    /\ (List.length body <= 1 + List.length (elements sd))%nat
    /\ (content sd = None -> (List.length body <= List.length (elements sd))%nat).
Proof.
  intros H; unfold _build_content_slide in H.
  change (add_slide prs) with (fst (add_slide prs), blank_slide) in H.
  cbv iota beta in H.
  bind_inv H; bind_inv H; bind_inv H; bind_inv H; bind_inv H; injection H as <-.
  apply apply_bg_solid_inv in E.
  apply title_bar_inv in E0 as (bg & box & ul & Hs1 & _ & Htb).
  apply elements_loop_inv in E2 as (added & Hs2 & Hl2).
  apply footer_inv in E3 as (bar & num & Hs3 & Hf).
  rewrite length_add_slide in Hf.
  assert (Hbody : exists txt,
             shapes a1 = shapes a0 ++ txt
             /\ (List.length txt <= 1)%nat
             /\ (content sd = None -> txt = [])).
  { destruct (content sd) as [v |]; [destruct (value_truthy v) |].
    - apply add_text_box_inv in E1 as (fr & _ & ->).
      eexists; split; [reflexivity | split; [simpl; lia | discriminate]].
    - injection E1 as <-; exists []; rewrite app_nil_r; repeat split; simpl; lia.
    - injection E1 as <-; exists []; rewrite app_nil_r; repeat split; simpl; lia. }
  destruct Hbody as (txt & Hs12 & Hl1 & Hnone).
  exists a3, bg, box, ul, (txt ++ added), bar, num.
  split; [apply drawn_add_slide |].
  split; [rewrite Hs3, Hs2, Hs12, Hs1, E; cbn [shapes blank_slide app];
          rewrite <- !app_assoc; reflexivity |].
  split; [exact Htb | split; [exact Hf |]].
  rewrite length_app; split; [lia |].
  intros Hc; rewrite (Hnone Hc); simpl; lia.
Qed.

Lemma content_slide_composition_witness :
  exists slide,
    _build_content_slide sample_env []
      (mkSlideData None (Some "Notes") None None None None (Some (AsStr "body"))
                   [mkElement (Some "hologram") None None None None empty_config None None
                              None None None empty_chart_config [] None None None None]
                   None None None None [] [] None None [] [] None None None None None []
                   [] None None None)
      midnight "Arial"
    = Ok [slide]
    /\ (List.length (shapes slide) <= 7)%nat.
Proof.
  assert (Hrun : exists prs',
             _build_content_slide sample_env []
               (mkSlideData None (Some "Notes") None None None None (Some (AsStr "body"))
                            [mkElement (Some "hologram") None None None None empty_config
                                       None None None None None empty_chart_config []
                                       None None None None]
                            None None None None [] [] None None [] [] None None None None
                            None [] [] None None None)
               midnight "Arial"
             = Ok prs') by (eexists; vm_compute; reflexivity).
  destruct Hrun as (prs' & Hrun).
  destruct (content_slide_composition _ _ _ _ _ _ Hrun)
    as (slide & bg & box & ul & body & bar & num & Hp & Hs & _ & _ & Hl & _).
  exists slide; split; [rewrite Hrun, Hp; reflexivity |].
  rewrite Hs; cbn [List.length app]; rewrite length_app; simpl in Hl |- *; lia.
Defined.

(** ** The slides with two cards *)

Ltac furniture :=
  repeat match goal with
         | H : title_bar _ _ _ _ = Ok _ |- _ =>
             apply title_bar_inv in H
               as (? & ? & ? & ? & _ & (? & ->) & (? & -> & _) & (? & ->))
         | H : _add_slide_footer _ _ _ _ = Ok _ |- _ =>
             apply footer_inv in H as (? & ? & ? & (? & ->) & (? & -> & _))
         | H : _apply_bg_solid _ _ = Ok _ |- _ => apply apply_bg_solid_inv in H
         end.

Ltac two_cards f :=
  intros H; unfold f, two_column_side in H;
  change (add_slide ?p) with (fst (add_slide p), blank_slide) in H;
  cbv iota beta in H;
  walk_all; shapes_added; furniture;
  (eexists; split; [apply drawn_add_slide |]);
  repeat match goal with
         | Hs : shapes _ = _ |- _ => rewrite Hs; clear Hs
         | _ => progress cbn [shapes add_shape blank_slide]
         end;
  rewrite ?card_backgrounds_app; cbn; reflexivity.

Lemma two_column_cards prs sd theme font prs' :
  _build_two_column_slide prs sd theme font = Ok prs' ->
  exists slide,
    prs' = prs ++ [slide]
    /\ card_backgrounds (shapes slide)
       = [mkRegion 0.5 1.5 5.9 5.2; mkRegion 6.9 1.5 5.9 5.2]%Q.
Proof. two_cards _build_two_column_slide. Qed.

Lemma comparison_cards prs sd theme font prs' :
  _build_comparison_slide prs sd theme font = Ok prs' ->
  exists slide,
    prs' = prs ++ [slide]
    /\ card_backgrounds (shapes slide)
       = [mkRegion 0.5 1.5 5.9 5.2; mkRegion 6.9 1.5 5.9 5.2]%Q.
Proof. two_cards _build_comparison_slide. Qed.

(** X23: when the two-column builder or the comparison builder returns, the
    slide that it added has exactly two cards, the left one at
    [x = 0.5] and the right one at [x = 6.9], both 5.9 wide and 5.2 high
    from [y = 1.5]; the two cards do not overlap and lie inside the side
    margins, below the title bar and above the footer. *)
Theorem two_card_slides_layout (prs prs' : Presentation) (sd : SlideData)
        (theme : Theme) (font : string) :
  _build_two_column_slide prs sd theme font = Ok prs'
  \/ _build_comparison_slide prs sd theme font = Ok prs' ->
  let left_card := mkRegion 0.5 1.5 5.9 5.2 in
  let right_card := mkRegion 6.9 1.5 5.9 5.2 in
  exists slide,
    prs' = prs ++ [slide]
    /\ card_backgrounds (shapes slide) = [left_card; right_card]
    /\ disjoint left_card right_card
    /\ in_content_area left_card = true
    /\ in_content_area right_card = true.
Proof.
  intros H left_card right_card.
  assert (Hc : exists slide,
             prs' = prs ++ [slide]
             /\ card_backgrounds (shapes slide) = [left_card; right_card])
    by (destruct H as [H | H]; [apply two_column_cards in H | apply comparison_cards in H];
        exact H).
  destruct Hc as (slide & Hp & Hbg).
  exists slide; split; [exact Hp | split; [exact Hbg | split; [| split; reflexivity]]].
  apply disjointb_sound; reflexivity.
Qed.

Lemma two_card_slides_layout_witness :
  exists slide,
    _build_comparison_slide [] (with_title (Some "Build or buy") empty_slide_data)
                            midnight "Arial"
    = Ok [slide]
    /\ List.length (card_backgrounds (shapes slide)) = 2%nat.
Proof.
  assert (Hrun : exists prs',
             _build_comparison_slide [] (with_title (Some "Build or buy") empty_slide_data)
                                     midnight "Arial"
             = Ok prs') by (eexists; vm_compute; reflexivity).
  destruct Hrun as (prs' & Hrun).
  destruct (two_card_slides_layout _ _ _ _ _ (or_intror Hrun)) as (slide & Hp & Hbg & _).
  exists slide; split; [rewrite Hrun, Hp; reflexivity | rewrite Hbg; reflexivity].
Defined.

End ComposeFacts.

(* ================================================================== *)
(** * A slide depends on its entry and on its position only *)
(* ================================================================== *)

Module PositionFacts.

Import Pptx Layout Observed.
Import BuilderFacts.
Local Open Scope list_scope.

Lemma footer_by_length slide (prs prs2 : Presentation) theme font :
  List.length prs = List.length prs2 ->
  _add_slide_footer slide prs theme font = _add_slide_footer slide prs2 theme font.
Proof.
  intros H; unfold _add_slide_footer.
  destruct (item theme "accent"); cbn [Py.bind]; [| reflexivity].
  destruct (_add_decorative_bar slide 0 7.2 13.333 0.04 a); cbn [Py.bind];
    [| reflexivity].
  rewrite H; reflexivity.
Qed.

Lemma drawn_same_slide (prs prs2 : Presentation) (s slide : Slide) :
  Ok (drawn (fst (add_slide prs)) s) = Ok (prs ++ [slide]) ->
  Ok (drawn (fst (add_slide prs2)) s) = Ok (prs2 ++ [slide]).
Proof.
  intros H.
  assert (H' : drawn (fst (add_slide prs)) s = prs ++ [slide]) by congruence.
  rewrite drawn_add_slide in H'.
  apply app_inv_head in H'.
  assert (Hs : s = slide) by congruence.
  rewrite drawn_add_slide, Hs; reflexivity.
Qed.

(** Walks down a builder that returned on one deck and, in step, down the
    same builder on a deck of the same length. *)
Ltac lockstep H Hlen :=
  repeat (try rewrite (footer_by_length _ _ _ _ _ Hlen);
          match type of H with
          | Py.bind ?m _ = Ok _ =>
              destruct m eqn:?; [cbn [Py.bind] in H |- * | discriminate H]
          | (let (_, _) := ?p in _) = Ok _ => destruct p
          | (if ?c then _ else _) = Ok _ => destruct c
          | match ?o with Some _ => _ | None => _ end = Ok _ => destruct o
          end).

Ltac same_slide f p p2 :=
  intros H Hl;
  assert (Hlen : List.length (fst (add_slide p2)) = List.length (fst (add_slide p)))
    by (rewrite !length_add_slide; lia);
  unfold f in H |- *;
  change (add_slide ?q) with (fst (add_slide q), blank_slide) in H;
  change (add_slide ?q) with (fst (add_slide q), blank_slide);
  cbv iota beta in H |- *;
  lockstep H Hlen;
  exact (drawn_same_slide _ _ _ _ H).

Section OneSlide.

Variable env : Env.
Variables (prs prs2 : Presentation) (slide : Slide) (sd : SlideData) (theme : Theme).
Variables (font workspace : string).

Lemma title_same_slide :
  _build_title_slide prs sd theme font = Ok (prs ++ [slide]) ->
  List.length prs2 = List.length prs ->
  _build_title_slide prs2 sd theme font = Ok (prs2 ++ [slide]).
Proof. same_slide _build_title_slide prs prs2. Qed.

Lemma section_same_slide :
  _build_section_slide prs sd theme font = Ok (prs ++ [slide]) ->
  List.length prs2 = List.length prs ->
  _build_section_slide prs2 sd theme font = Ok (prs2 ++ [slide]).
Proof. same_slide _build_section_slide prs prs2. Qed.

Lemma content_same_slide :
  _build_content_slide env prs sd theme font = Ok (prs ++ [slide]) ->
  List.length prs2 = List.length prs ->
  _build_content_slide env prs2 sd theme font = Ok (prs2 ++ [slide]).
Proof. same_slide _build_content_slide prs prs2. Qed.

Lemma two_column_same_slide :
  _build_two_column_slide prs sd theme font = Ok (prs ++ [slide]) ->
  List.length prs2 = List.length prs ->
  _build_two_column_slide prs2 sd theme font = Ok (prs2 ++ [slide]).
Proof. same_slide _build_two_column_slide prs prs2. Qed.

Lemma three_column_same_slide :
  _build_three_column_slide prs sd theme font = Ok (prs ++ [slide]) ->
  List.length prs2 = List.length prs ->
  _build_three_column_slide prs2 sd theme font = Ok (prs2 ++ [slide]).
Proof. same_slide _build_three_column_slide prs prs2. Qed.

Lemma cards_same_slide :
  _build_cards_slide prs sd theme font = Ok (prs ++ [slide]) ->
  List.length prs2 = List.length prs ->
  _build_cards_slide prs2 sd theme font = Ok (prs2 ++ [slide]).
Proof. same_slide _build_cards_slide prs prs2. Qed.

Lemma chart_same_slide :
  _build_chart_slide prs sd theme font = Ok (prs ++ [slide]) ->
  List.length prs2 = List.length prs ->
  _build_chart_slide prs2 sd theme font = Ok (prs2 ++ [slide]).
Proof. same_slide _build_chart_slide prs prs2. Qed.

Lemma stats_same_slide :
  _build_stats_slide prs sd theme font = Ok (prs ++ [slide]) ->
  List.length prs2 = List.length prs ->
  _build_stats_slide prs2 sd theme font = Ok (prs2 ++ [slide]).
Proof. same_slide _build_stats_slide prs prs2. Qed.

Lemma timeline_same_slide :
  _build_timeline_slide prs sd theme font = Ok (prs ++ [slide]) ->
  List.length prs2 = List.length prs ->
  _build_timeline_slide prs2 sd theme font = Ok (prs2 ++ [slide]).
Proof. same_slide _build_timeline_slide prs prs2. Qed.

Lemma table_same_slide :
  _build_table_slide prs sd theme font = Ok (prs ++ [slide]) ->
  List.length prs2 = List.length prs ->
  _build_table_slide prs2 sd theme font = Ok (prs2 ++ [slide]).
Proof. same_slide _build_table_slide prs prs2. Qed.

Lemma image_same_slide :
  _build_image_slide env prs sd theme font workspace = Ok (prs ++ [slide]) ->
  List.length prs2 = List.length prs ->
  _build_image_slide env prs2 sd theme font workspace = Ok (prs2 ++ [slide]).
Proof. same_slide _build_image_slide prs prs2. Qed.

Lemma comparison_same_slide :
  _build_comparison_slide prs sd theme font = Ok (prs ++ [slide]) ->
  List.length prs2 = List.length prs ->
  _build_comparison_slide prs2 sd theme font = Ok (prs2 ++ [slide]).
Proof. same_slide _build_comparison_slide prs prs2. Qed.

Lemma quote_same_slide :
  _build_quote_slide prs sd theme font = Ok (prs ++ [slide]) ->
  List.length prs2 = List.length prs ->
  _build_quote_slide prs2 sd theme font = Ok (prs2 ++ [slide]).
Proof. same_slide _build_quote_slide prs prs2. Qed.

Lemma ending_same_slide :
  _build_ending_slide prs sd theme font = Ok (prs ++ [slide]) ->
  List.length prs2 = List.length prs ->
  _build_ending_slide prs2 sd theme font = Ok (prs2 ++ [slide]).
Proof. same_slide _build_ending_slide prs prs2. Qed.

Lemma build_slide_same_slide :
  build_slide env theme font workspace sd prs = Ok (prs ++ [slide]) ->
  List.length prs2 = List.length prs ->
  build_slide env theme font workspace sd prs2 = Ok (prs2 ++ [slide]).
Proof.
  unfold build_slide.
  generalize (strip (lower (Py.get (slide_type sd) "content"))) as st.
  intros st H Hl.
  unfold SLIDE_BUILDERS, lookup in H |- *.
  repeat match type of H with
         | context [String.eqb ?k st] =>
             let E := fresh "E" in
             destruct (String.eqb k st) eqn:E;
             [apply String.eqb_eq in E; subst st;
              cbv [String.eqb Ascii.eqb Bool.eqb call4 call5] in H |- *
             | cbv iota in H |- *]
         end.
  all: first [ apply title_same_slide; assumption
             | apply section_same_slide; assumption
             | apply content_same_slide; assumption
             | apply two_column_same_slide; assumption
             | apply three_column_same_slide; assumption
             | apply cards_same_slide; assumption
             | apply chart_same_slide; assumption
             | apply stats_same_slide; assumption
             | apply timeline_same_slide; assumption
             | apply table_same_slide; assumption
             | apply image_same_slide; assumption
             | apply comparison_same_slide; assumption
             | apply quote_same_slide; assumption
             | apply ending_same_slide; assumption ].
Qed.

End OneSlide.

(** X24: a slide depends on its own entry, on the theme and on its position
    in the deck, and on nothing else of the deck: when the dispatcher has
    built the slide of an entry after a deck, it builds the very same slide
    from that entry after any other deck with the same number of slides;
    the slides that come before are left as they were. *)
Theorem slide_depends_on_position_only (env : Env) (theme : Theme)
        (font workspace : string) (sd : SlideData) (prs prs' prs2 : Presentation) :
  build_slide env theme font workspace sd prs = Ok prs' ->
  List.length prs2 = List.length prs ->
  exists slide,
    prs' = prs ++ [slide]
    /\ build_slide env theme font workspace sd prs2 = Ok (prs2 ++ [slide]).
Proof.
  intros H Hl.
  destruct (build_slide_adds _ _ _ _ _ _ _ H) as ((slide & ->) & _).
  exists slide; split; [reflexivity |].
  eapply build_slide_same_slide; eassumption.
Qed.

Lemma slide_depends_on_position_only_witness :
  exists slide,
    build_slide sample_env midnight "Arial" "/ws"
                (with_title (Some "Plan") (with_slide_type (Some "cards") empty_slide_data))
                [blank_slide]
    = Ok [blank_slide; slide]
    /\ build_slide sample_env midnight "Arial" "/ws"
                   (with_title (Some "Plan")
                               (with_slide_type (Some "cards") empty_slide_data))
                   [mkSlide (SolidBackground (mkRGB 0 0 0)) []]
       = Ok [mkSlide (SolidBackground (mkRGB 0 0 0)) []; slide].
Proof.
  assert (Hrun : exists prs',
             build_slide sample_env midnight "Arial" "/ws"
                         (with_title (Some "Plan")
                                     (with_slide_type (Some "cards") empty_slide_data))
                         [blank_slide]
             = Ok prs') by (eexists; vm_compute; reflexivity).
  destruct Hrun as (prs' & Hrun).
  destruct (slide_depends_on_position_only
              sample_env midnight "Arial" "/ws"
              (with_title (Some "Plan") (with_slide_type (Some "cards") empty_slide_data))
              [blank_slide] prs' [mkSlide (SolidBackground (mkRGB 0 0 0)) []] Hrun eq_refl)
    as (slide & Hp & H2).
  exists slide; split; [rewrite Hrun, Hp; reflexivity | exact H2].
Defined.

End PositionFacts.

(* ================================================================== *)
(** * Decks that always build *)
(* ================================================================== *)

Module DeckFacts.

Import Pptx Layout Observed.
Import BuilderFacts.
Local Open Scope list_scope.

Section PlainSlides.

Variable env : Env.
Variable theme : Theme.
Hypothesis Hok : theme_ok theme = true.
Hypothesis H6 : six_digits theme = true.
Variables (font workspace : string).

Lemma stats_slide_total prs sd :
  exists prs', _build_stats_slide prs sd theme font = Ok prs'.
Proof.
  destruct (stats sd) as [| st0 rest] eqn:Hs.
  - unfold _build_stats_slide.
    change (add_slide prs) with (fst (add_slide prs), blank_slide); cbv iota beta.
    destruct (light_head_ok theme Hok font (Py.get (title sd) "") "#FFFFFF")
      as (s0 & s1 & -> & H1); cbn [Py.bind]; rewrite H1; cbn [Py.bind].
    rewrite Hs; cbn [List.length Nat.eqb].
    destruct (footer_ok theme Hok font s1 (fst (add_slide prs))) as (s2 & ->).
    cbn [Py.bind]; eauto.
  - assert (Hw : exists card_w,
               (if (List.length (stats sd) <=? 5)%nat
                then Py.div (12.3 - (float_of_nat (List.length (stats sd)) - 1) * 0.4)
                            (float_of_nat (List.length (stats sd)))
                else Py.div (12.3 - 4 * 0.4) 5)%Q = Ok card_w).
    { destruct (List.length (stats sd) <=? 5)%nat.
      - rewrite div_by_count by (rewrite Hs; simpl; lia); eauto.
      - eexists; vm_compute; reflexivity. }
    destruct Hw as (card_w & Hw).
    destruct (RowFacts.stats_slide_runs prs sd theme font card_w Hok) as (slide & Hb & _);
      [rewrite Hs; discriminate | exact Hw | eauto].
Qed.

Lemma timeline_slide_total prs sd :
  exists prs', _build_timeline_slide prs sd theme font = Ok prs'.
Proof.
  unfold _build_timeline_slide.
  change (add_slide prs) with (fst (add_slide prs), blank_slide); cbv iota beta.
  destruct (light_head_ok theme Hok font (Py.get (title sd) "") "#FFFFFF")
    as (s0 & s1 & -> & H1); cbn [Py.bind]; rewrite H1; cbn [Py.bind].
  destruct (List.length (steps sd)) as [| m] eqn:Hlen; cbn [Nat.eqb].
  - destruct (footer_ok theme Hok font s1 (fst (add_slide prs))) as (s2 & ->).
    cbn [Py.bind]; eauto.
  - role Hok "secondary" cs rs Ls Hs.
    unfold item; rewrite Ls; cbn [of_option Py.bind].
    destruct (bar_ok s1 0.8%Q timeline_line_y 11.7%Q 0.04%Q cs rs Hs) as (s2 & ->).
    cbn [Py.bind].
    rewrite div_by_count by lia; cbn [Py.bind].
    destruct (steps_loop_ok theme Hok font (timeline_length / float_of_nat (S m))%Q
                            (steps sd) 0%nat s2) as (s3 & ->).
    cbn [Py.bind].
    destruct (footer_ok theme Hok font s3 (fst (add_slide prs))) as (s4 & ->).
    cbn [Py.bind]; eauto.
Qed.

Lemma plain_slide_total prs sd :
  existsb (String.eqb (normalized_type sd)) plain_types = true ->
  exists prs', build_slide env theme font workspace sd prs = Ok prs'.
Proof.
  unfold build_slide, normalized_type.
  generalize (strip (lower (Py.get (slide_type sd) "content"))) as st.
  intros st H; unfold plain_types in H; cbn [existsb] in H.
  repeat (apply orb_prop in H as [H | H]);
    try discriminate H;
    apply String.eqb_eq in H; subst st;
    cbv [SLIDE_BUILDERS lookup String.eqb Ascii.eqb Bool.eqb call4 call5].
  - apply ThemeFacts.title_slide_ok; assumption.
  - apply ThemeFacts.title_slide_ok; assumption.
  - apply ThemeFacts.section_slide_ok; assumption.
  - apply ThemeFacts.section_slide_ok; assumption.
  - apply ThemeFacts.quote_slide_ok; assumption.
  - apply ThemeFacts.ending_slide_ok; assumption.
  - apply ThemeFacts.ending_slide_ok; assumption.
  - apply stats_slide_total.
  - apply stats_slide_total.
  - apply timeline_slide_total.
Qed.

Lemma plain_deck_total (slides_content : list SlideData) :
  plain_deck slides_content = true ->
  forall prs0,
    exists prs,
      for_each (build_slide env theme font workspace) slides_content prs0 = Ok prs
      /\ List.length prs = (List.length prs0 + List.length slides_content)%nat.
Proof.
  induction slides_content as [| sd rest IH]; intros Hp prs0; cbn [for_each].
  - exists prs0; split; [reflexivity | simpl; lia].
  - unfold plain_deck in Hp; cbn [forallb] in Hp; apply andb_prop in Hp as (Hsd & Hrest).
    destruct (plain_slide_total prs0 sd Hsd) as (prs1 & H1).
    destruct (build_slide_adds _ _ _ _ _ _ _ H1) as ((slide & ->) & _).
    rewrite H1; cbn [Py.bind].
    destruct (IH Hrest (prs0 ++ [slide])) as (prs & Hrun & Hlen).
    exists prs; split; [exact Hrun |].
    rewrite Hlen, length_app; simpl; lia.
Qed.

End PlainSlides.

(** X25: a deck made of title, section, quote, ending, stats and timeline
    slides only (under any of their tags), with a theme chosen by name and
    no custom colour, always builds, whatever the strings and the numbers
    of items of its entries: when the workspace is configured and the
    output directory and the save succeed, the entry point returns the
    success record with one slide per entry. *)
Theorem plain_decks_always_build (env : Env) (file_path workspace name : string)
        (slides_content : list SlideData) :
  workspace_path env = Some workspace ->
  truthy workspace = true ->
  (forall p, makedirs env p = Ok tt) ->
  save env (path_join workspace file_path) = Ok tt ->
  plain_deck slides_content = true ->
  exists r,
    generate_pptx_presentation env file_path slides_content (Some (theme_settings name))
    = Ok (Success r)
    /\ slides_count r = Some (List.length slides_content)
    /\ Py.file_path r = path_join workspace file_path.
Proof.
  intros Hw Ht Hm Hs Hp; unfold generate_pptx_presentation.
  rewrite Hw, Ht, Hm; cbn [negb Py.bind Py.get].
  pose proof (ThemeFacts.get_theme_checked name) as Hth.
  apply andb_prop in Hth as (Hok & H6).
  destruct (plain_deck_total env (_get_theme name) Hok H6 "微软雅黑" workspace
                             slides_content Hp [])
    as (prs & Hrun & Hlen).
  unfold build_deck, resolve_theme, theme_settings.
  cbn [settings_theme custom_colors default_font Py.get].
  rewrite Hrun; cbn [Py.bind]; rewrite Hs; cbn [Py.bind].
  eexists; split; [reflexivity |].
  cbn [slides_count Py.file_path]; rewrite Hlen; split; reflexivity.
Qed.

Lemma plain_decks_always_build_witness :
  exists r,
    generate_pptx_presentation sample_env "out/deck.pptx"
      [with_title (Some "Roadmap") (with_slide_type (Some " Title ") empty_slide_data);
       with_stats [mkStat (Some "42") (Some "users") None None]
                  (with_slide_type (Some "statistics") empty_slide_data);
       with_slide_type (Some "thank_you") empty_slide_data]
      (Some (theme_settings "forest"))
    = Ok (Success r)
    /\ slides_count r = Some 3%nat.
Proof.
  destruct (plain_decks_always_build sample_env "out/deck.pptx" "/ws" "forest"
              [with_title (Some "Roadmap")
                          (with_slide_type (Some " Title ") empty_slide_data);
               with_stats [mkStat (Some "42") (Some "users") None None]
                          (with_slide_type (Some "statistics") empty_slide_data);
               with_slide_type (Some "thank_you") empty_slide_data]
              eq_refl eq_refl (fun _ => eq_refl) eq_refl eq_refl)
    as (r & Hr & Hc & _).
  exists r; split; [exact Hr | exact Hc].
Defined.

End DeckFacts.

(* ================================================================== *)
(** * The chart slide *)
(* ================================================================== *)

Module ChartSlideFacts.

Import Pptx Layout Observed.
Import BuilderFacts.
Local Open Scope list_scope.








End ChartSlideFacts.
